(** * Sealed-PDF generation and evidence hashing (Verum Omnis V5)

    A shallow embedding of [src/utils/sealPdf.ts]: the document builder
    [makeSealedPdf] with its footer furniture [drawPageFurniture], the hasher
    [stringToHash], the Markdown flattening [markdownToPlainText], the
    automatic verification [performAutomaticVerification] and the caller
    [performSealingProcess].

    Conventions of the model.
    - A JavaScript string is the list of its UTF-16 code units.
    - Lengths and coordinates are integers counted in hundredths of a PDF
      point, so that the A4 sheet of pdf-lib (595.28 x 841.89) is exact; the
      source's [50], [80], ... are written [pt 50], [pt 80], ...  Font sizes
      stay in points.  The vertical cursors only take the values
      [start - 12 i - 14 j] for a few dozen steps and are compared with 100
      and 80, from which they stay at least 3.89 points away: binary
      floating point decides these comparisons as exact arithmetic does.
      The width of a text is what [font.widthOfTextAtSize] returns, a
      parameter of the model, used only to be compared with the content
      width.
    - An awaited promise is represented by the way it settles.  The calls
      that the source awaits on pdf-lib and on the [qrcode] package may
      fail; drawing calls, [addPage] and [widthOfTextAtSize] are taken to
      succeed on the texts they are given, and so is the digest of Web
      Crypto.  pdf-lib throws on a text that the font cannot encode, and no
      document is returned then: what is proved of a document is stated of
      the requests for which the builder returns one.
    - A PDF document is the list of its pages and a page the list of the
      drawing operations it received, in order; a page object is referred to
      by its index, as the source keeps references to pages of the one
      document. *)

From Stdlib Require Import Ascii String Strings.Byte.
From Stdlib Require Import NArith ZArith Lia Bool List Sorting.Sorted.
Import ListNotations.

(* ================================================================== *)
(** * ECMAScript primitives used by the source *)
(* ================================================================== *)

Module JS.

Definition jsstring := list N.

(** A string literal of the source whose characters are all ASCII. *)
Definition lit (s : string) : jsstring :=
  map N_of_ascii (list_ascii_of_string s).

Definition eqb (a b : jsstring) : bool :=
  if list_eq_dec N.eq_dec a b then true else false.

(** Truthiness of a string: every string but the empty one. *)
Definition truthy (s : jsstring) : bool :=
  match s with [] => false | _ :: _ => true end.

(** [a || b] on strings. *)
Definition orElse (a b : jsstring) : jsstring :=
  if truthy a then a else b.

(** WhiteSpace and LineTerminator code points, as [String.prototype.trim]
    strips them. *)
Definition isWhiteSpace (c : N) : bool :=
  existsb (N.eqb c)
    [9; 10; 11; 12; 13; 32; 160; 5760; 8232; 8233; 8239; 8287; 12288; 65279]%N
  || ((8192 <=? c) && (c <=? 8202))%N.

Fixpoint trimStart (s : jsstring) : jsstring :=
  match s with
  | [] => []
  | c :: r => if isWhiteSpace c then trimStart r else s
  end.

Definition trimEnd (s : jsstring) : jsstring := rev (trimStart (rev s)).

Definition trim (s : jsstring) : jsstring := trimEnd (trimStart s).

(** [s.split(sep)] for a separator of one code unit. *)
Fixpoint split (sep : N) (s : jsstring) : list jsstring :=
  match s with
  | [] => [[]]
  | c :: r =>
      if (c =? sep)%N then [] :: split sep r
      else match split sep r with
           | piece :: more => (c :: piece) :: more
           | [] => [[c]]
           end
  end.

(** [s.substring(from, to)] for [0 <= from <= to]. *)
Definition substring (from to : nat) (s : jsstring) : jsstring :=
  firstn (to - from) (skipn from s).

Fixpoint startsWith (pat s : jsstring) : bool :=
  match pat, s with
  | [], _ => true
  | _ :: _, [] => false
  | p :: pat', c :: s' => (p =? c)%N && startsWith pat' s'
  end.

(** [s.includes(pat)]. *)
Fixpoint includes (pat s : jsstring) : bool :=
  startsWith pat s ||
  match s with
  | [] => false
  | _ :: s' => includes pat s'
  end.

(** [join('')]. *)
Definition join (parts : list jsstring) : jsstring := concat parts.

(** One digit of [Number.prototype.toString(radix)]: [0-9] then [a-z]. *)
Definition digitChar (d : N) : N :=
  if (d <? 10)%N then (48 + d)%N else (87 + d)%N.

Fixpoint digitsOf (fuel : nat) (radix n : N) (acc : jsstring) : jsstring :=
  match fuel with
  | O => acc
  | S fuel' =>
      if (n <? radix)%N then digitChar n :: acc
      else digitsOf fuel' radix (n / radix) (digitChar (n mod radix) :: acc)
  end.

(** [n.toString(radix)] for a non-negative integer [n] and [2 <= radix]:
    a number of [k] bits has at most [k] digits. *)
Definition toString (radix n : N) : jsstring :=
  digitsOf (S (N.size_nat n)) radix n [].

(** [s.padStart(len, fill)] for a filler of one code unit. *)
Definition padStart (len : nat) (fill : N) (s : jsstring) : jsstring :=
  repeat fill (len - length s) ++ s.

(** ** [String.prototype.replace] with a global regular expression that
    matches one literal string *)

(** GetSubstitution for a pattern without capture groups: [$$] is a dollar,
    [$&] the match, [$`] what precedes it, [$'] what follows it; any other
    use of a dollar stands for itself. *)
Fixpoint getSubstitution (repl matched before after : jsstring) : jsstring :=
  match repl with
  | [] => []
  | 36%N :: r =>
      match r with
      | 36%N :: r' => 36%N :: getSubstitution r' matched before after
      | 38%N :: r' => matched ++ getSubstitution r' matched before after
      | 96%N :: r' => before ++ getSubstitution r' matched before after
      | 39%N :: r' => after ++ getSubstitution r' matched before after
      | _ => 36%N :: getSubstitution r matched before after
      end
  | c :: r => c :: getSubstitution r matched before after
  end.

(** The scan of [s.replace(/pat/g, repl)], [pat] a non-empty literal:
    [before] is the part of the subject already passed and [skip] the number
    of code units of the current match still to pass. *)
Fixpoint replaceScan (pat repl before : jsstring) (skip : nat) (s : jsstring)
  : jsstring :=
  match s with
  | [] => []
  | c :: r =>
      match skip with
      | S k => replaceScan pat repl (before ++ [c]) k r
      | O =>
          if startsWith pat s then
            getSubstitution repl pat before (skipn (length pat) s)
            ++ replaceScan pat repl (before ++ [c]) (length pat - 1) r
          else c :: replaceScan pat repl (before ++ [c]) 0 r
      end
  end.

Definition replaceAll (pat repl s : jsstring) : jsstring :=
  replaceScan pat repl [] 0 s.

(** [s.replace(/[:.]/g, '-')]. *)
Definition replaceColonDot (s : jsstring) : jsstring :=
  map (fun c => if ((c =? 58) || (c =? 46))%N then 45%N else c) s.

(** ** [String.prototype.replace] with a global regular expression

    The expressions of the source match no empty string, so that the scan
    resumes where a match ends. [matchAt atStart s] is the match that
    starts at the current position, [s] being the rest of the subject and
    [atStart] telling that the position is the start of the subject, where
    [^] matches: the number of code units matched and the text that
    GetSubstitution puts in their place. The leftmost match is taken, and
    the code units before it are copied. *)

Fixpoint replaceMatches (matchAt : bool -> jsstring -> option (nat * jsstring))
  (atStart : bool) (skip : nat) (s : jsstring) : jsstring :=
  match s with
  | [] => []
  | c :: r =>
      match skip with
      | S k => replaceMatches matchAt false k r
      | O =>
          match matchAt atStart s with
          | Some (matched, substitution) =>
              substitution ++ replaceMatches matchAt false (matched - 1) r
          | None => c :: replaceMatches matchAt false 0 r
          end
      end
  end.

Definition replaceRegExp (matchAt : bool -> jsstring -> option (nat * jsstring))
  (s : jsstring) : jsstring :=
  replaceMatches matchAt true 0 s.

(** LineTerminator: the code units that [.] does not match. *)
Definition isLineTerminator (c : N) : bool :=
  existsb (N.eqb c) [10; 13; 8232; 8233]%N.

(** The number of code units a greedy repetition of a class of code units
    takes. *)
Fixpoint run (class : N -> bool) (s : jsstring) : nat :=
  match s with
  | [] => O
  | c :: r => if class c then S (run class r) else O
  end.

(** The number of code units a lazy repetition of [.] takes before
    [delim]: those up to the first [delim] that no line terminator
    precedes. *)
Fixpoint upTo (delim : jsstring) (s : jsstring) : option nat :=
  match s with
  | [] => if startsWith delim [] then Some O else None
  | c :: r =>
      if startsWith delim s then Some O
      else if isLineTerminator c then None
      else option_map S (upTo delim r)
  end.

(** ** [JSON.stringify] on strings, numbers and arrays of strings *)

Definition hex4 (c : N) : jsstring :=
  padStart 4 48 (toString 16 c).

(** QuoteJSONString, one code unit at a time; a surrogate is escaped when it
    is not half of a pair. *)
Fixpoint quoteUnits (s : jsstring) : jsstring :=
  match s with
  | [] => []
  | c :: r =>
      let escaped := [92; 117]%N ++ hex4 c in
      if (c =? 8)%N then [92; 98]%N ++ quoteUnits r
      else if (c =? 9)%N then [92; 116]%N ++ quoteUnits r
      else if (c =? 10)%N then [92; 110]%N ++ quoteUnits r
      else if (c =? 12)%N then [92; 102]%N ++ quoteUnits r
      else if (c =? 13)%N then [92; 114]%N ++ quoteUnits r
      else if (c =? 34)%N then [92; 34]%N ++ quoteUnits r
      else if (c =? 92)%N then [92; 92]%N ++ quoteUnits r
      else if (c <? 32)%N then escaped ++ quoteUnits r
      else if ((55296 <=? c) && (c <=? 56319))%N then
        match r with
        | d :: r' =>
            if ((56320 <=? d) && (d <=? 57343))%N
            then c :: d :: quoteUnits r'
            else escaped ++ quoteUnits r
        | [] => escaped
        end
      else if ((56320 <=? c) && (c <=? 57343))%N then escaped ++ quoteUnits r
      else c :: quoteUnits r
  end.

Definition stringifyString (s : jsstring) : jsstring :=
  [34%N] ++ quoteUnits s ++ [34%N].

Definition stringifyNumber (n : N) : jsstring := toString 10 n.

Fixpoint commaSep (parts : list jsstring) : jsstring :=
  match parts with
  | [] => []
  | [p] => p
  | p :: more => p ++ [44%N] ++ commaSep more
  end.

Definition stringifyArray (xs : list jsstring) : jsstring :=
  [91%N] ++ commaSep (map stringifyString xs) ++ [93%N].

(** An object literal given by its properties in insertion order, each value
    already serialized. *)
Definition stringifyObject (props : list (jsstring * jsstring)) : jsstring :=
  [123%N]
  ++ commaSep (map (fun kv => stringifyString (fst kv) ++ [58%N] ++ snd kv) props)
  ++ [125%N].

End JS.

Export JS.

(** The settlement of an awaited promise. *)
Definition Error := jsstring.

Inductive Promise (A : Type) : Type :=
| Fulfilled (value : A)
| Rejected (reason : Error).

Arguments Fulfilled {A} value.
Arguments Rejected {A} reason.

Definition await {A B : Type} (p : Promise A) (k : A -> Promise B) : Promise B :=
  match p with
  | Fulfilled a => k a
  | Rejected e => Rejected e
  end.

Notation "x <- 'await' p ;; k" := (await p (fun x => k))
  (at level 61, p at next level, right associativity).

(** A promise that settles by the outcome of a collaborator: rejected with
    the collaborator's error when there is one. *)
Definition settle {A : Type} (failure : option Error) (value : A) : Promise A :=
  match failure with
  | Some e => Rejected e
  | None => Fulfilled value
  end.

(* ================================================================== *)
(** * The pdf-lib document and the collaborators of the builder *)
(* ================================================================== *)

Module PdfLib.

(** [n] points, in hundredths of a point. *)
Definition pt (n : Z) : Z := 100 * n.

(** [PageSizes.A4], 595.28 by 841.89 points. *)
Definition PageSizes_A4 : Z * Z := (59528, 84189)%Z.

(** [rgb(r, g, b)], each component in tenths. *)
Inductive Color : Type := rgb (r g b : Z).

(** The data URL returned by [QRCode.toDataURL(text)]: the raster code is
    identified by the text it encodes. *)
Inductive DataUrl : Type := QrDataUrl (text : jsstring).

(** The image returned by [pdf.embedPng(dataUrl)]. *)
Inductive PDFImage : Type := PngImage (source : DataUrl).

Inductive DrawOp : Type :=
| DrawText (text : jsstring) (x y : Z) (size : Z) (color : option Color)
| DrawImage (image : PDFImage) (x y width height : Z).

Definition PDFPage := list DrawOp.
Definition PDFDocument := list PDFPage.

(** [PDFDocument.create()] resolves to a document without pages. *)
Definition emptyDocument : PDFDocument := [].

Definition getPageCount (pdf : PDFDocument) : nat := length pdf.

(** [pdf.addPage(PageSizes.A4)]: the new page is the last one; the result
    holds the reference to it. *)
Definition addPage (pdf : PDFDocument) : PDFDocument * nat :=
  (pdf ++ [[]], length pdf).

(** A drawing call on the page object [page] of [pdf]. *)
Fixpoint drawOn (pdf : PDFDocument) (page : nat) (op : DrawOp) : PDFDocument :=
  match pdf, page with
  | [], _ => []
  | p :: ps, O => (p ++ [op]) :: ps
  | p :: ps, S k => p :: drawOn ps k op
  end.

(** [page.drawText(text, options)], for a text that the font encodes. *)
Definition drawText (pdf : PDFDocument) (page : nat) (text : jsstring)
  (x y size : Z) (color : option Color) : PDFDocument :=
  drawOn pdf page (DrawText text x y size color).

Definition drawImage (pdf : PDFDocument) (page : nat) (image : PDFImage)
  (x y width height : Z) : PDFDocument :=
  drawOn pdf page (DrawImage image x y width height).

End PdfLib.

Export PdfLib.

(** What the builder asks of pdf-lib, of the [qrcode] package and of the
    embedded Helvetica font. Each asynchronous call either fails with the
    collaborator's error or yields its value. *)
Class Collaborators : Type := {
  (** [PDFDocument.create()] *)
  create_failure : option Error;
  (** [pdf.embedFont(StandardFonts.Helvetica)] *)
  embedFont_failure : option Error;
  (** [font.widthOfTextAtSize(text, size)] *)
  widthOfTextAtSize : jsstring -> Z -> Z;
  (** [QRCode.toDataURL(text)] *)
  toDataURL_failure : jsstring -> option Error;
  (** [pdf.embedPng(dataUrl)] *)
  embedPng_failure : DataUrl -> option Error;
  (** [pdf.save()]: its failure, and the bytes it writes otherwise *)
  save_failure : PDFDocument -> option Error;
  serialize : PDFDocument -> list byte
}.

Section Builder.

Context {C : Collaborators}.

Definition PDFDocument_create : Promise PDFDocument :=
  settle create_failure emptyDocument.

Definition embedFont (pdf : PDFDocument) : Promise unit :=
  settle embedFont_failure tt.

Definition QRCode_toDataURL (text : jsstring) : Promise DataUrl :=
  settle (toDataURL_failure text) (QrDataUrl text).

Definition embedPng (pdf : PDFDocument) (url : DataUrl) : Promise PDFImage :=
  settle (embedPng_failure url) (PngImage url).

Definition save (pdf : PDFDocument) : Promise (list byte) :=
  settle (save_failure pdf) (serialize pdf).

(** ** [SealInput] *)

Record Evidence : Type := {
  name : jsstring;
  sha512 : jsstring
}.

Record SealInput : Type := {
  title : jsstring;
  messagesHtml : option jsstring;
  evidence : list Evidence;
  utcTimestamp : jsstring;
  localTimestamp : jsstring;
  appVersion : jsstring;
  logoDataUrl : option jsstring
}.

(** ** [drawPageFurniture] *)

Definition footerText : jsstring :=
  [8482%N] ++ lit " Patent Pending Verum Omnis".

Definition hashText (partialHash : option jsstring) : jsstring :=
  match partialHash with
  | Some h =>
      if truthy h then lit " | Evidence Hash: " ++ h ++ lit "..." else []
  | None => []
  end.

Definition drawPageFurniture (pdf : PDFDocument) (page : nat)
  (partialHash : option jsstring) : PDFDocument :=
  drawText pdf page (footerText ++ hashText partialHash)
    (pt 50) (pt 40) 8 (Some (rgb 5 5 5)).

(** ** [makeSealedPdf] *)

(** [input.evidence[0]?.sha512 || null] *)
Definition primaryHashOf (input : SealInput) : option jsstring :=
  match evidence input with
  | [] => None
  | e :: _ => if truthy (sha512 e) then Some (sha512 e) else None
  end.

(** [primaryHash ? primaryHash.substring(0, 16) : null] *)
Definition partialHashOf (input : SealInput) : option jsstring :=
  match primaryHashOf input with
  | Some h => Some (substring 0 16 h)
  | None => None
  end.

Record QRPayload : Type := {
  payload_sha512 : list jsstring;
  payload_filenames : list jsstring;
  payload_utcTimestamp : jsstring;
  payload_appVersion : jsstring;
  payload_pageCount : nat
}.

Definition JSON_stringify (p : QRPayload) : jsstring :=
  stringifyObject
    [ (lit "sha512", stringifyArray (payload_sha512 p));
      (lit "filenames", stringifyArray (payload_filenames p));
      (lit "utcTimestamp", stringifyString (payload_utcTimestamp p));
      (lit "appVersion", stringifyString (payload_appVersion p));
      (lit "pageCount", stringifyNumber (N.of_nat (payload_pageCount p))) ].

(** [qrPayload.pageCount = n] *)
Definition setPageCount (p : QRPayload) (n : nat) : QRPayload :=
  {| payload_sha512 := payload_sha512 p;
     payload_filenames := payload_filenames p;
     payload_utcTimestamp := payload_utcTimestamp p;
     payload_appVersion := payload_appVersion p;
     payload_pageCount := n |}.

Definition width : Z := fst PageSizes_A4.
Definition height : Z := snd PageSizes_A4.

(** *** Page 1: the evidence list *)

(** The callback of [input.evidence.forEach], on the summary page [page]
    with the cursor [y]. *)
Definition drawEvidence (page : nat) (st : PDFDocument * Z) (ev : Evidence)
  : PDFDocument * Z :=
  let '(pdf, y) := st in
  if (y <? pt 100)%Z then (pdf, y)
  else
    let pdf := drawText pdf page ([8226; 32]%N ++ name ev) (pt 60) y 10 None in
    let y := (y - pt 12)%Z in
    let pdf := drawText pdf page (lit "  SHA-512: " ++ sha512 ev) (pt 60) y 9 None in
    let y := (y - pt 14)%Z in
    (pdf, y).

(** *** Page 2 onwards: the body *)

Definition x : Z := pt 50.
Definition fontSize : Z := 10.
Definition lineHeight : Z := pt 14.
Definition bottomMargin : Z := pt 80.
Definition topMargin : Z := pt 80.
Definition maxWidth : Z := (width - 2 * x)%Z.

(** The variables the body loops assign: the document, the page being
    written and the vertical cursor. *)
Record Layout : Type := {
  pdf : PDFDocument;
  currentPage : nat;
  currentY : Z
}.

(** [if (currentY < bottomMargin) { currentPage = pdf.addPage(...);
    drawPageFurniture(...); currentY = height - topMargin; }], which the
    source writes out at each of its three uses. *)
Definition breakPageIfBelow (partialHash : option jsstring) (l : Layout) : Layout :=
  if (currentY l <? bottomMargin)%Z then
    let '(pdf', page) := addPage (pdf l) in
    {| pdf := drawPageFurniture pdf' page partialHash;
       currentPage := page;
       currentY := (height - topMargin)%Z |}
  else l.

(** The page-break check followed by [currentPage.drawText(line, ...)] and
    [currentY -= lineHeight]. *)
Definition drawLine (partialHash : option jsstring) (l : Layout) (line : jsstring)
  : Layout :=
  let l := breakPageIfBelow partialHash l in
  {| pdf := drawText (pdf l) (currentPage l) line x (currentY l) fontSize None;
     currentPage := currentPage l;
     currentY := (currentY l - lineHeight)%Z |}.

(** [for (const word of words)], from the line accumulated so far. *)
Fixpoint wordLoop (partialHash : option jsstring) (words : list jsstring)
  (line : jsstring) (l : Layout) : jsstring * Layout :=
  match words with
  | [] => (line, l)
  | word :: rest =>
      let testLine :=
        if (length line =? 0)%nat then word else line ++ [32%N] ++ word in
      let testWidth := widthOfTextAtSize testLine fontSize in
      if (testWidth >? maxWidth)%Z
      then wordLoop partialHash rest word (drawLine partialHash l line)
      else wordLoop partialHash rest testLine l
  end.

(** The body of [for (const paragraph of paragraphs)]. *)
Definition renderParagraph (partialHash : option jsstring) (l : Layout)
  (paragraph : jsstring) : Layout :=
  if JS.eqb (trim paragraph) [] then
    breakPageIfBelow partialHash
      {| pdf := pdf l; currentPage := currentPage l;
         currentY := (currentY l - lineHeight)%Z |}
  else
    let words := split 32 paragraph in
    let '(line, l) := wordLoop partialHash words [] l in
    if (0 <? length line)%nat then drawLine partialHash l line else l.

(** The block guarded by [if (input.messagesHtml)]. *)
Definition renderBody (partialHash : option jsstring) (pdf0 : PDFDocument)
  (messagesHtml : jsstring) : PDFDocument :=
  let '(pdf1, currentPage0) := addPage pdf0 in
  let pdf1 := drawPageFurniture pdf1 currentPage0 partialHash in
  let pdf1 :=
    drawText pdf1 currentPage0 (lit "Conversation Excerpt:")
      (pt 50) (height - pt 80) 12 None in
  let paragraphs := split 10 messagesHtml in
  pdf (fold_left (renderParagraph partialHash) paragraphs
         {| pdf := pdf1; currentPage := currentPage0;
            currentY := (height - pt 100)%Z |}).

(** *** The whole builder *)

(** What [makeSealedPdf] holds when it reaches [pdf.save()]: the document
    and the [qrPayload] object. *)
Record Built : Type := {
  built_pdf : PDFDocument;
  built_qrPayload : QRPayload
}.

(** [makeSealedPdf] up to its last statement. *)
Definition buildSealedPdf (input : SealInput) : Promise Built :=
  pdf <- await PDFDocument_create ;;
  font <- await embedFont pdf ;;
  let pageCount := getPageCount pdf in
  let partialHash := partialHashOf input in
  let qrPayload :=
    {| payload_sha512 := map sha512 (evidence input);
       payload_filenames := map name (evidence input);
       payload_utcTimestamp := utcTimestamp input;
       payload_appVersion := appVersion input;
       payload_pageCount := pageCount |} in
  qrDataUrl <- await QRCode_toDataURL (JSON_stringify qrPayload) ;;
  (* Page 1: title and summary *)
  let '(pdf, page) := addPage pdf in
  let pdf := drawPageFurniture pdf page partialHash in
  let pdf := drawText pdf page (lit "Verum Omnis V5") (pt 50) (height - pt 80) 24 None in
  let pdf :=
    drawText pdf page (orElse (title input) (lit "Sealed Forensic Report"))
      (pt 50) (height - pt 120) 18 (Some (rgb 2 2 2)) in
  let pdf := drawText pdf page (lit "Evidence & Hashes:") (pt 50) (height - pt 165) 12 None in
  let '(pdf, _) :=
    fold_left (drawEvidence page) (evidence input) (pdf, (height - pt 185)%Z) in
  (* Page 2 onwards: the body, when there is one *)
  let pdf :=
    match messagesHtml input with
    | Some body => if truthy body then renderBody partialHash pdf body else pdf
    | None => pdf
    end in
  (* Final sealing page *)
  let '(pdf, final) := addPage pdf in
  let pdf := drawPageFurniture pdf final partialHash in
  let pdf := drawText pdf final (lit "Sealing Metadata") (pt 50) (height - pt 80) 14 None in
  qrPng <- await embedPng pdf qrDataUrl ;;
  let qrw := pt 120 in
  let pdf := drawImage pdf final qrPng (width - pt 50 - qrw) (pt 50) qrw qrw in
  let finalPageCount := getPageCount pdf in
  let qrPayload := setPageCount qrPayload finalPageCount in
  let meta :=
    [ lit "Local Timestamp: " ++ localTimestamp input;
      lit "UTC Timestamp: " ++ utcTimestamp input;
      lit "Version: " ++ appVersion input;
      lit "Files: " ++ toString 10 (N.of_nat (length (evidence input)));
      lit "Page Count: " ++ toString 10 (N.of_nat finalPageCount) ] in
  let '(pdf, _) :=
    fold_left
      (fun (st : PDFDocument * Z) m =>
         let '(pdf, my) := st in
         (drawText pdf final m (pt 50) my 11 None, (my - pt 14)%Z))
      meta (pdf, (height - pt 110)%Z) in
  Fulfilled {| built_pdf := pdf; built_qrPayload := qrPayload |}.

(** [makeSealedPdf]: the document is built and [pdf.save()] awaited. *)
Definition makeSealedPdf (input : SealInput) : Promise (list byte) :=
  built <- await buildSealedPdf input ;;
  save (built_pdf built).

End Builder.

(* ================================================================== *)
(** * SHA-512, the algorithm [crypto.subtle.digest] is asked for *)
(* ================================================================== *)

Module SHA512.

Local Open Scope Z_scope.

Definition w64 (z : Z) : Z := z mod 2 ^ 64.

Definition rotr (n x : Z) : Z :=
  w64 (Z.lor (Z.shiftr x n) (Z.shiftl x (64 - n))).

Definition Ch (e f g : Z) : Z :=
  Z.lxor (Z.land e f) (Z.land (w64 (Z.lnot e)) g).

Definition Maj (a b c : Z) : Z :=
  Z.lxor (Z.lxor (Z.land a b) (Z.land a c)) (Z.land b c).

Definition Sigma0 (a : Z) : Z :=
  Z.lxor (Z.lxor (rotr 28 a) (rotr 34 a)) (rotr 39 a).

Definition Sigma1 (e : Z) : Z :=
  Z.lxor (Z.lxor (rotr 14 e) (rotr 18 e)) (rotr 41 e).

Definition sigma0 (w : Z) : Z :=
  Z.lxor (Z.lxor (rotr 1 w) (rotr 8 w)) (Z.shiftr w 7).

Definition sigma1 (w : Z) : Z :=
  Z.lxor (Z.lxor (rotr 19 w) (rotr 61 w)) (Z.shiftr w 6).

Definition K : list Z := [
  0x428a2f98d728ae22; 0x7137449123ef65cd; 0xb5c0fbcfec4d3b2f; 0xe9b5dba58189dbbc;
  0x3956c25bf348b538; 0x59f111f1b605d019; 0x923f82a4af194f9b; 0xab1c5ed5da6d8118;
  0xd807aa98a3030242; 0x12835b0145706fbe; 0x243185be4ee4b28c; 0x550c7dc3d5ffb4e2;
  0x72be5d74f27b896f; 0x80deb1fe3b1696b1; 0x9bdc06a725c71235; 0xc19bf174cf692694;
  0xe49b69c19ef14ad2; 0xefbe4786384f25e3; 0x0fc19dc68b8cd5b5; 0x240ca1cc77ac9c65;
  0x2de92c6f592b0275; 0x4a7484aa6ea6e483; 0x5cb0a9dcbd41fbd4; 0x76f988da831153b5;
  0x983e5152ee66dfab; 0xa831c66d2db43210; 0xb00327c898fb213f; 0xbf597fc7beef0ee4;
  0xc6e00bf33da88fc2; 0xd5a79147930aa725; 0x06ca6351e003826f; 0x142929670a0e6e70;
  0x27b70a8546d22ffc; 0x2e1b21385c26c926; 0x4d2c6dfc5ac42aed; 0x53380d139d95b3df;
  0x650a73548baf63de; 0x766a0abb3c77b2a8; 0x81c2c92e47edaee6; 0x92722c851482353b;
  0xa2bfe8a14cf10364; 0xa81a664bbc423001; 0xc24b8b70d0f89791; 0xc76c51a30654be30;
  0xd192e819d6ef5218; 0xd69906245565a910; 0xf40e35855771202a; 0x106aa07032bbd1b8;
  0x19a4c116b8d2d0c8; 0x1e376c085141ab53; 0x2748774cdf8eeb99; 0x34b0bcb5e19b48a8;
  0x391c0cb3c5c95a63; 0x4ed8aa4ae3418acb; 0x5b9cca4f7763e373; 0x682e6ff3d6b2b8a3;
  0x748f82ee5defb2fc; 0x78a5636f43172f60; 0x84c87814a1f0ab72; 0x8cc702081a6439ec;
  0x90befffa23631e28; 0xa4506cebde82bde9; 0xbef9a3f7b2c67915; 0xc67178f2e372532b;
  0xca273eceea26619c; 0xd186b8c721c0c207; 0xeada7dd6cde0eb1e; 0xf57d4f7fee6ed178;
  0x06f067aa72176fba; 0x0a637dc5a2c898a6; 0x113f9804bef90dae; 0x1b710b35131c471b;
  0x28db77f523047d84; 0x32caab7b40c72493; 0x3c9ebe0a15c9bebc; 0x431d67c49c100d4c;
  0x4cc5d4becb3e42b6; 0x597f299cfc657e2a; 0x5fcb6fab3ad6faec; 0x6c44198c4a475817
].

Record State : Type := {
  h0 : Z; h1 : Z; h2 : Z; h3 : Z; h4 : Z; h5 : Z; h6 : Z; h7 : Z
}.

Definition initial : State :=
  {| h0 := 0x6a09e667f3bcc908; h1 := 0xbb67ae8584caa73b;
     h2 := 0x3c6ef372fe94f82b; h3 := 0xa54ff53a5f1d36f1;
     h4 := 0x510e527fade682d1; h5 := 0x9b05688c2b3e6c1f;
     h6 := 0x1f83d9abfb41bd6b; h7 := 0x5be0cd19137e2179 |}.

(** The message, the bit 1, zero bits up to 112 modulo 128 bytes, and the
    length in bits on 128 bits. *)
Definition bigEndian (count : nat) (v : Z) : list Z :=
  map (fun i => (Z.shiftr v (8 * Z.of_nat i)) mod 256) (rev (seq 0 count)).

Definition pad (message : list Z) : list Z :=
  let len := Z.of_nat (length message) in
  message ++ [128] ++ repeat 0 (Z.to_nat ((111 - len) mod 128))
  ++ bigEndian 16 (8 * len).

Fixpoint blocks (fuel : nat) (bytes : list Z) : list (list Z) :=
  match fuel, bytes with
  | S fuel', _ :: _ => firstn 128 bytes :: blocks fuel' (skipn 128 bytes)
  | _, _ => []
  end.

Definition wordOf (bytes : list Z) : Z :=
  fold_left (fun acc b => 256 * acc + b) bytes 0.

Fixpoint wordsOf (fuel : nat) (bytes : list Z) : list Z :=
  match fuel, bytes with
  | S fuel', _ :: _ => wordOf (firstn 8 bytes) :: wordsOf fuel' (skipn 8 bytes)
  | _, _ => []
  end.

(** The message schedule, most recent word first. *)
Fixpoint extend (count : nat) (recent : list Z) : list Z :=
  match count with
  | O => recent
  | S count' =>
      let w :=
        w64 (sigma1 (nth 1 recent 0) + nth 6 recent 0
             + sigma0 (nth 14 recent 0) + nth 15 recent 0) in
      extend count' (w :: recent)
  end.

Definition schedule (block : list Z) : list Z :=
  rev (extend 64 (rev (wordsOf 16 block))).

Definition round (s : State) (kw : Z * Z) : State :=
  let t1 := w64 (h7 s + Sigma1 (h4 s) + Ch (h4 s) (h5 s) (h6 s) + fst kw + snd kw) in
  let t2 := w64 (Sigma0 (h0 s) + Maj (h0 s) (h1 s) (h2 s)) in
  {| h0 := w64 (t1 + t2); h1 := h0 s; h2 := h1 s; h3 := h2 s;
     h4 := w64 (h3 s + t1); h5 := h4 s; h6 := h5 s; h7 := h6 s |}.

Definition compress (s : State) (block : list Z) : State :=
  let r := fold_left round (combine K (schedule block)) s in
  {| h0 := w64 (h0 s + h0 r); h1 := w64 (h1 s + h1 r);
     h2 := w64 (h2 s + h2 r); h3 := w64 (h3 s + h3 r);
     h4 := w64 (h4 s + h4 r); h5 := w64 (h5 s + h5 r);
     h6 := w64 (h6 s + h6 r); h7 := w64 (h7 s + h7 r) |}.

Definition byteOf (z : Z) : byte :=
  match Byte.of_N (Z.to_N (z mod 256)) with
  | Some b => b
  | None => x00
  end.

Definition wordBytes (w : Z) : list byte :=
  [ byteOf (Z.shiftr w 56); byteOf (Z.shiftr w 48); byteOf (Z.shiftr w 40);
    byteOf (Z.shiftr w 32); byteOf (Z.shiftr w 24); byteOf (Z.shiftr w 16);
    byteOf (Z.shiftr w 8); byteOf w ].

Definition digest (data : list byte) : list byte :=
  let message := map (fun b => Z.of_N (Byte.to_N b)) data in
  let padded := pad message in
  let s := fold_left compress (blocks (length padded) padded) initial in
  wordBytes (h0 s) ++ wordBytes (h1 s) ++ wordBytes (h2 s) ++ wordBytes (h3 s)
  ++ wordBytes (h4 s) ++ wordBytes (h5 s) ++ wordBytes (h6 s) ++ wordBytes (h7 s).

End SHA512.

(* ================================================================== *)
(** * The caller: hashing and sealing *)
(* ================================================================== *)

(** [stringToHash]: [crypto.subtle.digest('SHA-512', data)], each byte of
    the digest written as two hexadecimal digits. *)
Definition stringToHash (data : list byte) : jsstring :=
  let hashArray := SHA512.digest data in
  join (map (fun b => padStart 2 48 (toString 16 (Byte.to_N b))) hashArray).

(** The two digits [b.toString(16).padStart(2, '0')] of a byte. *)
Definition hexOfByte (b : byte) : jsstring :=
  padStart 2 48 (toString 16 (Byte.to_N b)).

(** Reading lowercase hexadecimal back. *)
Definition isLowerHex (c : N) : bool :=
  ((48 <=? c) && (c <=? 57))%N || ((97 <=? c) && (c <=? 102))%N.

Definition hexValue (c : N) : option N :=
  if ((48 <=? c) && (c <=? 57))%N then Some (c - 48)%N
  else if ((97 <=? c) && (c <=? 102))%N then Some (c - 87)%N
  else None.

Definition byteOfDigits (hi lo : N) : option byte :=
  match hexValue hi, hexValue lo with
  | Some h, Some l => Byte.of_N (16 * h + l)
  | _, _ => None
  end.

Fixpoint hexDecode (s : jsstring) : option (list byte) :=
  match s with
  | [] => Some []
  | hi :: lo :: rest =>
      match byteOfDigits hi lo, hexDecode rest with
      | Some b, Some bs => Some (b :: bs)
      | _, _ => None
      end
  | [_] => None
  end.

(** The digits of one byte: two lowercase hexadecimal digits that read back
    as the byte. *)
Definition twoHexDigits (b : byte) : bool :=
  match hexOfByte b with
  | [hi; lo] =>
      isLowerHex hi && isLowerHex lo
      && match byteOfDigits hi lo with
         | Some b' => Byte.eqb b b'
         | None => false
         end
  | _ => false
  end.

Definition APP_VERSION : jsstring := lit "5.1.0".

(** The fields of a chat message and of an uploaded file that sealing reads. *)
Record ChatMessage : Type := {
  id : jsstring;
  content : jsstring
}.

Record UploadedFile : Type := {
  file_name : jsstring;
  file_sha512 : option jsstring
}.

(** [SealingMetadata['cloudAnchor']] *)
Inductive CloudAnchor : Type :=
| AnchorConfirmed (storagePath firestoreId : jsstring)
| AnchorFailed (error : jsstring).

Definition storagePathOf (a : CloudAnchor) : option jsstring :=
  match a with AnchorConfirmed p _ => Some p | AnchorFailed _ => None end.

Definition firestoreIdOf (a : CloudAnchor) : option jsstring :=
  match a with AnchorConfirmed _ i => Some i | AnchorFailed _ => None end.

(** [value || 'N/A'] for a property that may be missing. *)
Definition orNA (value : option jsstring) : jsstring :=
  match value with
  | Some v => orElse v (lit "N/A")
  | None => lit "N/A"
  end.

Record SealResult : Type := {
  fileName : jsstring;
  hash : jsstring;
  cloudAnchor : CloudAnchor;
  pdfBytes : list byte;
  updatedContent : jsstring
}.

(** The fields of the Firestore record of a sealed report, [createdAt]
    apart, which the server fills in. *)
Record ReportFields : Type := {
  report_userId : jsstring;
  report_fileName : jsstring;
  report_sha512 : jsstring;
  report_storagePath : jsstring;
  report_originalPrompt : jsstring;
  report_fileCount : nat
}.

(** ** [markdownToPlainText]

    Seven global replacements, in the order of the source. In each
    expression the parts after the first one can be tried from left to
    right without loss: a lazy quantifier stops at the first place where
    what follows it matches, and where the first such place fails every
    later one of the line fails too. *)

(** A delimiter, the fewest code units of the line up to the same
    delimiter again, and that delimiter, at the start of [s]; what stands
    between the two takes the place of the match (['$2']). *)
Definition delimited (delim : jsstring) (s : jsstring) : option (nat * jsstring) :=
  if startsWith delim s then
    let inner := skipn (length delim) s in
    match upTo delim inner with
    | Some k => Some (length delim + k + length delim, firstn k inner)
    | None => None
    end
  else None.

(** [a|b]: the second alternative is tried when the first one fails. *)
Definition orMatch (first second : option (nat * jsstring)) : option (nat * jsstring) :=
  match first with
  | Some found => Some found
  | None => second
  end.

(** Bold: two asterisks or two underscores as the delimiter. *)
Definition matchBold (atStart : bool) (s : jsstring) : option (nat * jsstring) :=
  orMatch (delimited (lit "**") s) (delimited (lit "__") s).

(** Italic: one asterisk or one underscore as the delimiter. *)
Definition matchItalic (atStart : bool) (s : jsstring) : option (nat * jsstring) :=
  orMatch (delimited (lit "*") s) (delimited (lit "_") s).

(** Headers: one number sign or more, the white space after them, line
    terminators included, and the rest of the line, which takes the place
    of the match (['$1']). All three parts are greedy and the last two may
    be empty. *)
Definition matchHeader (atStart : bool) (s : jsstring) : option (nat * jsstring) :=
  let signs := run (N.eqb 35) s in
  if (signs =? 0)%nat then None
  else
    let afterSigns := skipn signs s in
    let spaces := run isWhiteSpace afterSigns in
    let rest := skipn spaces afterSigns in
    let text := run (fun c => negb (isLineTerminator c)) rest in
    Some (signs + spaces + text, firstn text rest).

(** Links: an opening square bracket, the fewest code units of the line up
    to a closing square bracket that an opening parenthesis follows, and
    the fewest code units of the line up to a closing parenthesis; the
    text between the square brackets takes the place of the match
    (['$1']). *)
Definition matchLink (atStart : bool) (s : jsstring) : option (nat * jsstring) :=
  match s with
  | 91%N :: inner =>
      match upTo [93; 40]%N inner with
      | Some k =>
          match upTo [41%N] (skipn (k + 2) inner) with
          | Some m => Some (1 + k + 2 + m + 1, firstn k inner)
          | None => None
          end
      | None => None
      end
  | _ => None
  end.

(** Code: one to three grave accents, the fewest code units of the line up
    to a grave accent, and one to three grave accents; the text between
    takes the place of the match (['$1']). The opening takes three grave
    accents when it can, and fewer when no closing one follows on the
    line; the closing takes as many as it can. *)
Fixpoint matchCodeFrom (opening : nat) (s : jsstring) : option (nat * jsstring) :=
  match opening with
  | O => None
  | S fewer =>
      let inner := skipn opening s in
      match upTo [96%N] inner with
      | Some k =>
          Some (opening + k + Nat.min 3 (run (N.eqb 96) (skipn k inner)),
                firstn k inner)
      | None => matchCodeFrom fewer s
      end
  end.

Definition matchCode (atStart : bool) (s : jsstring) : option (nat * jsstring) :=
  matchCodeFrom (Nat.min 3 (run (N.eqb 96) s)) s.

(** Lists and block quotes: a line feed, or the start of the subject, and
    the marker. The expression has no flag [m], so that [^] matches at the
    start of the subject only; the replacement text holds no dollar
    sign. *)
Definition matchLineStart (marker replacement : jsstring) (atStart : bool)
  (s : jsstring) : option (nat * jsstring) :=
  if startsWith (10%N :: marker) s then Some (1 + length marker, replacement)
  else if atStart && startsWith marker s then Some (length marker, replacement)
  else None.

Definition markdownToPlainText (markdown : jsstring) : jsstring :=
  let bold := replaceRegExp matchBold markdown in
  let italic := replaceRegExp matchItalic bold in
  let headers := replaceRegExp matchHeader italic in
  let links := replaceRegExp matchLink headers in
  let code := replaceRegExp matchCode links in
  let lists := replaceRegExp (matchLineStart (lit "- ") [10; 8226; 32]%N) code in
  replaceRegExp (matchLineStart (lit "> ") [10%N]) lists.

(** The clock and Firebase, as the caller uses them. *)
Class Services : Type := {
  (** [now.toISOString()] and [now.toLocaleString(...)] *)
  now_toISOString : jsstring;
  now_toLocaleString : jsstring;
  (** [Date.now()] *)
  Date_now : N;
  (** [getCurrentUser()]: the user's uid, when one is signed in *)
  getCurrentUser : Promise (option jsstring);
  (** [uploadBytes(ref(storage, path), bytes)] *)
  uploadBytes : jsstring -> list byte -> Promise unit;
  (** [initialUserPrompt.current] *)
  initialUserPrompt : jsstring;
  (** [setDoc(doc(firestore, 'reports', id), fields)] *)
  setDoc : jsstring -> ReportFields -> Promise unit
}.

Section Sealing.

Context {C : Collaborators} {V : Services}.

Definition hashPlaceholder : jsstring :=
  lit "[Placeholder for SHA-512 hash of this report]".

Definition cloudAnchorPlaceholder : jsstring :=
  lit "[Placeholder for Cloud Anchor]".

Definition firestorePlaceholder : jsstring :=
  lit "[Placeholder for Firestore Record]".

(** [messages.findIndex(m => m.id === messageId)] *)
Fixpoint findIndex (messageId : jsstring) (messages : list ChatMessage)
  : option nat :=
  match messages with
  | [] => None
  | m :: rest =>
      if JS.eqb (id m) messageId then Some O
      else option_map S (findIndex messageId rest)
  end.

(** [updatedMessages[index] = message] *)
Fixpoint assign (messages : list ChatMessage) (index : nat) (message : ChatMessage)
  : list ChatMessage :=
  match messages, index with
  | [], _ => []
  | _ :: rest, O => message :: rest
  | m :: rest, S k => m :: assign rest k message
  end.

(** The [try] block of [performSealingProcess]. *)
Definition anchorToCloud (fileName pdfHash : jsstring) (pdfBytes : list byte)
  (uploadedFiles : list UploadedFile) : Promise CloudAnchor :=
  currentUser <- await getCurrentUser ;;
  match currentUser with
  | None => Rejected (lit "Authentication failed. Cannot seal report to the cloud.")
  | Some uid =>
      let reportId := lit "report-" ++ toString 10 Date_now in
      let storagePath := lit "users/" ++ uid ++ lit "/reports/" ++ fileName in
      _ <- await uploadBytes storagePath pdfBytes ;;
      let firestoreId := reportId in
      _ <- await setDoc firestoreId
             {| report_userId := uid;
                report_fileName := fileName;
                report_sha512 := pdfHash;
                report_storagePath := storagePath;
                report_originalPrompt := initialUserPrompt;
                report_fileCount := length uploadedFiles |} ;;
      Fulfilled (AnchorConfirmed storagePath firestoreId)
  end.

(** [try { ... } catch (error) { cloudAnchorResult = { status: 'failed', ... } }] *)
Definition tryAnchorToCloud (fileName pdfHash : jsstring) (pdfBytes : list byte)
  (uploadedFiles : list UploadedFile) : CloudAnchor :=
  match anchorToCloud fileName pdfHash pdfBytes uploadedFiles with
  | Fulfilled a => a
  | Rejected e => AnchorFailed e
  end.

(** The request [performSealingProcess] hands to [makeSealedPdf] for a
    message. *)
Definition sealRequest (message : ChatMessage) (uploadedFiles : list UploadedFile)
  : SealInput :=
  let isManifestOnly :=
    negb (includes (lit "## Key Findings") (content message)) in
  {| title :=
       if isManifestOnly then lit "Sealed Document Manifest"
       else lit "Sealed Forensic Report";
     messagesHtml :=
       Some (if isManifestOnly then []
             else markdownToPlainText (content message));
     evidence :=
       flat_map
         (fun f =>
            match file_sha512 f with
            | Some h =>
                if truthy h then [{| name := file_name f; sha512 := h |}]
                else []
            | None => []
            end)
         uploadedFiles;
     utcTimestamp := now_toISOString;
     localTimestamp := now_toLocaleString;
     appVersion := APP_VERSION;
     logoDataUrl := None |}.

(** [performSealingProcess]: the result handed back and the messages given
    to [setMessages], when the message is found. *)
Definition performSealingProcess (messages : list ChatMessage)
  (uploadedFiles : list UploadedFile) (messageId : jsstring)
  : Promise (option (SealResult * list ChatMessage)) :=
  match findIndex messageId messages with
  | None => Fulfilled None
  | Some messageIndex =>
      match nth_error messages messageIndex with
      | None => Fulfilled None
      | Some message =>
          let utcTimestamp := now_toISOString in
          let localTimestamp := now_toLocaleString in
          let isManifestOnly :=
            negb (includes (lit "## Key Findings") (content message)) in
          let title :=
            if isManifestOnly then lit "Sealed Document Manifest"
            else lit "Sealed Forensic Report" in
          let evidence :=
            flat_map
              (fun f =>
                 match file_sha512 f with
                 | Some h =>
                     if truthy h then [{| name := file_name f; sha512 := h |}]
                     else []
                 | None => []
                 end)
              uploadedFiles in
          pdfBytes <- await makeSealedPdf
            {| title := title;
               messagesHtml :=
                 Some (if isManifestOnly then []
                       else markdownToPlainText (content message));
               evidence := evidence;
               utcTimestamp := utcTimestamp;
               localTimestamp := localTimestamp;
               appVersion := APP_VERSION;
               logoDataUrl := None |} ;;
          let pdfHash := stringToHash pdfBytes in
          let fileName :=
            lit "VO_Sealed_Report_" ++ replaceColonDot utcTimestamp ++ lit ".pdf" in
          let cloudAnchorResult := tryAnchorToCloud fileName pdfHash pdfBytes uploadedFiles in
          let newContent :=
            replaceAll firestorePlaceholder (orNA (firestoreIdOf cloudAnchorResult))
              (replaceAll cloudAnchorPlaceholder (orNA (storagePathOf cloudAnchorResult))
                 (replaceAll hashPlaceholder pdfHash (content message))) in
          let updatedMessages :=
            assign messages messageIndex
              {| id := id message; content := newContent |} in
          Fulfilled
            (Some ({| fileName := fileName; hash := pdfHash;
                      cloudAnchor := cloudAnchorResult; pdfBytes := pdfBytes;
                      updatedContent := newContent |},
                   updatedMessages))
      end
  end.

End Sealing.

(* ================================================================== *)
(** * Views of the builder used to state its properties *)
(* ================================================================== *)

Section Views.

Context {C : Collaborators}.

(** The text of the footer of this request's pages. *)
Definition footerOf (input : SealInput) : jsstring :=
  footerText ++ hashText (partialHashOf input).

(** The one drawing call of [drawPageFurniture]. *)
Definition furnitureOp (partialHash : option jsstring) : DrawOp :=
  DrawText (footerText ++ hashText partialHash) (pt 50) (pt 40) 8 (Some (rgb 5 5 5)).

(** The drawing call for a body line at the height [y]. *)
Definition lineOp (line : jsstring) (y : Z) : DrawOp :=
  DrawText line x y fontSize None.

(** The lines [wordLoop] hands to [drawText] and the line it leaves
    pending, without the document. *)
Fixpoint wrapWords (words : list jsstring) (line : jsstring)
  : list jsstring * jsstring :=
  match words with
  | [] => ([], line)
  | word :: rest =>
      let testLine :=
        if (length line =? 0)%nat then word else line ++ [32%N] ++ word in
      if (widthOfTextAtSize testLine fontSize >? maxWidth)%Z
      then let '(emitted, pending) := wrapWords rest word in (line :: emitted, pending)
      else wrapWords rest testLine
  end.

(** A line that is not wider than the content width at the body size. *)
Definition fits (line : jsstring) : Prop :=
  (widthOfTextAtSize line fontSize <= maxWidth)%Z.

(** What a paragraph asks of the page: one blank advance, or its lines. *)
Inductive Item : Type :=
| BlankLine
| TextLine (line : jsstring).

Definition paragraphLines (paragraph : jsstring) : list jsstring :=
  let '(emitted, pending) := wrapWords (split 32 paragraph) [] in
  emitted ++ (if (0 <? length pending)%nat then [pending] else []).

Definition paragraphItems (paragraph : jsstring) : list Item :=
  if JS.eqb (trim paragraph) [] then [BlankLine]
  else map TextLine (paragraphLines paragraph).

Definition bodyItems (messagesHtml : jsstring) : list Item :=
  flat_map paragraphItems (split 10 messagesHtml).

(** The lines among the items, in order. *)
Definition itemLines (items : list Item) : list jsstring :=
  flat_map (fun item => match item with TextLine l => [l] | BlankLine => [] end) items.

Definition placeItem (partialHash : option jsstring) (l : Layout) (item : Item)
  : Layout :=
  match item with
  | BlankLine =>
      breakPageIfBelow partialHash
        {| pdf := pdf l; currentPage := currentPage l;
           currentY := (currentY l - lineHeight)%Z |}
  | TextLine line => drawLine partialHash l line
  end.

(** The pages of a layout whose current page is the last one: the pages
    before it, the page being written and the cursor. *)
Record Sheets : Type := {
  finished : list PDFPage;
  open : PDFPage;
  cursor : Z
}.

Definition layoutOf (s : Sheets) : Layout :=
  {| pdf := finished s ++ [open s];
     currentPage := length (finished s);
     currentY := cursor s |}.

Definition turnPage (partialHash : option jsstring) (s : Sheets) : Sheets :=
  {| finished := finished s ++ [open s];
     open := [furnitureOp partialHash];
     cursor := (height - topMargin)%Z |}.

Definition writeLine (line : jsstring) (s : Sheets) : Sheets :=
  {| finished := finished s;
     open := open s ++ [lineOp line (cursor s)];
     cursor := (cursor s - lineHeight)%Z |}.

Definition place (partialHash : option jsstring) (s : Sheets) (item : Item) : Sheets :=
  match item with
  | BlankLine =>
      let s' := {| finished := finished s; open := open s;
                   cursor := (cursor s - lineHeight)%Z |} in
      if (cursor s' <? bottomMargin)%Z then turnPage partialHash s' else s'
  | TextLine line =>
      writeLine line
        (if (cursor s <? bottomMargin)%Z then turnPage partialHash s else s)
  end.

(** Pages written before the body starts stay in front, untouched. *)
Definition behind (front : list PDFPage) (s : Sheets) : Sheets :=
  {| finished := front ++ finished s; open := open s; cursor := cursor s |}.

(** The number of page-break checks that find the cursor below the bottom
    margin, from the cursor [y]. *)
Fixpoint pageBreaks (items : list Item) (y : Z) : nat :=
  match items with
  | [] => O
  | BlankLine :: rest =>
      if (y - lineHeight <? bottomMargin)%Z
      then S (pageBreaks rest (height - topMargin))
      else pageBreaks rest (y - lineHeight)
  | TextLine _ :: rest =>
      if (y <? bottomMargin)%Z
      then S (pageBreaks rest (height - topMargin - lineHeight))
      else pageBreaks rest (y - lineHeight)
  end.

Definition bodyPageBreaks (messagesHtml : jsstring) : nat :=
  pageBreaks (bodyItems messagesHtml) (height - pt 100).

(** The texts drawn at the body font size on a page, in drawing order. *)
Definition bodyLinesOf (page : PDFPage) : list jsstring :=
  flat_map
    (fun op =>
       match op with
       | DrawText text _ _ size _ => if (size =? fontSize)%Z then [text] else []
       | DrawImage _ _ _ _ _ => []
       end)
    page.

(** The pages between the summary page and the sealing page. *)
Definition bodyPagesOf (doc : PDFDocument) : list PDFPage :=
  removelast (tl doc).

(** The two drawing calls of one evidence entry at the cursor [y]. *)
Definition entryOps (y : Z) (ev : Evidence) : list DrawOp :=
  [ DrawText ([8226; 32]%N ++ name ev) (pt 60) y 10 None;
    DrawText (lit "  SHA-512: " ++ sha512 ev) (pt 60) (y - pt 12) 9 None ].

(** The drawing calls of [input.evidence.forEach] from the cursor [y]. *)
Fixpoint evidenceOps (y : Z) (evs : list Evidence) : list DrawOp :=
  match evs with
  | [] => []
  | ev :: rest =>
      if (y <? pt 100)%Z then evidenceOps y rest
      else entryOps y ev ++ evidenceOps (y - pt 12 - pt 14) rest
  end.

(** The entries of the list drawn one below the other from [y], 26 points
    apart. *)
Fixpoint entriesFrom (y : Z) (evs : list Evidence) : list DrawOp :=
  match evs with
  | [] => []
  | ev :: rest => entryOps y ev ++ entriesFrom (y - pt 26) rest
  end.


(** The number of entries drawn from the cursor [y]. *)
Definition entriesThatFit (y : Z) : nat :=
  Z.to_nat (if (y <? pt 100)%Z then 0 else (y - pt 100) / pt 26 + 1)%Z.

(** The summary page, its heading lines first. *)
Definition summaryHead (input : SealInput) : PDFPage :=
  [ furnitureOp (partialHashOf input);
    DrawText (lit "Verum Omnis V5") (pt 50) (height - pt 80) 24 None;
    DrawText (orElse (title input) (lit "Sealed Forensic Report"))
      (pt 50) (height - pt 120) 18 (Some (rgb 2 2 2));
    DrawText (lit "Evidence & Hashes:") (pt 50) (height - pt 165) 12 None ].

Definition summaryPage (input : SealInput) : PDFPage :=
  summaryHead input ++ evidenceOps (height - pt 185) (evidence input).

(** The payload [QRCode.toDataURL] is given, at the top of [makeSealedPdf]. *)
Definition encodedPayload (input : SealInput) : QRPayload :=
  {| payload_sha512 := map sha512 (evidence input);
     payload_filenames := map name (evidence input);
     payload_utcTimestamp := utcTimestamp input;
     payload_appVersion := appVersion input;
     payload_pageCount := getPageCount emptyDocument |}.

Definition qrImageOf (input : SealInput) : PDFImage :=
  PngImage (QrDataUrl (JSON_stringify (encodedPayload input))).

(** The sealing page of a document of [n] pages. *)
Definition sealingPage (input : SealInput) (n : nat) : PDFPage :=
  [ furnitureOp (partialHashOf input);
    DrawText (lit "Sealing Metadata") (pt 50) (height - pt 80) 14 None;
    DrawImage (qrImageOf input) (width - pt 50 - pt 120) (pt 50) (pt 120) (pt 120);
    DrawText (lit "Local Timestamp: " ++ localTimestamp input) (pt 50) (height - pt 110) 11 None;
    DrawText (lit "UTC Timestamp: " ++ utcTimestamp input) (pt 50) (height - pt 124) 11 None;
    DrawText (lit "Version: " ++ appVersion input) (pt 50) (height - pt 138) 11 None;
    DrawText (lit "Files: " ++ toString 10 (N.of_nat (length (evidence input))))
      (pt 50) (height - pt 152) 11 None;
    DrawText (lit "Page Count: " ++ toString 10 (N.of_nat n))
      (pt 50) (height - pt 166) 11 None ].

(** The body pages, when the request has a body. *)
Definition bodySheets (input : SealInput) : list PDFPage :=
  match messagesHtml input with
  | Some body =>
      if truthy body then
        let s :=
          fold_left (place (partialHashOf input)) (bodyItems body)
            {| finished := [];
               open := [ furnitureOp (partialHashOf input);
                         DrawText (lit "Conversation Excerpt:")
                           (pt 50) (height - pt 80) 12 None ];
               cursor := (height - pt 100)%Z |} in
        finished s ++ [open s]
      else []
  | None => []
  end.

(** The pages of the sealed document: summary, body, sealing page. *)
Definition sealedPages (input : SealInput) : PDFDocument :=
  summaryPage input
  :: bodySheets input ++ [sealingPage input (2 + length (bodySheets input))].

(** The collaborators all succeed on this request. *)
Definition collaboratorsSucceed (input : SealInput) : Prop :=
  create_failure = None
  /\ embedFont_failure = None
  /\ toDataURL_failure (JSON_stringify (encodedPayload input)) = None
  /\ embedPng_failure (QrDataUrl (JSON_stringify (encodedPayload input))) = None.

(** The error of the first collaborator to fail on this request, in the
    order of the calls. *)
Definition firstFailure (input : SealInput) : option Error :=
  match create_failure with
  | Some e => Some e
  | None =>
  match embedFont_failure with
  | Some e => Some e
  | None =>
  match toDataURL_failure (JSON_stringify (encodedPayload input)) with
  | Some e => Some e
  | None =>
  match embedPng_failure (QrDataUrl (JSON_stringify (encodedPayload input))) with
  | Some e => Some e
  | None => save_failure (sealedPages input)
  end end end end.

End Views.

(** A failure of font embedding, of image embedding or of serialization,
    with the error [e], the steps before it having succeeded. *)
Inductive ConstructionFailure {C : Collaborators} (input : SealInput) (e : Error)
  : Prop :=
| FontEmbeddingFails :
    create_failure = None ->
    embedFont_failure = Some e ->
    ConstructionFailure input e
| ImageEmbeddingFails :
    create_failure = None ->
    embedFont_failure = None ->
    toDataURL_failure (JSON_stringify (encodedPayload input)) = None ->
    embedPng_failure (QrDataUrl (JSON_stringify (encodedPayload input))) = Some e ->
    ConstructionFailure input e
| SerializationFails :
    collaboratorsSucceed input ->
    save_failure (sealedPages input) = Some e ->
    ConstructionFailure input e.

(** ** Collaborators for running the builder

    Every character is taken half an em wide, and the saved bytes are the
    low bytes of the texts drawn, page after page. The raster code holds
    the payload while it is no longer than the capacity of the code. *)

(** The bytes that the largest symbol of the raster code, version 40,
    holds in byte mode at the error correction level M, which the [qrcode]
    package takes by default; at the lowest level, L, the symbol holds
    2953 bytes. A text has no fewer bytes than code units, and the
    payloads of the requests below are ASCII texts. *)
Definition qrCapacity : nat := 2331.

Definition payloadFits (text : jsstring) : bool :=
  (length text <=? qrCapacity)%nat.

Definition qrOverflow : Error :=
  lit "The amount of data is too big to be stored in a QR Code".

Definition halfEmWidth (text : jsstring) (size : Z) : Z :=
  (Z.of_nat (length text) * size * 50)%Z.

Definition textBytes (doc : PDFDocument) : list byte :=
  flat_map
    (fun page =>
       flat_map
         (fun op =>
            match op with
            | DrawText text _ _ _ _ => map (fun c => SHA512.byteOf (Z.of_N c)) text
            | DrawImage _ _ _ _ _ => []
            end)
         page)
    doc.

Definition plainCollaborators : Collaborators :=
  {| create_failure := None;
     embedFont_failure := None;
     widthOfTextAtSize := halfEmWidth;
     toDataURL_failure :=
       fun text => if payloadFits text then None else Some qrOverflow;
     embedPng_failure := fun _ => None;
     save_failure := fun _ => None;
     serialize := textBytes |}.

(** Collaborators whose font embedding, image embedding and serialization
    fail as given. *)
Definition collaboratorsFailing (font image serialization : option Error)
  : Collaborators :=
  {| create_failure := None;
     embedFont_failure := font;
     widthOfTextAtSize := halfEmWidth;
     toDataURL_failure := fun _ => None;
     embedPng_failure := fun _ => image;
     save_failure := fun _ => serialization;
     serialize := textBytes |}.

(** A clock, a signed-in user and a Firebase that accepts everything. *)
Definition plainServices : Services :=
  {| now_toISOString := lit "2024-01-01T00:00:00.000Z";
     now_toLocaleString := lit "1/1/2024, 12:00:00 AM UTC";
     Date_now := 1704067200000%N;
     getCurrentUser := Fulfilled (Some (lit "u1"));
     uploadBytes := fun _ _ => Fulfilled tt;
     initialUserPrompt := lit "seal my documents";
     setDoc := fun _ _ => Fulfilled tt |}.

(** The request of the end-to-end scenario: one evidence file, no body. *)
Definition hex128 : jsstring :=
  stringToHash [].

Definition scenarioEvidence : Evidence :=
  {| name := lit "a.txt"; sha512 := hex128 |}.

Definition scenarioInput : SealInput :=
  {| title := lit "Sealed Forensic Report";
     messagesHtml := None;
     evidence := [scenarioEvidence];
     utcTimestamp := lit "2024-01-01T00:00:00.000Z";
     localTimestamp := lit "1/1/2024, 12:00:00 AM UTC";
     appVersion := lit "5.1.0";
     logoDataUrl := None |}.

(** A body of [n] lines, each the one word "a". *)
Fixpoint linesOfA (n : nat) : jsstring :=
  match n with
  | O => []
  | S O => [97%N]
  | S n' => [97%N; 10%N] ++ linesOfA n'
  end.

Definition bodyInput (body : jsstring) : SealInput :=
  {| title := lit "Sealed Forensic Report";
     messagesHtml := Some body;
     evidence := [scenarioEvidence];
     utcTimestamp := lit "2024-01-01T00:00:00.000Z";
     localTimestamp := lit "1/1/2024, 12:00:00 AM UTC";
     appVersion := lit "5.1.0";
     logoDataUrl := None |}.



(** Thirty files named "f" with a digest of two characters. *)
Definition thirtyShort : SealInput :=
  {| title := lit "Sealed Document Manifest";
     messagesHtml := None;
     evidence := repeat {| name := lit "f"; sha512 := lit "ab" |} 30;
     utcTimestamp := lit "2024-01-01T00:00:00.000Z";
     localTimestamp := lit "1/1/2024, 12:00:00 AM UTC";
     appVersion := lit "5.1.0";
     logoDataUrl := None |}.

(** A chat with one message that holds the hash placeholder. *)
Definition oneMessage : list ChatMessage :=
  [ {| id := lit "m1";
       content := lit "- Certified SHA-512 Hash: [Placeholder for SHA-512 hash of this report]" |} ].

(** With every character half an em wide, 99 characters fit the content
    width at size 10 and 100 do not. *)
Definition wideWord : jsstring := repeat 119%N 100.

Definition wideBody : jsstring := lit "hi " ++ wideWord ++ lit " yo".

(* ================================================================== *)
(** * Automatic verification of a report *)
(* ================================================================== *)

(** [s.replace(pat, repl)] for a non-empty string [pat]: the first
    occurrence only. *)
Fixpoint replaceFirstScan (pat repl before s : jsstring) : jsstring :=
  match s with
  | [] => []
  | c :: r =>
      if startsWith pat s then
        getSubstitution repl pat before (skipn (length pat) s)
        ++ skipn (length pat) s
      else c :: replaceFirstScan pat repl (before ++ [c]) r
  end.

Definition replaceFirst (pat repl s : jsstring) : jsstring :=
  replaceFirstScan pat repl [] s.

(** [parts.join(sep)]. *)
Fixpoint joinWith (sep : jsstring) (parts : list jsstring) : jsstring :=
  match parts with
  | [] => []
  | [p] => p
  | p :: more => p ++ sep ++ joinWith sep more
  end.

(** [Promise.all([p, q])], awaited: both values, or a rejection. *)
Definition Promise_all2 {A : Type} (p q : Promise A) : Promise (A * A) :=
  match p, q with
  | Fulfilled a, Fulfilled b => Fulfilled (a, b)
  | Rejected e, _ => Rejected e
  | _, Rejected e => Rejected e
  end.

Record VerificationResult : Type := {
  consensusText : jsstring;
  verifiedCount : nat;
  totalVoters : nat;
  notes : jsstring
}.

(** [performAutomaticVerification], given how the two calls of
    [auditWithApkLogic] settle. The function has no other way to fail: what
    the calls throw is caught and only logged. *)
Definition performAutomaticVerification (consumer enterprise : Promise jsstring)
  : VerificationResult :=
  let verifiedCount := 3 in
  let totalVoters := 5 in
  let notes : list jsstring := [] in
  let '(verifiedCount, notes) :=
    match Promise_all2 consumer enterprise with
    | Fulfilled (consumerResult, enterpriseResult) =>
        let '(verifiedCount, notes) :=
          if startsWith (lit "APK Audit Passed") consumerResult
          then (S verifiedCount, notes)
          else (verifiedCount,
                notes ++ [lit "Consumer APK: "
                          ++ trim (replaceFirst (lit "APK Audit Notes:") []
                                     consumerResult)]) in
        if startsWith (lit "APK Audit Passed") enterpriseResult
        then (S verifiedCount, notes)
        else (verifiedCount,
              notes ++ [lit "Enterprise APK: "
                        ++ trim (replaceFirst (lit "APK Audit Notes:") []
                                   enterpriseResult)])
    | Rejected _ =>
        (verifiedCount,
         notes ++ [lit "On-device verification encountered an unexpected error."])
    end in
  let consensusText :=
    if 5 <=? verifiedCount then lit "Full Ecosystem Consensus"
    else if verifiedCount =? 4 then lit "Quadruple Verification Consensus"
    else if verifiedCount =? 3 then lit "Triple Verification Consensus"
    else lit "Consensus Pending" in
  {| consensusText := consensusText;
     verifiedCount := verifiedCount;
     totalVoters := totalVoters;
     notes := orElse (joinWith [10%N] notes) (lit "All checks passed.") |}.

(** An audit that passed: the call fulfilled with a text that starts with
    "APK Audit Passed". *)
Definition auditPassed (audit : Promise jsstring) : bool :=
  match audit with
  | Fulfilled result => startsWith (lit "APK Audit Passed") result
  | Rejected _ => false
  end.

(** ** Replacement texts *)

(** A code unit that is neither a dollar sign nor a square bracket. *)
Definition isPlainUnit (c : N) : bool :=
  negb ((c =? 36) || (c =? 91) || (c =? 93))%N.

Definition plainUnits (s : jsstring) : bool := forallb isPlainUnit s.

(** A replacement text that can neither begin nor end an occurrence of the
    pattern, nor lie within one, and that holds no dollar sign. *)
Definition foreign (pat repl : jsstring) : Prop :=
  ~ In 36%N repl
  /\ ~ In (hd 0%N pat) repl
  /\ ~ In (last pat 0%N) repl
  /\ includes repl pat = false.

(* ================================================================== *)
(** * Further views of the layout *)
(* ================================================================== *)

(** The heights of the texts drawn in the font size [size] on a page. *)
Definition textHeights (size : Z) (page : PDFPage) : list Z :=
  flat_map
    (fun op =>
       match op with
       | DrawText _ _ y size' _ => if (size' =? size)%Z then [y] else []
       | DrawImage _ _ _ _ _ => []
       end)
    page.

(** The heights of the body lines of a page. *)
Definition bodyHeightsOf (page : PDFPage) : list Z := textHeights fontSize page.

(** Heights that go down by a line height or more from one to the next. *)
Definition spacedDown (heights : list Z) : Prop :=
  StronglySorted (fun above below => (below + lineHeight <= above)%Z) heights.

(** A page whose body lines are spaced and within the margins. *)
Definition linesInPlace (page : PDFPage) : Prop :=
  spacedDown (bodyHeightsOf page)
  /\ Forall (fun h => bottomMargin <= h <= height - topMargin)%Z (bodyHeightsOf page).

(** The number of lines the page takes from the cursor [y] before a
    page-break check finds the cursor below the bottom margin. *)
Definition linesLeft (y : Z) : nat :=
  Z.to_nat (if (y <? bottomMargin)%Z then 0 else (y - bottomMargin) / lineHeight + 1).

(** The images drawn on a page. *)
Definition imagesOf (page : PDFPage) : list DrawOp :=
  filter
    (fun op => match op with DrawImage _ _ _ _ _ => true | DrawText _ _ _ _ _ => false end)
    page.

(** The words of a line that are not empty. *)
Definition nonEmptyWords (line : jsstring) : list jsstring :=
  filter truthy (split 32 line).

(** The paragraphs of a body that are not blank. *)
Definition writtenParagraphs (body : jsstring) : list jsstring :=
  filter (fun paragraph => negb (JS.eqb (trim paragraph) [])) (split 10 body).

(** No paragraph of the body is blank. *)
Definition noBlankParagraph (body : jsstring) : bool :=
  forallb (fun paragraph => negb (JS.eqb (trim paragraph) [])) (split 10 body).

(** The number of page breaks that [lines] body lines force, none of the
    paragraphs being blank: the first body page takes 48 lines, each
    further page 49. *)
Definition breaksForLines (lines : nat) : nat :=
  if lines <=? 48 then 0 else 1 + (lines - 49) / 49.

(** ** Further sample data *)

(** A chat of two messages; the second one holds the placeholders. *)
Definition twoMessages : list ChatMessage :=
  [ {| id := lit "m0"; content := lit "Welcome." |};
    {| id := lit "m1";
       content := lit "Hash: [Placeholder for SHA-512 hash of this report], anchor: [Placeholder for Cloud Anchor]" |} ].

(** A body with a doubled space and a paragraph that holds a tab only. *)
Definition spacedBody : jsstring :=
  lit "one  two" ++ [10; 9; 10]%N ++ lit "three".

(** A report, with its key findings. *)
Definition reportMessages : list ChatMessage :=
  [ {| id := lit "r1"; content := lit "## Key Findings" ++ [10%N] ++ lit "none" |} ].

(** One file that is hashed and one whose hash is still being computed. *)
Definition twoFiles : list UploadedFile :=
  [ {| file_name := lit "pending.bin"; file_sha512 := None |};
    {| file_name := lit "a.txt"; file_sha512 := Some hex128 |} ].

(** Services without a signed-in user. *)
Definition signedOutServices : Services :=
  {| now_toISOString := lit "2024-01-01T00:00:00.000Z";
     now_toLocaleString := lit "1/1/2024, 12:00:00 AM UTC";
     Date_now := 1704067200000%N;
     getCurrentUser := Fulfilled None;
     uploadBytes := fun _ _ => Fulfilled tt;
     initialUserPrompt := lit "seal my documents";
     setDoc := fun _ _ => Fulfilled tt |}.

(* ================================================================== *)
(** * Properties *)
(* ================================================================== *)

(** ** Pages and drawing calls *)

Lemma drawOn_last (front : PDFDocument) (p : PDFPage) (op : DrawOp) :
  drawOn (front ++ [p]) (length front) op = front ++ [p ++ [op]].
Proof.
  induction front as [|q front IH]; simpl.
  - reflexivity.
  - now rewrite IH.
Qed.

Lemma drawText_last (front : PDFDocument) (p : PDFPage) text x0 y0 size color :
  drawText (front ++ [p]) (length front) text x0 y0 size color
  = front ++ [p ++ [DrawText text x0 y0 size color]].
Proof. unfold drawText. apply drawOn_last. Qed.

Lemma drawImage_last (front : PDFDocument) (p : PDFPage) image x0 y0 w h :
  drawImage (front ++ [p]) (length front) image x0 y0 w h
  = front ++ [p ++ [DrawImage image x0 y0 w h]].
Proof. unfold drawImage. apply drawOn_last. Qed.

Lemma drawPageFurniture_last (front : PDFDocument) (p : PDFPage) ph :
  drawPageFurniture (front ++ [p]) (length front) ph
  = front ++ [p ++ [furnitureOp ph]].
Proof. unfold drawPageFurniture, furnitureOp. apply drawText_last. Qed.

Section BodyRefinement.

Context {C : Collaborators}.

Variable partialHash : option jsstring.

Lemma breakPageIfBelow_layoutOf (s : Sheets) :
  breakPageIfBelow partialHash (layoutOf s)
  = layoutOf (if (cursor s <? bottomMargin)%Z then turnPage partialHash s else s).
Proof.
  unfold breakPageIfBelow, layoutOf at 1. cbn [currentY pdf].
  destruct (cursor s <? bottomMargin)%Z; [|reflexivity].
  unfold addPage, layoutOf, turnPage. cbn [finished open cursor pdf].
  rewrite drawPageFurniture_last, !length_app. cbn [length app].
  f_equal.
Qed.

Lemma placeItem_layoutOf (s : Sheets) (item : Item) :
  placeItem partialHash (layoutOf s) item = layoutOf (place partialHash s item).
Proof.
  destruct item as [|line]; cbn [placeItem place].
  - apply (breakPageIfBelow_layoutOf
             {| finished := finished s; open := open s;
                cursor := (cursor s - lineHeight)%Z |}).
  - unfold drawLine. rewrite breakPageIfBelow_layoutOf.
    set (s' := if (cursor s <? bottomMargin)%Z then turnPage partialHash s else s).
    unfold layoutOf, writeLine, lineOp. cbn [pdf currentPage currentY finished open cursor].
    now rewrite drawText_last.
Qed.

Lemma fold_placeItem_layoutOf (items : list Item) (s : Sheets) :
  fold_left (placeItem partialHash) items (layoutOf s)
  = layoutOf (fold_left (place partialHash) items s).
Proof.
  revert s. induction items as [|item items IH]; intros s; cbn [fold_left].
  - reflexivity.
  - now rewrite placeItem_layoutOf, IH.
Qed.

Lemma wordLoop_wrapWords (words : list jsstring) (line : jsstring) (l : Layout) :
  wordLoop partialHash words line l
  = (snd (wrapWords words line),
     fold_left (placeItem partialHash) (map TextLine (fst (wrapWords words line))) l).
Proof.
  revert line l. induction words as [|word rest IH]; intros line l; cbn [wordLoop wrapWords].
  - reflexivity.
  - destruct (widthOfTextAtSize _ fontSize >? maxWidth)%Z.
    + rewrite IH. destruct (wrapWords rest word) as [emitted pending]. reflexivity.
    + apply IH.
Qed.

Lemma renderParagraph_items (l : Layout) (paragraph : jsstring) :
  renderParagraph partialHash l paragraph
  = fold_left (placeItem partialHash) (paragraphItems paragraph) l.
Proof.
  unfold renderParagraph, paragraphItems, paragraphLines.
  destruct (JS.eqb (trim paragraph) []); [reflexivity|].
  rewrite wordLoop_wrapWords.
  destruct (wrapWords (split 32 paragraph) []) as [emitted pending]. cbn [fst snd].
  rewrite map_app, fold_left_app.
  destruct (0 <? length pending)%nat; reflexivity.
Qed.

Lemma fold_renderParagraph_items (paragraphs : list jsstring) (l : Layout) :
  fold_left (renderParagraph partialHash) paragraphs l
  = fold_left (placeItem partialHash) (flat_map paragraphItems paragraphs) l.
Proof.
  revert l. induction paragraphs as [|p ps IH]; intros l; cbn [fold_left flat_map].
  - reflexivity.
  - now rewrite fold_left_app, renderParagraph_items, IH.
Qed.

Lemma place_behind (front : list PDFPage) (s : Sheets) (item : Item) :
  place partialHash (behind front s) item = behind front (place partialHash s item).
Proof.
  destruct item as [|line]; cbn [place behind cursor finished open].
  - destruct (_ <? bottomMargin)%Z; unfold turnPage, behind; cbn [finished open cursor];
      now rewrite <- ?app_assoc.
  - destruct (cursor s <? bottomMargin)%Z; unfold writeLine, turnPage, behind;
      cbn [finished open cursor]; now rewrite <- ?app_assoc.
Qed.

Lemma fold_place_behind (front : list PDFPage) (items : list Item) (s : Sheets) :
  fold_left (place partialHash) items (behind front s)
  = behind front (fold_left (place partialHash) items s).
Proof.
  revert s. induction items as [|item items IH]; intros s; cbn [fold_left].
  - reflexivity.
  - now rewrite place_behind, IH.
Qed.

Lemma renderBody_sheets (front : list PDFPage) (p : PDFPage) (body : jsstring) :
  let s :=
    fold_left (place partialHash) (bodyItems body)
      {| finished := [];
         open := [ furnitureOp partialHash;
                   DrawText (lit "Conversation Excerpt:") (pt 50) (height - pt 80) 12 None ];
         cursor := (height - pt 100)%Z |} in
  renderBody partialHash (front ++ [p]) body
  = (front ++ [p]) ++ finished s ++ [open s].
Proof.
  intros s. unfold renderBody, addPage.
  rewrite drawPageFurniture_last, drawText_last. cbn [app].
  rewrite fold_renderParagraph_items.
  set (s0 := {| finished := [];
                open := [ furnitureOp partialHash;
                          DrawText (lit "Conversation Excerpt:") (pt 50) (height - pt 80) 12 None ];
                cursor := (height - pt 100)%Z |}) in *.
  transitivity
    (pdf (fold_left (placeItem partialHash) (bodyItems body)
            (layoutOf (behind (front ++ [p]) s0)))).
  { unfold bodyItems. do 2 f_equal.
    unfold layoutOf, behind. cbn [finished open cursor s0].
    now rewrite app_nil_r. }
  rewrite fold_placeItem_layoutOf, fold_place_behind.
  unfold layoutOf, behind. cbn [pdf finished open]. fold s.
  now rewrite app_assoc.
Qed.

End BodyRefinement.

(** ** The document [makeSealedPdf] builds *)

Section Document.

Context {C : Collaborators}.

Lemma fold_drawEvidence (front : PDFDocument) (evs : list Evidence) :
  forall (p : PDFPage) (y : Z),
    fst (fold_left (drawEvidence (length front)) evs (front ++ [p], y))
    = front ++ [p ++ evidenceOps y evs].
Proof.
  induction evs as [|ev evs IH]; intros p y; cbn [fold_left evidenceOps].
  - now rewrite app_nil_r.
  - unfold drawEvidence at 2.
    destruct (y <? pt 100)%Z.
    + apply IH.
    + rewrite !drawText_last, IH. unfold entryOps.
      rewrite <- !app_assoc. reflexivity.
Qed.

Lemma buildSealedPdf_succeeds (input : SealInput) :
  collaboratorsSucceed input ->
  buildSealedPdf input
  = Fulfilled
      {| built_pdf := sealedPages input;
         built_qrPayload :=
           setPageCount (encodedPayload input) (length (sealedPages input)) |}.
Proof.
  intros (Hcreate & Hfont & Hqr & Hpng).
  unfold buildSealedPdf, PDFDocument_create, embedFont, QRCode_toDataURL, embedPng.
  rewrite Hcreate, Hfont. cbn [settle await].
  fold (encodedPayload input). rewrite Hqr. cbn [settle await].
  rewrite Hpng. cbn [settle await].
  unfold addPage at 1, emptyDocument. cbv beta iota.
  rewrite drawPageFurniture_last, !drawText_last.
  destruct (fold_left _ (evidence input) _) as [pdf1 y1] eqn:Hev.
  apply (f_equal fst) in Hev. rewrite fold_drawEvidence in Hev. cbn [fst] in Hev.
  subst pdf1.
  set (summary := _ ++ evidenceOps _ _).
  assert (Hsummary : summary = summaryPage input) by reflexivity.
  clearbody summary. subst summary.
  set (withBody := match messagesHtml input with Some _ => _ | None => _ end).
  assert (HwithBody : withBody = ([] ++ [summaryPage input]) ++ bodySheets input).
  { unfold withBody, bodySheets.
    destruct (messagesHtml input) as [body|]; [destruct (truthy body)|].
    - apply renderBody_sheets.
    - now rewrite app_nil_r.
    - now rewrite app_nil_r. }
  clearbody withBody. subst withBody.
  unfold addPage. cbv beta iota.
  rewrite drawPageFurniture_last, drawText_last, drawImage_last.
  cbn [fold_left]. rewrite !drawText_last.
  unfold getPageCount, sealedPages. rewrite !length_app. cbn [length app].
  replace (0 + 1 + length (bodySheets input) + 1)
    with (2 + length (bodySheets input)) by lia.
  do 2 f_equal. rewrite length_app. cbn [length]. f_equal. lia.
Qed.

Lemma buildSealedPdf_fulfilled (input : SealInput) (built : Built) :
  buildSealedPdf input = Fulfilled built -> collaboratorsSucceed input.
Proof.
  unfold buildSealedPdf, collaboratorsSucceed, PDFDocument_create, embedFont,
    QRCode_toDataURL, embedPng.
  fold (encodedPayload input).
  destruct create_failure; cbn [settle await]; [discriminate|].
  destruct embedFont_failure; cbn [settle await]; [discriminate|].
  destruct (toDataURL_failure _); cbn [settle await]; [discriminate|].
  unfold addPage. cbv beta iota.
  destruct (fold_left _ (evidence input) _) as [pdf1 y1].
  destruct (embedPng_failure _); cbn [settle await]; [discriminate|].
  intros _. repeat split.
Qed.

(** The document of a successful build. *)
Lemma built_pdf_pages (input : SealInput) (built : Built) :
  buildSealedPdf input = Fulfilled built ->
  built_pdf built = sealedPages input
  /\ built_qrPayload built
     = setPageCount (encodedPayload input) (length (sealedPages input)).
Proof.
  intros Hbuilt.
  pose proof (buildSealedPdf_succeeds input (buildSealedPdf_fulfilled input built Hbuilt)) as Heq.
  rewrite Hbuilt in Heq. injection Heq as ->. split; reflexivity.
Qed.

End Document.

(** ** Pagination of the body *)

Section Pagination.

Context {C : Collaborators}.

Variable partialHash : option jsstring.

(** A property of pages that a fresh page has and that a line drawn at or
    above the bottom margin keeps holds of every body page. *)
Lemma place_invariant (P : PDFPage -> Prop) (Q : jsstring -> Prop) :
  P [furnitureOp partialHash] ->
  (forall p line y, P p -> Q line -> (bottomMargin <= y)%Z -> P (p ++ [lineOp line y])) ->
  forall (items : list Item) (s : Sheets),
    Forall Q (itemLines items) ->
    Forall P (finished s) -> P (open s) ->
    Forall P (finished (fold_left (place partialHash) items s))
    /\ P (open (fold_left (place partialHash) items s)).
Proof.
  intros Hfresh Hline items.
  induction items as [|item items IH]; intros s HQ Hfin Hopen; cbn [fold_left].
  - split; assumption.
  - destruct item as [|line]; cbn [itemLines flat_map app] in HQ.
    + apply IH; [exact HQ | |]; cbn [place cursor];
        destruct (_ <? bottomMargin)%Z; unfold turnPage; cbn [finished open];
        try assumption.
      apply Forall_app. split; [assumption | constructor; [assumption | constructor]].
    + inversion HQ as [|? ? Hq HQ']; subst.
      apply IH; [exact HQ' | |]; cbn [place];
        destruct (cursor s <? bottomMargin)%Z eqn:Hy;
        unfold writeLine, turnPage; cbn [finished open cursor]; try assumption.
      * apply Forall_app. split; [assumption | constructor; [assumption | constructor]].
      * apply Hline; [assumption | assumption |].
        unfold height, topMargin, bottomMargin, pt, PageSizes_A4. cbn. lia.
      * apply Hline; [assumption | assumption |].
        apply Z.ltb_ge. exact Hy.
Qed.

(** The lines drawn are the lines of the items, none lost and none added. *)
Lemma bodyLinesOf_app (p q : PDFPage) :
  bodyLinesOf (p ++ q) = bodyLinesOf p ++ bodyLinesOf q.
Proof. unfold bodyLinesOf. apply flat_map_app. Qed.

Lemma bodyLines_fold_place (items : list Item) (s : Sheets) :
  flat_map bodyLinesOf
    (finished (fold_left (place partialHash) items s)
     ++ [open (fold_left (place partialHash) items s)])
  = flat_map bodyLinesOf (finished s ++ [open s]) ++ itemLines items.
Proof.
  revert s. induction items as [|item items IH]; intros s; cbn [fold_left].
  - unfold itemLines. cbn [flat_map]. now rewrite app_nil_r.
  - rewrite IH. unfold itemLines. cbn [flat_map]. fold (itemLines items).
    rewrite app_assoc. f_equal.
    destruct item as [|line]; cbn [place cursor].
    + destruct (_ <? bottomMargin)%Z; unfold turnPage; cbn [finished open];
        rewrite ?flat_map_app; cbn [flat_map]; rewrite ?app_nil_r; reflexivity.
    + destruct (cursor s <? bottomMargin)%Z; unfold writeLine, turnPage;
        cbn [finished open cursor]; rewrite !flat_map_app; cbn [flat_map];
        rewrite ?bodyLinesOf_app, ?app_nil_r; cbn; rewrite ?app_nil_r;
        rewrite <- ?app_assoc; reflexivity.
Qed.

(** Pages are added by the page-break checks that find the cursor below the
    bottom margin, and by nothing else. *)
Lemma finished_fold_place (items : list Item) (s : Sheets) :
  length (finished (fold_left (place partialHash) items s))
  = length (finished s) + pageBreaks items (cursor s).
Proof.
  revert s. induction items as [|item items IH]; intros s; cbn [fold_left pageBreaks].
  - lia.
  - rewrite IH. destruct item as [|line]; cbn [place cursor].
    + destruct (_ <? bottomMargin)%Z; unfold turnPage; cbn [finished cursor];
        rewrite ?length_app; cbn [length]; lia.
    + destruct (cursor s <? bottomMargin)%Z; unfold writeLine, turnPage;
        cbn [finished cursor]; rewrite ?length_app; cbn [length]; lia.
Qed.

End Pagination.

(** ** Shape of the sealed document *)

Section Shape.

Context {C : Collaborators}.

Lemma bodyPagesOf_sealedPages (input : SealInput) :
  bodyPagesOf (sealedPages input) = bodySheets input.
Proof.
  unfold bodyPagesOf, sealedPages. cbn [tl]. apply removelast_last.
Qed.

Lemma bodySheets_invariant (input : SealInput) (P : PDFPage -> Prop)
  (Q : jsstring -> Prop) :
  P [furnitureOp (partialHashOf input)] ->
  P [furnitureOp (partialHashOf input);
     DrawText (lit "Conversation Excerpt:") (pt 50) (height - pt 80) 12 None] ->
  (forall p line y, P p -> Q line -> (bottomMargin <= y)%Z -> P (p ++ [lineOp line y])) ->
  (forall body, messagesHtml input = Some body -> Forall Q (itemLines (bodyItems body))) ->
  Forall P (bodySheets input).
Proof.
  intros Hfresh Hfirst Hline HQ. unfold bodySheets.
  destruct (messagesHtml input) as [body|]; [|constructor].
  destruct (truthy body); [|constructor].
  apply Forall_app.
  destruct (@place_invariant (partialHashOf input) P Q Hfresh Hline (bodyItems body)
              {| finished := [];
                 open := [furnitureOp (partialHashOf input);
                          DrawText (lit "Conversation Excerpt:") (pt 50) (height - pt 80) 12 None];
                 cursor := (height - pt 100)%Z |}) as [Hfin Hopen].
  - apply HQ. reflexivity.
  - constructor.
  - exact Hfirst.
  - split; [exact Hfin | constructor; [exact Hopen | constructor]].
Qed.

Lemma bodySheets_lines (input : SealInput) (body : jsstring) :
  messagesHtml input = Some body ->
  truthy body = true ->
  flat_map bodyLinesOf (bodySheets input) = itemLines (bodyItems body).
Proof.
  intros Hbody Htruthy. unfold bodySheets. rewrite Hbody, Htruthy.
  rewrite bodyLines_fold_place. reflexivity.
Qed.

Lemma bodySheets_count (input : SealInput) (body : jsstring) :
  messagesHtml input = Some body ->
  truthy body = true ->
  length (bodySheets input) = 1 + bodyPageBreaks body.
Proof.
  intros Hbody Htruthy. unfold bodySheets, bodyPageBreaks. rewrite Hbody, Htruthy.
  rewrite length_app, finished_fold_place. cbn [length finished cursor]. lia.
Qed.

Lemma bodySheets_absent (input : SealInput) :
  messagesHtml input = None \/ messagesHtml input = Some [] ->
  bodySheets input = [].
Proof.
  intros [H|H]; unfold bodySheets; rewrite H; reflexivity.
Qed.

End Shape.

(** ** The hash shown in the footer *)

Lemma startsWith_length (pat s : jsstring) :
  startsWith pat s = true -> length pat <= length s.
Proof.
  revert s. induction pat as [|p pat IH]; intros [|c s]; cbn; try lia; try discriminate.
  intros H. apply andb_true_iff in H as [_ H]. apply IH in H. lia.
Qed.

Lemma includes_length (pat s : jsstring) :
  includes pat s = true -> length pat <= length s.
Proof.
  induction s as [|c s IH]; cbn [includes]; intros H; apply orb_true_iff in H as [H|H].
  - now apply startsWith_length.
  - discriminate.
  - now apply startsWith_length.
  - apply IH in H. cbn [length]. lia.
Qed.

Lemma hashText_digest (e : Evidence) (rest : list Evidence) (input : SealInput) :
  evidence input = e :: rest ->
  sha512 e <> [] ->
  hashText (partialHashOf input)
  = lit " | Evidence Hash: " ++ firstn 16 (sha512 e) ++ lit "...".
Proof.
  intros Hev Hsome. unfold partialHashOf, primaryHashOf. rewrite Hev.
  destruct (sha512 e) as [|c0 digest] eqn:Hsha; [contradiction|].
  cbn [truthy hashText substring skipn Nat.sub firstn]. reflexivity.
Qed.

(** ** Footer furniture *)

Section Furniture.

Context {C : Collaborators}.

(** C9. Every page of the sealed document starts with the footer drawn at
    (50, 40) in size 8, whose text begins with the product label. Without
    evidence the footer is the label alone. When the first evidence entry
    carries a digest, the label is followed by " | Evidence Hash: ", the
    first 16 characters of that digest and "..."; and a SHA-512 digest, of
    128 characters, never occurs in the footer as a whole. *)
Theorem footer_on_every_page (input : SealInput) (built : Built) :
  buildSealedPdf input = Fulfilled built ->
  (forall page, In page (built_pdf built) ->
     exists rest,
       page = DrawText (footerOf input) (pt 50) (pt 40) 8 (Some (rgb 5 5 5)) :: rest)
  /\ (exists suffix, footerOf input = footerText ++ suffix)
  /\ (evidence input = [] -> footerOf input = footerText)
  /\ (forall e rest,
        evidence input = e :: rest ->
        sha512 e <> [] ->
        footerOf input
        = footerText ++ lit " | Evidence Hash: " ++ firstn 16 (sha512 e) ++ lit "...")
  /\ (forall e rest,
        evidence input = e :: rest ->
        length (sha512 e) = 128 ->
        includes (sha512 e) (footerOf input) = false).
Proof.
  intros Hbuilt. destruct (built_pdf_pages input built Hbuilt) as [Hpdf _]. rewrite Hpdf.
  split; [|split; [|split; [|split]]].
  - intros page Hin.
    change (exists rest, page = furnitureOp (partialHashOf input) :: rest).
    unfold sealedPages in Hin. destruct Hin as [<-|Hin].
    + eexists. reflexivity.
    + apply in_app_or in Hin. destruct Hin as [Hin|[<-|[]]].
      * revert page Hin. apply Forall_forall.
        apply bodySheets_invariant with (Q := fun _ => True).
        -- eexists. reflexivity.
        -- eexists. reflexivity.
        -- intros p line y [rest ->] _ _. eexists. reflexivity.
        -- intros body _. apply Forall_forall. intros; exact I.
      * eexists. reflexivity.
  - eexists. reflexivity.
  - intros Hnone. unfold footerOf, partialHashOf, primaryHashOf. rewrite Hnone.
    cbn [hashText]. apply app_nil_r.
  - intros e rest Hev Hsome. unfold footerOf.
    now rewrite (hashText_digest e rest input Hev Hsome).
  - intros e rest Hev Hlen.
    destruct (includes (sha512 e) (footerOf input)) eqn:Hinc; [|reflexivity].
    apply includes_length in Hinc. unfold footerOf in Hinc.
    assert (Hsome : sha512 e <> []) by (intros Hnil; rewrite Hnil in Hlen; discriminate).
    rewrite (hashText_digest e rest input Hev Hsome), !length_app, length_firstn in Hinc.
    assert (length footerText = 28) as Hlabel by reflexivity.
    assert (length (lit " | Evidence Hash: ") = 18) as Hsep by reflexivity.
    assert (length (lit "...") = 3) as Hdots by reflexivity.
    lia.
Qed.

End Furniture.

Lemma plain_succeed (input : SealInput) :
  payloadFits (JSON_stringify (encodedPayload input)) = true ->
  @collaboratorsSucceed plainCollaborators input.
Proof.
  intros Hfits. unfold collaboratorsSucceed. cbn [plainCollaborators
    create_failure embedFont_failure toDataURL_failure embedPng_failure].
  rewrite Hfits. repeat split.
Qed.

Lemma scenarioInput_fits :
  payloadFits (JSON_stringify (encodedPayload scenarioInput)) = true.
Proof. vm_compute. reflexivity. Qed.

Lemma bodyInput_fits (body : jsstring) :
  payloadFits (JSON_stringify (encodedPayload (bodyInput body))) = true.
Proof. vm_compute. reflexivity. Qed.

Lemma thirtyShort_fits :
  payloadFits (JSON_stringify (encodedPayload thirtyShort)) = true.
Proof. vm_compute. reflexivity. Qed.

Lemma emptyRequest_fits (message : ChatMessage) :
  payloadFits
    (JSON_stringify (encodedPayload (@sealRequest plainServices message [])))
  = true.
Proof. vm_compute. reflexivity. Qed.

Lemma plainRequest_fits (message : ChatMessage) :
  payloadFits
    (JSON_stringify (encodedPayload (@sealRequest plainServices message twoFiles)))
  = true.
Proof. vm_compute. reflexivity. Qed.

Lemma signedOutRequest_fits (message : ChatMessage) :
  payloadFits
    (JSON_stringify (encodedPayload (@sealRequest signedOutServices message twoFiles)))
  = true.
Proof. vm_compute. reflexivity. Qed.

Lemma footer_on_every_page_witness :
  exists built,
    @buildSealedPdf plainCollaborators scenarioInput = Fulfilled built
    /\ (forall page, In page (built_pdf built) ->
          exists rest,
            page = DrawText (footerOf scenarioInput) (pt 50) (pt 40) 8
                     (Some (rgb 5 5 5)) :: rest)
    /\ footerOf scenarioInput
       = footerText ++ lit " | Evidence Hash: " ++ lit "cf83e1357eefb8bd" ++ lit "..."
    /\ includes (sha512 scenarioEvidence) (footerOf scenarioInput) = false.
Proof.
  eexists. split; [apply buildSealedPdf_succeeds, plain_succeed, scenarioInput_fits|].
  destruct (@footer_on_every_page plainCollaborators scenarioInput _
              (@buildSealedPdf_succeeds plainCollaborators scenarioInput
                 (plain_succeed scenarioInput scenarioInput_fits)))
    as (Hpages & _ & _ & Hfooter & Hwhole).
  split; [exact Hpages|]. split.
  - rewrite (Hfooter scenarioEvidence [] eq_refl);
      [vm_compute; reflexivity | vm_compute; discriminate].
  - refine (Hwhole scenarioEvidence [] eq_refl _).
    vm_compute. reflexivity.
Defined.

(** ** Body lines stay above the bottom margin *)

Section Margin.

Context {C : Collaborators}.

(** C10. Every text drawn at the body font size on a body page, the flush
    of a paragraph's last line included, is drawn at a height of at least
    the bottom margin of 80 points; and the texts so drawn are the lines of
    the body, in order. *)
Theorem body_lines_above_bottom_margin (input : SealInput) (body : jsstring)
  (built : Built) :
  messagesHtml input = Some body ->
  truthy body = true ->
  buildSealedPdf input = Fulfilled built ->
  bottomMargin = pt 80
  /\ flat_map bodyLinesOf (bodyPagesOf (built_pdf built)) = itemLines (bodyItems body)
  /\ forall page, In page (bodyPagesOf (built_pdf built)) ->
       forall text x0 y0 color,
         In (DrawText text x0 y0 fontSize color) page -> (bottomMargin <= y0)%Z.
Proof.
  intros Hbody Htruthy Hbuilt. destruct (built_pdf_pages input built Hbuilt) as [Hpdf _].
  rewrite Hpdf, bodyPagesOf_sealedPages.
  split; [reflexivity|]. split; [now apply bodySheets_lines|].
  refine (proj1 (Forall_forall _ _) _).
  apply bodySheets_invariant with (Q := fun _ => True).
  - intros text x0 y0 color [Heq|[]]. discriminate Heq.
  - intros text x0 y0 color [Heq|[Heq|[]]]; discriminate Heq.
  - intros p line y Hp _ Hy text x0 y0 color Hin.
    apply in_app_or in Hin. destruct Hin as [Hin|[Heq|[]]].
    + now apply (Hp text x0 y0 color).
    + unfold lineOp in Heq. injection Heq as _ _ <- _. exact Hy.
  - intros body' _. apply Forall_forall. intros; exact I.
Qed.

End Margin.

Lemma body_lines_above_bottom_margin_witness :
  exists built,
    @buildSealedPdf plainCollaborators (bodyInput (linesOfA 60)) = Fulfilled built
    /\ length (flat_map bodyLinesOf (bodyPagesOf (built_pdf built))) = 60
    /\ forall page, In page (bodyPagesOf (built_pdf built)) ->
         forall text x0 y0 color,
           In (DrawText text x0 y0 fontSize color) page -> (bottomMargin <= y0)%Z.
Proof.
  eexists. split; [apply buildSealedPdf_succeeds, plain_succeed, bodyInput_fits|].
  destruct (@body_lines_above_bottom_margin plainCollaborators
              (bodyInput (linesOfA 60)) (linesOfA 60) _ eq_refl eq_refl
              (@buildSealedPdf_succeeds plainCollaborators _ (plain_succeed _ (bodyInput_fits _))))
    as (_ & Hlines & Habove).
  split; [|exact Habove].
  rewrite Hlines. vm_compute. reflexivity.
Defined.

(** ** Page breaks and the page count *)

Section PageBreaks.

Context {C : Collaborators}.

Lemma sealedPages_count (input : SealInput) :
  getPageCount (sealedPages input) = 2 + length (bodySheets input).
Proof.
  unfold getPageCount, sealedPages. cbn [length]. rewrite length_app. cbn [length]. lia.
Qed.

(** C5. A page-break check opens a new page exactly when it finds the
    cursor below the bottom margin: the new page is appended with the footer
    as its only content and the cursor is reset to the top margin; otherwise
    nothing changes. The sealed document of a request with a body has the
    summary page, the first body page and the sealing page, and one more
    page for each check that found the cursor below the margin: five pages
    for two page breaks, six for three. *)
Theorem page_breaks_at_bottom_margin (input : SealInput) (body : jsstring)
  (built : Built) :
  messagesHtml input = Some body ->
  truthy body = true ->
  buildSealedPdf input = Fulfilled built ->
  (forall ph l,
     (currentY l < bottomMargin)%Z ->
     breakPageIfBelow ph l
     = {| pdf := pdf l ++ [[furnitureOp ph]];
          currentPage := length (pdf l);
          currentY := (height - topMargin)%Z |})
  /\ (forall ph l, (bottomMargin <= currentY l)%Z -> breakPageIfBelow ph l = l)
  /\ getPageCount (built_pdf built) = 3 + bodyPageBreaks body
  /\ (bodyPageBreaks body = 2 -> getPageCount (built_pdf built) = 5)
  /\ (bodyPageBreaks body = 3 -> getPageCount (built_pdf built) = 6).
Proof.
  intros Hbody Htruthy Hbuilt.
  destruct (built_pdf_pages input built Hbuilt) as [Hpdf _].
  assert (Hcount : getPageCount (built_pdf built) = 3 + bodyPageBreaks body).
  { rewrite Hpdf, sealedPages_count, (bodySheets_count input body Hbody Htruthy). lia. }
  repeat split.
  - intros ph l Hbelow. unfold breakPageIfBelow.
    apply Z.ltb_lt in Hbelow. rewrite Hbelow.
    unfold addPage. now rewrite drawPageFurniture_last.
  - intros ph l Habove. unfold breakPageIfBelow.
    apply Z.ltb_ge in Habove. now rewrite Habove.
  - exact Hcount.
  - intros Htwo. rewrite Hcount, Htwo. reflexivity.
  - intros Hthree. rewrite Hcount, Hthree. reflexivity.
Qed.

End PageBreaks.

Lemma page_breaks_at_bottom_margin_witness :
  (@bodyPageBreaks plainCollaborators (linesOfA 98) = 2
   /\ exists built,
        @buildSealedPdf plainCollaborators (bodyInput (linesOfA 98)) = Fulfilled built
        /\ getPageCount (built_pdf built) = 5)
  /\ (@bodyPageBreaks plainCollaborators (linesOfA 147) = 3
      /\ exists built,
           @buildSealedPdf plainCollaborators (bodyInput (linesOfA 147)) = Fulfilled built
           /\ getPageCount (built_pdf built) = 6).
Proof.
  split; (split; [vm_compute; reflexivity|]); eexists;
    (split; [apply buildSealedPdf_succeeds, plain_succeed, bodyInput_fits|]).
  - apply (@page_breaks_at_bottom_margin plainCollaborators
             (bodyInput (linesOfA 98)) (linesOfA 98) _ eq_refl eq_refl
             (@buildSealedPdf_succeeds plainCollaborators _ (plain_succeed _ (bodyInput_fits _)))).
    vm_compute. reflexivity.
  - apply (@page_breaks_at_bottom_margin plainCollaborators
             (bodyInput (linesOfA 147)) (linesOfA 147) _ eq_refl eq_refl
             (@buildSealedPdf_succeeds plainCollaborators _ (plain_succeed _ (bodyInput_fits _)))).
    vm_compute. reflexivity.
Defined.

(** The last body line that fits the first body page is the 48th, and each
    later page takes 49 lines. *)
Example page_break_thresholds :
  map (fun n => @bodyPageBreaks plainCollaborators (linesOfA n))
    [1; 48; 49; 97; 98; 146; 147; 195; 196]
  = [0; 0; 1; 1; 2; 2; 3; 3; 4].
Proof. vm_compute. reflexivity. Qed.

(** ** A request without body text *)

Section NoBody.

Context {C : Collaborators}.

(** C6. When the request has no body text, absent or empty, the document
    that is built has exactly two pages, the summary page followed by the
    sealing page, and what [makeSealedPdf] returns is what [pdf.save()]
    makes of these two pages. *)
Theorem no_body_two_pages (input : SealInput) (built : Built) :
  messagesHtml input = None \/ messagesHtml input = Some [] ->
  buildSealedPdf input = Fulfilled built ->
  getPageCount (built_pdf built) = 2
  /\ built_pdf built = [summaryPage input; sealingPage input 2]
  /\ makeSealedPdf input = save [summaryPage input; sealingPage input 2]
  /\ forall bytes,
       makeSealedPdf input = Fulfilled bytes ->
       bytes = serialize [summaryPage input; sealingPage input 2].
Proof.
  intros Hnobody Hbuilt.
  destruct (built_pdf_pages input built Hbuilt) as [Hpdf _].
  assert (Hpages : sealedPages input = [summaryPage input; sealingPage input 2]).
  { unfold sealedPages. now rewrite (bodySheets_absent input Hnobody). }
  assert (Hsave : makeSealedPdf input = save [summaryPage input; sealingPage input 2]).
  { unfold makeSealedPdf. rewrite Hbuilt. cbn [await]. now rewrite Hpdf, Hpages. }
  rewrite Hpdf, Hpages. repeat split; [exact Hsave|].
  intros bytes Hbytes. rewrite Hsave in Hbytes. unfold save, settle in Hbytes.
  destruct (save_failure _); [discriminate Hbytes|]. now injection Hbytes as <-.
Qed.

End NoBody.

Lemma no_body_two_pages_witness :
  exists built,
    @buildSealedPdf plainCollaborators scenarioInput = Fulfilled built
    /\ getPageCount (built_pdf built) = 2
    /\ built_pdf built = [summaryPage scenarioInput; sealingPage scenarioInput 2]
    /\ @makeSealedPdf plainCollaborators scenarioInput
       = Fulfilled
           (textBytes [summaryPage scenarioInput; sealingPage scenarioInput 2]).
Proof.
  eexists. split; [apply buildSealedPdf_succeeds, plain_succeed, scenarioInput_fits|].
  destruct (@no_body_two_pages plainCollaborators scenarioInput _
              (or_introl eq_refl)
              (@buildSealedPdf_succeeds plainCollaborators scenarioInput
                 (plain_succeed scenarioInput scenarioInput_fits)))
    as (Hcount & Hpages & Hsave & _).
  split; [exact Hcount|]. split; [exact Hpages|]. exact Hsave.
Defined.

(** ** The evidence list of the summary page *)

Lemma evidenceOps_firstn (evs : list Evidence) :
  forall y : Z,
    evidenceOps y evs = entriesFrom y (firstn (entriesThatFit y) evs).
Proof.
  induction evs as [|ev rest IH]; intros y; cbn [evidenceOps].
  - now rewrite firstn_nil.
  - destruct (y <? pt 100)%Z eqn:Hy.
    + rewrite IH. unfold entriesThatFit. rewrite Hy. reflexivity.
    + apply Z.ltb_ge in Hy.
      assert (Hfit : entriesThatFit y = S (entriesThatFit (y - pt 12 - pt 14))).
      { unfold entriesThatFit.
        destruct (y <? pt 100)%Z eqn:Hy'; [apply Z.ltb_lt in Hy'; lia|].
        destruct (y - pt 12 - pt 14 <? pt 100)%Z eqn:Hnext;
          [apply Z.ltb_lt in Hnext | apply Z.ltb_ge in Hnext];
          unfold pt in *; Z.div_mod_to_equations; lia. }
      rewrite Hfit. cbn [firstn entriesFrom]. rewrite IH.
      replace (y - pt 26)%Z with (y - pt 12 - pt 14)%Z by (unfold pt; lia).
      reflexivity.
Qed.

Section EvidenceList.

Context {C : Collaborators}.


End EvidenceList.



(** ** The page count in the raster code *)

Lemma JSON_stringify_pageCount (p : QRPayload) :
  exists prefix,
    JSON_stringify p
    = prefix ++ [34%N] ++ lit "pageCount" ++ [34%N; 58%N]
      ++ toString 10 (N.of_nat (payload_pageCount p)) ++ [125%N].
Proof.
  unfold JSON_stringify, stringifyObject. cbn [map commaSep fst snd].
  unfold stringifyNumber.
  change (stringifyString (lit "pageCount")) with ([34%N] ++ lit "pageCount" ++ [34%N]).
  exists ([123%N]
          ++ stringifyString (lit "sha512") ++ [58%N]
          ++ stringifyArray (payload_sha512 p) ++ [44%N]
          ++ stringifyString (lit "filenames") ++ [58%N]
          ++ stringifyArray (payload_filenames p) ++ [44%N]
          ++ stringifyString (lit "utcTimestamp") ++ [58%N]
          ++ stringifyString (payload_utcTimestamp p) ++ [44%N]
          ++ stringifyString (lit "appVersion") ++ [58%N]
          ++ stringifyString (payload_appVersion p) ++ [44%N]).
  rewrite <- !app_assoc. reflexivity.
Qed.

Section RasterCode.

Context {C : Collaborators}.

(** C1, as the code has it. The image on the sealing page is made from the
    payload as it stands at the top of [makeSealedPdf], whose [pageCount]
    is the page count of the still empty document, 0: the encoded text ends
    with the property [pageCount] of value [0]. The document has at least
    two pages, and the [qrPayload] object is given their number only after
    the image was made and embedded. *)
Theorem qr_encodes_initial_page_count (input : SealInput) (built : Built) :
  buildSealedPdf input = Fulfilled built ->
  (exists front,
     built_pdf built
     = front ++ [sealingPage input (getPageCount (built_pdf built))])
  /\ In (DrawImage (PngImage (QrDataUrl (JSON_stringify (encodedPayload input))))
           (width - pt 50 - pt 120) (pt 50) (pt 120) (pt 120))
        (sealingPage input (getPageCount (built_pdf built)))
  /\ payload_pageCount (encodedPayload input) = 0
  /\ (exists prefix,
        JSON_stringify (encodedPayload input)
        = prefix ++ [34%N] ++ lit "pageCount" ++ [34%N; 58%N; 48%N; 125%N])
  /\ 2 <= getPageCount (built_pdf built)
  /\ payload_pageCount (built_qrPayload built) = getPageCount (built_pdf built).
Proof.
  intros Hbuilt. destruct (built_pdf_pages input built Hbuilt) as [Hpdf Hpayload].
  rewrite Hpdf, Hpayload, sealedPages_count.
  split; [|split; [|split; [|split; [|split]]]].
  - exists (summaryPage input :: bodySheets input). reflexivity.
  - unfold sealingPage, qrImageOf. cbn [In]. right. right. left. reflexivity.
  - reflexivity.
  - destruct (JSON_stringify_pageCount (encodedPayload input)) as [prefix Hjson].
    exists prefix. exact Hjson.
  - lia.
  - cbn [payload_pageCount setPageCount]. apply (sealedPages_count input).
Qed.

End RasterCode.

Lemma qr_encodes_initial_page_count_witness :
  exists built,
    @buildSealedPdf plainCollaborators scenarioInput = Fulfilled built
    /\ getPageCount (built_pdf built) = 2
    /\ In (DrawImage (PngImage (QrDataUrl (JSON_stringify (encodedPayload scenarioInput))))
             (width - pt 50 - pt 120) (pt 50) (pt 120) (pt 120))
          (sealingPage scenarioInput 2)
    /\ payload_pageCount (encodedPayload scenarioInput) = 0.
Proof.
  eexists. split; [apply buildSealedPdf_succeeds, plain_succeed, scenarioInput_fits|].
  split; [reflexivity|].
  destruct (@qr_encodes_initial_page_count plainCollaborators scenarioInput _
              (@buildSealedPdf_succeeds plainCollaborators scenarioInput
                 (plain_succeed scenarioInput scenarioInput_fits)))
    as (_ & Himage & Hzero & _).
  split; [exact Himage | exact Hzero].
Defined.

(** X1. The text line of the sealing page, unlike the raster code, is written
    after the last page was added: it states the number of pages of the
    document. *)
Theorem page_count_line_is_final {C : Collaborators} (input : SealInput)
  (built : Built) :
  buildSealedPdf input = Fulfilled built ->
  exists front sealing,
    built_pdf built = front ++ [sealing]
    /\ In (DrawText
             (lit "Page Count: "
              ++ toString 10 (N.of_nat (getPageCount (built_pdf built))))
             (pt 50) (height - pt 166) 11 None)
          sealing.
Proof.
  intros Hbuilt. destruct (built_pdf_pages input built Hbuilt) as [Hpdf _].
  rewrite Hpdf, sealedPages_count.
  exists (summaryPage input :: bodySheets input),
    (sealingPage input (2 + length (bodySheets input))).
  split; [reflexivity|].
  unfold sealingPage. cbn [In]. do 7 right. left. reflexivity.
Qed.

Lemma page_count_line_is_final_witness :
  exists built front sealing,
    @buildSealedPdf plainCollaborators (bodyInput (linesOfA 98)) = Fulfilled built
    /\ built_pdf built = front ++ [sealing]
    /\ In (DrawText (lit "Page Count: 5") (pt 50) (height - pt 166) 11 None) sealing.
Proof.
  destruct (@page_count_line_is_final plainCollaborators (bodyInput (linesOfA 98)) _
              (@buildSealedPdf_succeeds plainCollaborators _ (plain_succeed _ (bodyInput_fits _))))
    as (front & sealing & Hpages & Hline).
  eexists _, front, sealing.
  split; [apply buildSealedPdf_succeeds, plain_succeed, bodyInput_fits|].
  split; [exact Hpages | exact Hline].
Defined.

(** ** Failures of construction *)

Section Failures.

Context {C : Collaborators} {V : Services}.

Lemma performSealingProcess_found (messages : list ChatMessage)
  (uploadedFiles : list UploadedFile) (messageId : jsstring)
  (messageIndex : nat) (message : ChatMessage) :
  findIndex messageId messages = Some messageIndex ->
  nth_error messages messageIndex = Some message ->
  performSealingProcess messages uploadedFiles messageId
  = (pdfBytes <- await makeSealedPdf (sealRequest message uploadedFiles) ;;
     let pdfHash := stringToHash pdfBytes in
     let fileName :=
       lit "VO_Sealed_Report_" ++ replaceColonDot now_toISOString ++ lit ".pdf" in
     let cloudAnchorResult := tryAnchorToCloud fileName pdfHash pdfBytes uploadedFiles in
     let newContent :=
       replaceAll firestorePlaceholder (orNA (firestoreIdOf cloudAnchorResult))
         (replaceAll cloudAnchorPlaceholder (orNA (storagePathOf cloudAnchorResult))
            (replaceAll hashPlaceholder pdfHash (content message))) in
     Fulfilled
       (Some ({| fileName := fileName; hash := pdfHash;
                 cloudAnchor := cloudAnchorResult; pdfBytes := pdfBytes;
                 updatedContent := newContent |},
              assign messages messageIndex
                {| id := id message; content := newContent |}))).
Proof.
  intros Hfind Hnth. unfold performSealingProcess. rewrite Hfind, Hnth. reflexivity.
Qed.

(** [makeSealedPdf] is rejected with the error of the first collaborator
    that fails, and otherwise returns the bytes of the whole document. *)
Lemma makeSealedPdf_outcome (input : SealInput) :
  makeSealedPdf input
  = settle (firstFailure input) (serialize (sealedPages input)).
Proof.
  unfold firstFailure.
  destruct create_failure as [e|] eqn:Hcreate.
  { unfold makeSealedPdf, buildSealedPdf, PDFDocument_create.
    rewrite Hcreate. reflexivity. }
  destruct embedFont_failure as [e|] eqn:Hfont.
  { unfold makeSealedPdf, buildSealedPdf, PDFDocument_create, embedFont.
    rewrite Hcreate, Hfont. reflexivity. }
  destruct (toDataURL_failure _) as [e|] eqn:Hqr.
  { unfold makeSealedPdf, buildSealedPdf, PDFDocument_create, embedFont,
      QRCode_toDataURL.
    rewrite Hcreate, Hfont. cbn [settle await].
    fold (encodedPayload input). rewrite Hqr. reflexivity. }
  destruct (embedPng_failure _) as [e|] eqn:Hpng.
  { unfold makeSealedPdf, buildSealedPdf, PDFDocument_create, embedFont,
      QRCode_toDataURL, embedPng.
    rewrite Hcreate, Hfont. cbn [settle await].
    fold (encodedPayload input). rewrite Hqr. cbn [settle await].
    unfold addPage. cbv beta iota.
    destruct (fold_left _ (evidence input) _) as [pdf1 y1].
    rewrite Hpng. reflexivity. }
  unfold makeSealedPdf.
  rewrite (buildSealedPdf_succeeds input (conj Hcreate (conj Hfont (conj Hqr Hpng)))).
  reflexivity.
Qed.

(** C8. When font embedding, image embedding or serialization fails,
    [makeSealedPdf] is rejected with that very error and returns no bytes;
    [performSealingProcess], which awaits it outside of its [try] block, is
    rejected with the same error. In every case [makeSealedPdf] is either
    rejected with the error of the first call that failed or returns the
    bytes of the complete document. *)
Theorem construction_failure_is_fatal (input : SealInput) (e : Error) :
  ConstructionFailure input e ->
  makeSealedPdf input = Rejected e
  /\ (forall bytes, makeSealedPdf input <> Fulfilled bytes)
  /\ makeSealedPdf input
     = settle (firstFailure input) (serialize (sealedPages input))
  /\ (forall messages uploadedFiles messageId messageIndex message,
        findIndex messageId messages = Some messageIndex ->
        nth_error messages messageIndex = Some message ->
        sealRequest message uploadedFiles = input ->
        performSealingProcess messages uploadedFiles messageId = Rejected e).
Proof.
  intros Hfail.
  assert (Hrejected : makeSealedPdf input = Rejected e).
  { destruct Hfail as [Hcreate Hfont | Hcreate Hfont Hqr Hpng | Hok Hsave].
    - unfold makeSealedPdf, buildSealedPdf, PDFDocument_create, embedFont.
      rewrite Hcreate, Hfont. reflexivity.
    - unfold makeSealedPdf, buildSealedPdf, PDFDocument_create, embedFont,
        QRCode_toDataURL, embedPng.
      rewrite Hcreate, Hfont. cbn [settle await].
      fold (encodedPayload input). rewrite Hqr. cbn [settle await].
      unfold addPage. cbv beta iota.
      destruct (fold_left _ (evidence input) _) as [pdf1 y1].
      rewrite Hpng. reflexivity.
    - unfold makeSealedPdf. rewrite (buildSealedPdf_succeeds input Hok).
      cbn [await built_pdf]. unfold save. rewrite Hsave. reflexivity. }
  split; [exact Hrejected|]. split; [|split].
  - intros bytes Hbytes. rewrite Hrejected in Hbytes. discriminate Hbytes.
  - apply makeSealedPdf_outcome.
  - intros messages uploadedFiles messageId messageIndex message Hfind Hnth Hinput.
    rewrite (performSealingProcess_found messages uploadedFiles messageId
               messageIndex message Hfind Hnth).
    rewrite Hinput, Hrejected. reflexivity.
Qed.

End Failures.

Lemma construction_failure_is_fatal_witness :
  @makeSealedPdf (collaboratorsFailing (Some (lit "font")) None None) scenarioInput
  = Rejected (lit "font")
  /\ @makeSealedPdf (collaboratorsFailing None (Some (lit "png")) None) scenarioInput
     = Rejected (lit "png")
  /\ @makeSealedPdf (collaboratorsFailing None None (Some (lit "save"))) scenarioInput
     = Rejected (lit "save")
  /\ @performSealingProcess (collaboratorsFailing None None (Some (lit "save")))
       plainServices oneMessage [] (lit "m1")
     = Rejected (lit "save").
Proof.
  split; [|split; [|split]].
  - apply (@construction_failure_is_fatal
             (collaboratorsFailing (Some (lit "font")) None None) plainServices
             scenarioInput (lit "font")).
    apply FontEmbeddingFails; reflexivity.
  - apply (@construction_failure_is_fatal
             (collaboratorsFailing None (Some (lit "png")) None) plainServices
             scenarioInput (lit "png")).
    apply ImageEmbeddingFails; reflexivity.
  - apply (@construction_failure_is_fatal
             (collaboratorsFailing None None (Some (lit "save"))) plainServices
             scenarioInput (lit "save")).
    apply SerializationFails; [repeat split | reflexivity].
  - refine (proj2 (proj2 (proj2 (@construction_failure_is_fatal
             (collaboratorsFailing None None (Some (lit "save"))) plainServices
             (@sealRequest plainServices (nth 0 oneMessage {| id := []; content := [] |}) [])
             (lit "save") _))) oneMessage [] (lit "m1") 0 _ eq_refl eq_refl eq_refl).
    apply SerializationFails; [repeat split | reflexivity].
Defined.

(** ** The hasher *)

Lemma hexOfByte_twoHexDigits (b : byte) : twoHexDigits b = true.
Proof. destruct b; vm_compute; reflexivity. Qed.

Lemma hexOfByte_spec (b : byte) :
  exists hi lo,
    hexOfByte b = [hi; lo]
    /\ isLowerHex hi = true /\ isLowerHex lo = true
    /\ byteOfDigits hi lo = Some b.
Proof.
  pose proof (hexOfByte_twoHexDigits b) as H. unfold twoHexDigits in H.
  destruct (hexOfByte b) as [|hi [|lo [|? ?]]]; try discriminate H.
  exists hi, lo. apply andb_true_iff in H as [H Hback].
  apply andb_true_iff in H as [Hhi Hlo].
  destruct (byteOfDigits hi lo) as [b'|]; [|discriminate Hback].
  apply Byte.byte_dec_bl in Hback. subst b'. repeat split; assumption.
Qed.

Lemma hex_of_bytes (bs : list byte) :
  length (join (map hexOfByte bs)) = 2 * length bs
  /\ forallb isLowerHex (join (map hexOfByte bs)) = true
  /\ hexDecode (join (map hexOfByte bs)) = Some bs.
Proof.
  induction bs as [|b bs (IHlen & IHhex & IHback)]; [repeat split|].
  destruct (hexOfByte_spec b) as (hi & lo & Hb & Hhi & Hlo & Hback).
  unfold join in *. cbn [map concat]. rewrite Hb. cbn [app length forallb hexDecode].
  rewrite IHlen, IHhex, IHback, Hhi, Hlo, Hback. repeat split. lia.
Qed.

Lemma digest_length (data : list byte) : length (SHA512.digest data) = 64.
Proof. unfold SHA512.digest. rewrite !length_app. reflexivity. Qed.

Lemma stringToHash_hex (data : list byte) :
  forallb isLowerHex (stringToHash data) = true.
Proof. apply (hex_of_bytes (SHA512.digest data)). Qed.

(** C7. For every byte sequence, the empty one included, [stringToHash]
    yields the SHA-512 digest of the input, 64 bytes, written as 128
    lowercase hexadecimal digits from which the digest reads back; it is a
    function of the bytes alone, and the empty input has the digest
    cf83e135...f927da3e. *)
Theorem stringToHash_is_sha512_hex (data : list byte) :
  length (stringToHash data) = 128
  /\ forallb isLowerHex (stringToHash data) = true
  /\ hexDecode (stringToHash data) = Some (SHA512.digest data)
  /\ length (SHA512.digest data) = 64
  /\ (forall data', data' = data -> stringToHash data' = stringToHash data)
  /\ stringToHash []
     = lit "cf83e1357eefb8bdf1542850d66d8007d620e4050b5715dc83f4a921d36ce9ce47d0d13c5d85f2b0ff8318d2877eec2f63b931bd47417a81a538327af927da3e".
Proof.
  destruct (hex_of_bytes (SHA512.digest data)) as (Hlen & Hhex & Hback).
  change (join (map hexOfByte (SHA512.digest data))) with (stringToHash data) in *.
  rewrite digest_length in Hlen.
  split; [exact Hlen|]. split; [exact Hhex|]. split; [exact Hback|].
  split; [apply digest_length|]. split.
  - intros data' ->. reflexivity.
  - vm_compute. reflexivity.
Qed.

(** The digest of "abc", the first test vector of the standard. *)
Example stringToHash_abc :
  stringToHash [x61; x62; x63]
  = lit "ddaf35a193617abacc417349ae20413112e6fa4e89a97ea20a9eeee64b55d39a2192992a274fc1a836ba3c23a3feebbd454d4423643ce80e2a9ac94fa54ca49f".
Proof. vm_compute. reflexivity. Qed.

(** ** Substituting the hash of the sealed document *)

(** A replacement text without a dollar sign is inserted as it is. *)
Lemma getSubstitution_plain (repl matched before after : jsstring) :
  ~ In 36%N repl ->
  getSubstitution repl matched before after = repl.
Proof.
  induction repl as [|c repl IH]; intros Hplain; [reflexivity|].
  assert (Hc : c <> 36%N) by (intros ->; apply Hplain; now left).
  assert (Hrest : ~ In 36%N repl) by (intros Hin; apply Hplain; now right).
  specialize (IH Hrest).
  change (getSubstitution (c :: repl) matched before after)
    with (match c with
          | 36%N =>
              match repl with
              | 36%N :: r' => 36%N :: getSubstitution r' matched before after
              | 38%N :: r' => matched ++ getSubstitution r' matched before after
              | 96%N :: r' => before ++ getSubstitution r' matched before after
              | 39%N :: r' => after ++ getSubstitution r' matched before after
              | _ => 36%N :: getSubstitution repl matched before after
              end
          | _ => c :: getSubstitution repl matched before after
          end).
  rewrite IH.
  destruct c as [|[p|p|]]; try reflexivity;
    repeat (destruct p as [p|p|]; try reflexivity).
  contradiction Hc. reflexivity.
Qed.

Lemma lowerHex_plain (s : jsstring) :
  forallb isLowerHex s = true -> ~ In 36%N s.
Proof.
  intros Hhex Hin.
  apply (proj1 (forallb_forall _ _) Hhex) in Hin. discriminate Hin.
Qed.

Lemma startsWith_app (pat s : jsstring) : startsWith pat (pat ++ s) = true.
Proof.
  induction pat as [|p pat IH]; [reflexivity|].
  cbn [app startsWith]. now rewrite N.eqb_refl, IH.
Qed.

(** Code units that cannot start a match are copied. *)
Lemma replaceScan_copy (first : N) (pat' repl copied : jsstring) :
  ~ In first copied ->
  forall before rest,
    replaceScan (first :: pat') repl before 0 (copied ++ rest)
    = copied ++ replaceScan (first :: pat') repl (before ++ copied) 0 rest.
Proof.
  induction copied as [|c copied IH]; intros Hnot before rest.
  - now rewrite app_nil_r.
  - cbn [app replaceScan].
    assert (Hstart : startsWith (first :: pat') (c :: copied ++ rest) = false).
    { cbn [startsWith].
      destruct (N.eqb_spec first c) as [->|_]; [|reflexivity].
      contradiction Hnot. now left. }
    rewrite Hstart, IH, <- app_assoc; [reflexivity|].
    intros Hin. apply Hnot. now right.
Qed.

(** The rest of a match is passed over. *)
Lemma replaceScan_skip (pat repl passed : jsstring) :
  forall before rest,
    replaceScan pat repl before (length passed) (passed ++ rest)
    = replaceScan pat repl (before ++ passed) 0 rest.
Proof.
  induction passed as [|c passed IH]; intros before rest.
  - cbn [length app]. now rewrite app_nil_r.
  - cbn [length app replaceScan]. rewrite IH, <- app_assoc. reflexivity.
Qed.

(** One occurrence of the pattern between texts that cannot start a match. *)
Lemma replaceAll_once (first : N) (pat' repl pre post : jsstring) :
  ~ In first pre -> ~ In first post ->
  replaceAll (first :: pat') repl (pre ++ (first :: pat') ++ post)
  = pre ++ getSubstitution repl (first :: pat') pre post ++ post.
Proof.
  intros Hpre Hpost. unfold replaceAll.
  rewrite (replaceScan_copy first pat' repl pre Hpre). cbn [app]. f_equal.
  cbn [replaceScan].
  change (startsWith (first :: pat') (first :: pat' ++ post))
    with (startsWith (first :: pat') ((first :: pat') ++ post)).
  rewrite startsWith_app.
  change (skipn (length (first :: pat')) (first :: pat' ++ post))
    with (skipn (length pat') (pat' ++ post)).
  rewrite skipn_app, skipn_all, Nat.sub_diag. cbn [skipn app]. f_equal.
  replace (length (first :: pat') - 1) with (length pat') by (cbn [length]; lia).
  rewrite replaceScan_skip.
  rewrite <- (app_nil_r post) at 1.
  rewrite (replaceScan_copy first pat' repl post Hpost).
  cbn [replaceScan]. now rewrite app_nil_r.
Qed.

Section Substitution.

Context {C : Collaborators} {V : Services}.

(** C2. When [performSealingProcess] hands back a result, its bytes are
    the bytes [makeSealedPdf] returned for the request of the message, its
    hash is [stringToHash] of these very bytes, and the new content is the
    old one with the hash placeholder replaced by that hash, which is
    inserted as it stands: a content made of one placeholder between texts
    without an opening bracket becomes these texts around the hash. *)
Theorem substituted_hash_is_digest_of_returned_bytes
  (messages : list ChatMessage) (uploadedFiles : list UploadedFile)
  (messageId : jsstring) (result : SealResult) (updatedMessages : list ChatMessage) :
  performSealingProcess messages uploadedFiles messageId
  = Fulfilled (Some (result, updatedMessages)) ->
  exists messageIndex message,
    findIndex messageId messages = Some messageIndex
    /\ nth_error messages messageIndex = Some message
    /\ makeSealedPdf (sealRequest message uploadedFiles) = Fulfilled (pdfBytes result)
    /\ hash result = stringToHash (pdfBytes result)
    /\ updatedContent result
       = replaceAll firestorePlaceholder (orNA (firestoreIdOf (cloudAnchor result)))
           (replaceAll cloudAnchorPlaceholder (orNA (storagePathOf (cloudAnchor result)))
              (replaceAll hashPlaceholder (stringToHash (pdfBytes result))
                 (content message)))
    /\ (forall before after,
          getSubstitution (stringToHash (pdfBytes result)) hashPlaceholder before after
          = stringToHash (pdfBytes result))
    /\ (forall pre post,
          ~ In 91%N pre -> ~ In 91%N post ->
          replaceAll hashPlaceholder (stringToHash (pdfBytes result))
            (pre ++ hashPlaceholder ++ post)
          = pre ++ stringToHash (pdfBytes result) ++ post).
Proof.
  intros Hdone.
  destruct (findIndex messageId messages) as [messageIndex|] eqn:Hfind;
    [|unfold performSealingProcess in Hdone; rewrite Hfind in Hdone; discriminate Hdone].
  destruct (nth_error messages messageIndex) as [message|] eqn:Hnth;
    [|unfold performSealingProcess in Hdone; rewrite Hfind, Hnth in Hdone;
      discriminate Hdone].
  rewrite (performSealingProcess_found messages uploadedFiles messageId
             messageIndex message Hfind Hnth) in Hdone.
  destruct (makeSealedPdf (sealRequest message uploadedFiles)) as [bytes|e] eqn:Hpdf;
    [|discriminate Hdone].
  cbn [await] in Hdone. injection Hdone as <- _. cbn [pdfBytes hash updatedContent cloudAnchor].
  assert (Hplain : ~ In 36%N (stringToHash bytes)).
  { apply lowerHex_plain. apply (stringToHash_hex bytes). }
  exists messageIndex, message. repeat split; try reflexivity; try assumption.
  - intros before after. now apply getSubstitution_plain.
  - intros pre post Hpre Hpost.
    change hashPlaceholder
      with (91%N :: lit "Placeholder for SHA-512 hash of this report]").
    rewrite (replaceAll_once 91 (lit "Placeholder for SHA-512 hash of this report]")
               (stringToHash bytes) pre post Hpre Hpost).
    now rewrite getSubstitution_plain.
Qed.

End Substitution.

Lemma substituted_hash_is_digest_of_returned_bytes_witness :
  exists result updatedMessages,
    @performSealingProcess plainCollaborators plainServices oneMessage [] (lit "m1")
    = Fulfilled (Some (result, updatedMessages))
    /\ hash result = stringToHash (pdfBytes result)
    /\ pdfBytes result
       = textBytes
           (@sealedPages plainCollaborators
              (@sealRequest plainServices
                 (nth 0 oneMessage {| id := []; content := [] |}) [])).
Proof.
  assert (Hpdf :
    @makeSealedPdf plainCollaborators
      (@sealRequest plainServices (nth 0 oneMessage {| id := []; content := [] |}) [])
    = Fulfilled
        (textBytes
           (@sealedPages plainCollaborators
              (@sealRequest plainServices
                 (nth 0 oneMessage {| id := []; content := [] |}) [])))).
  { unfold makeSealedPdf.
    rewrite (@buildSealedPdf_succeeds plainCollaborators _
               (plain_succeed _ (emptyRequest_fits _))).
    reflexivity. }
  eassert (Hdone :
    @performSealingProcess plainCollaborators plainServices oneMessage [] (lit "m1")
    = Fulfilled (Some (_, _))).
  { rewrite (@performSealingProcess_found plainCollaborators plainServices
               oneMessage [] (lit "m1") 0
               (nth 0 oneMessage {| id := []; content := [] |}) eq_refl eq_refl).
    rewrite Hpdf. cbn [await]. reflexivity. }
  eexists _, _. split; [exact Hdone|].
  destruct (@substituted_hash_is_digest_of_returned_bytes
              plainCollaborators plainServices oneMessage [] (lit "m1") _ _ Hdone)
    as (messageIndex & message & _ & _ & _ & Hhash & _).
  split; [exact Hhash | reflexivity].
Defined.

(** The chat of one message, sealed with collaborators that all succeed:
    the placeholder gives way to the digest of the saved bytes. *)
Example performSealingProcess_example :
  match @performSealingProcess plainCollaborators plainServices oneMessage []
          (lit "m1") with
  | Fulfilled (Some (result, updatedMessages)) =>
      fileName result = lit "VO_Sealed_Report_2024-01-01T00-00-00-000Z.pdf"
      /\ updatedContent result
         = lit "- Certified SHA-512 Hash: 156b335cca73dea9cb722547b80d6347a29cf4e303dce6468e92d98331c8bd0dcd550e9cb4760ee5bd36571e3bdd0d5f2a2ba36dd8bc742ab652f3d4ebf66653"
      /\ map content updatedMessages = [updatedContent result]
  | _ => False
  end.
Proof. vm_compute. repeat split; reflexivity. Qed.

(** ** Word wrap *)

Section WordWrap.

Context {C : Collaborators}.

Lemma wrapWords_fit (words : list jsstring) :
  Forall fits words ->
  forall line,
    length line = 0 \/ fits line ->
    Forall fits (fst (wrapWords words line))
    /\ (length (snd (wrapWords words line)) = 0 \/ fits (snd (wrapWords words line))).
Proof.
  induction words as [|word rest IH]; intros Hwords line Hline; cbn [wrapWords].
  - split; [constructor | exact Hline].
  - inversion Hwords as [|? ? Hword Hrest]; subst.
    destruct (length line =? 0) eqn:Hempty.
    + (* the line is empty: the word alone is tried, and it fits *)
      destruct (widthOfTextAtSize word fontSize >? maxWidth)%Z eqn:Hwide.
      * apply Z.gtb_lt in Hwide. unfold fits in Hword. lia.
      * apply IH; [exact Hrest | right; exact Hword].
    + apply Nat.eqb_neq in Hempty.
      destruct Hline as [Hline|Hline]; [contradiction|].
      destruct (widthOfTextAtSize (line ++ [32%N] ++ word) fontSize >? maxWidth)%Z
        eqn:Hwide.
      * destruct (IH Hrest word (or_intror Hword)) as [Hemitted Hpending].
        destruct (wrapWords rest word) as [emitted pending]. cbn [fst snd] in *.
        split; [constructor; assumption | exact Hpending].
      * apply IH; [exact Hrest|]. right. unfold fits.
        destruct (Z.gtb_spec (widthOfTextAtSize (line ++ [32%N] ++ word) fontSize)
                    maxWidth); [discriminate Hwide | assumption].
Qed.

Lemma paragraphLines_fit (paragraph : jsstring) :
  Forall fits (split 32 paragraph) -> Forall fits (paragraphLines paragraph).
Proof.
  intros Hwords. unfold paragraphLines.
  destruct (wrapWords_fit (split 32 paragraph) Hwords [] (or_introl eq_refl))
    as [Hemitted Hpending].
  destruct (wrapWords (split 32 paragraph) []) as [emitted pending]. cbn [fst snd] in *.
  apply Forall_app. split; [exact Hemitted|].
  destruct (0 <? length pending) eqn:Hsome; [|constructor].
  apply Nat.ltb_lt in Hsome. destruct Hpending as [Hzero|Hfit]; [lia|].
  constructor; [exact Hfit | constructor].
Qed.

(** A word wider than the content width, between lines that a space and
    a further word only make wider, is a line of its own. *)
Section WideWord.

Hypothesis wider_with_more :
  forall a b,
    (widthOfTextAtSize a fontSize <= widthOfTextAtSize (a ++ [32%N] ++ b) fontSize)%Z
    /\ (widthOfTextAtSize b fontSize <= widthOfTextAtSize (a ++ [32%N] ++ b) fontSize)%Z.

Variable word : jsstring.
Hypothesis word_wide : (widthOfTextAtSize word fontSize > maxWidth)%Z.
Hypothesis word_not_empty : word <> [].

Lemma wrapWords_pending_wide (post : list jsstring) :
  In word (fst (wrapWords post word)) \/ snd (wrapWords post word) = word.
Proof.
  destruct post as [|next rest]; cbn [wrapWords]; [right; reflexivity|].
  destruct word as [|c w] eqn:Hword; [contradiction|]. cbn [length Nat.eqb].
  rewrite <- Hword in *.
  assert (Hwide : (widthOfTextAtSize (word ++ [32%N] ++ next) fontSize >? maxWidth)%Z
                  = true).
  { apply Z.gtb_lt. destruct (wider_with_more word next) as [Hle _]. lia. }
  rewrite Hwide. destruct (wrapWords rest next) as [emitted pending].
  left. cbn [fst]. now left.
Qed.

Lemma wrapWords_wide (pre post : list jsstring) :
  forall line,
    In word (fst (wrapWords (pre ++ word :: post) line))
    \/ snd (wrapWords (pre ++ word :: post) line) = word.
Proof.
  induction pre as [|first pre IH]; intros line.
  - change ([] ++ word :: post) with (word :: post). cbn [wrapWords].
    assert (Hwide :
      (widthOfTextAtSize
         (if (length line =? 0)%nat then word else line ++ [32%N] ++ word) fontSize
       >? maxWidth)%Z = true).
    { apply Z.gtb_lt. destruct (length line =? 0)%nat; [lia|].
      destruct (wider_with_more line word) as [_ Hle]. lia. }
    rewrite Hwide.
    destruct (wrapWords_pending_wide post) as [Hin|Hpending];
      destruct (wrapWords post word) as [emitted pending]; cbn [fst snd] in *.
    + left. now right.
    + right. exact Hpending.
  - change ((first :: pre) ++ word :: post) with (first :: pre ++ word :: post).
    cbn [wrapWords]. destruct (_ >? maxWidth)%Z.
    + destruct (IH first) as [Hin|Hpending];
        destruct (wrapWords (pre ++ word :: post) first) as [emitted pending];
        cbn [fst snd] in *.
      * left. now right.
      * right. exact Hpending.
    + apply IH.
Qed.

Lemma paragraphLines_wide (paragraph : jsstring) :
  In word (split 32 paragraph) -> In word (paragraphLines paragraph).
Proof.
  intros Hin. apply in_split in Hin. destruct Hin as (pre & post & Hsplit).
  unfold paragraphLines. rewrite Hsplit.
  destruct (wrapWords_wide pre post []) as [Hemitted|Hpending];
    destruct (wrapWords (pre ++ word :: post) []) as [emitted pending];
    cbn [fst snd] in *; apply in_or_app.
  - now left.
  - right. subst pending.
    destruct word as [|c w]; [contradiction|]. cbn. now left.
Qed.

End WideWord.

Lemma itemLines_TextLine (lines : list jsstring) :
  itemLines (map TextLine lines) = lines.
Proof.
  induction lines as [|l lines IH]; [reflexivity|].
  cbn [map]. unfold itemLines in *. cbn [flat_map app]. now rewrite IH.
Qed.

Lemma in_bodyItems (body line : jsstring) :
  In line (itemLines (bodyItems body))
  <-> exists paragraph,
        In paragraph (split 10 body)
        /\ JS.eqb (trim paragraph) [] = false
        /\ In line (paragraphLines paragraph).
Proof.
  unfold bodyItems. induction (split 10 body) as [|p ps IH]; cbn [flat_map].
  - split; [intros [] | intros (paragraph & [] & _)].
  - unfold itemLines in *. rewrite flat_map_app, in_app_iff, IH.
    fold (itemLines (paragraphItems p)). unfold paragraphItems. split.
    + intros [Hin|(paragraph & Hin & Hblank & Hline)].
      * destruct (JS.eqb (trim p) []) eqn:Hblank; [destruct Hin|].
        rewrite itemLines_TextLine in Hin. exists p. repeat split; [now left | assumption..].
      * exists paragraph. repeat split; [now right | assumption..].
    + intros (paragraph & [<-|Hin] & Hblank & Hline).
      * left. rewrite Hblank, itemLines_TextLine. exact Hline.
      * right. exists paragraph. repeat split; assumption.
Qed.

(** C4. The lines of the body are drawn at size 10 within the content
    width [width - 2 * 50]. When every word of the body measures narrower
    than the content width, so does every line drawn. A word that measures
    wider, in a paragraph that is not blank, is drawn as a line of its own,
    whole, given that a text never measures narrower than either part of it
    around a space. *)
Theorem word_wrap_fits_content_width (input : SealInput) (body : jsstring)
  (built : Built) :
  messagesHtml input = Some body ->
  truthy body = true ->
  buildSealedPdf input = Fulfilled built ->
  maxWidth = (width - 2 * pt 50)%Z
  /\ ((forall paragraph word,
         In paragraph (split 10 body) -> In word (split 32 paragraph) ->
         (widthOfTextAtSize word fontSize < maxWidth)%Z) ->
      forall page line,
        In page (bodyPagesOf (built_pdf built)) -> In line (bodyLinesOf page) ->
        (widthOfTextAtSize line fontSize <= maxWidth)%Z)
  /\ ((forall a b,
         (widthOfTextAtSize a fontSize
          <= widthOfTextAtSize (a ++ [32%N] ++ b) fontSize)%Z
         /\ (widthOfTextAtSize b fontSize
             <= widthOfTextAtSize (a ++ [32%N] ++ b) fontSize)%Z) ->
      forall paragraph word,
        In paragraph (split 10 body) -> JS.eqb (trim paragraph) [] = false ->
        In word (split 32 paragraph) ->
        (widthOfTextAtSize word fontSize > maxWidth)%Z -> word <> [] ->
        exists page,
          In page (bodyPagesOf (built_pdf built)) /\ In word (bodyLinesOf page)).
Proof.
  intros Hbody Htruthy Hbuilt.
  destruct (built_pdf_pages input built Hbuilt) as [Hpdf _].
  rewrite Hpdf, bodyPagesOf_sealedPages.
  pose proof (bodySheets_lines input body Hbody Htruthy) as Hlines.
  split; [reflexivity|]. split.
  - intros Hnarrow page line Hpage Hline.
    assert (Hdrawn : In line (flat_map bodyLinesOf (bodySheets input))).
    { apply in_flat_map. exists page. split; assumption. }
    rewrite Hlines in Hdrawn. apply in_bodyItems in Hdrawn.
    destruct Hdrawn as (paragraph & Hpar & _ & Hin).
    assert (Hfit : Forall fits (paragraphLines paragraph)).
    { apply paragraphLines_fit. apply Forall_forall. intros word Hword.
      unfold fits. specialize (Hnarrow paragraph word Hpar Hword). lia. }
    apply (proj1 (Forall_forall _ _) Hfit line Hin).
  - intros Hmetric paragraph word Hpar Hblank Hword Hwide Hnonempty.
    assert (Hdrawn : In word (flat_map bodyLinesOf (bodySheets input))).
    { rewrite Hlines. apply in_bodyItems. exists paragraph.
      repeat split; [assumption..|].
      now apply paragraphLines_wide. }
    apply in_flat_map in Hdrawn. exact Hdrawn.
Qed.

End WordWrap.

Lemma halfEmWidth_wider_with_more (a b : jsstring) :
  (halfEmWidth a fontSize <= halfEmWidth (a ++ [32%N] ++ b) fontSize)%Z
  /\ (halfEmWidth b fontSize <= halfEmWidth (a ++ [32%N] ++ b) fontSize)%Z.
Proof.
  unfold halfEmWidth, fontSize. rewrite !length_app. cbn [length]. lia.
Qed.

Lemma word_wrap_fits_content_width_witness :
  (exists built,
     @buildSealedPdf plainCollaborators (bodyInput (lit "hello world")) = Fulfilled built
     /\ forall page line,
          In page (bodyPagesOf (built_pdf built)) -> In line (bodyLinesOf page) ->
          (halfEmWidth line fontSize <= maxWidth)%Z)
  /\ (exists built,
        @buildSealedPdf plainCollaborators (bodyInput wideBody) = Fulfilled built
        /\ exists page,
             In page (bodyPagesOf (built_pdf built)) /\ In wideWord (bodyLinesOf page)).
Proof.
  split; eexists; (split; [apply buildSealedPdf_succeeds, plain_succeed, bodyInput_fits|]).
  - apply (@word_wrap_fits_content_width plainCollaborators
             (bodyInput (lit "hello world")) (lit "hello world") _ eq_refl eq_refl
             (@buildSealedPdf_succeeds plainCollaborators _ (plain_succeed _ (bodyInput_fits _)))).
    intros paragraph word Hpar Hword.
    destruct Hpar as [<-|[]]. destruct Hword as [<-|[<-|[]]]; reflexivity.
  - apply (proj2 (proj2 (@word_wrap_fits_content_width plainCollaborators
             (bodyInput wideBody) wideBody _ eq_refl eq_refl
             (@buildSealedPdf_succeeds plainCollaborators _ (plain_succeed _ (bodyInput_fits _)))))
             halfEmWidth_wider_with_more wideBody wideWord).
    + left. reflexivity.
    + reflexivity.
    + right. left. reflexivity.
    + reflexivity.
    + discriminate.
Defined.

(** The lines of [wideBody]: the wide word stands alone between its
    neighbours. *)
Example wideBody_lines :
  @bodyItems plainCollaborators wideBody
  = [TextLine (lit "hi"); TextLine wideWord; TextLine (lit "yo")].
Proof. vm_compute. reflexivity. Qed.

(** A wide first word leaves an empty line above it. *)
Example wide_first_word_lines :
  @bodyItems plainCollaborators (wideWord ++ lit " yo")
  = [TextLine []; TextLine wideWord; TextLine (lit "yo")].
Proof. vm_compute. reflexivity. Qed.

(* ================================================================== *)
(** * Further properties of the caller and of the layout *)
(* ================================================================== *)

(** ** Automatic verification *)

Lemma note_is_not_all_passed (first : N) (joined : jsstring) :
  hd_error joined = Some first ->
  first <> 65%N ->
  orElse joined (lit "All checks passed.") <> lit "All checks passed.".
Proof.
  intros Hhead Hfirst Heq. destruct joined as [|c rest]; [discriminate Hhead|].
  cbn [orElse truthy] in Heq. injection Hhead as ->.
  change (lit "All checks passed.") with (65%N :: lit "ll checks passed.") in Heq.
  injection Heq as Heq _. contradiction.
Qed.

Ltac not_all_passed H :=
  exfalso; revert H; eapply note_is_not_all_passed;
  [vm_compute; reflexivity | discriminate].

(** X2. Automatic verification counts three votes to start with and one
    more for each of the two audits that passed, out of five voters: when
    both calls return, the count is three plus the number of audits whose
    result starts with "APK Audit Passed"; a rejected call leaves the count
    at three even when the other audit passed. The consensus text is never
    "Consensus Pending": it is "Triple Verification Consensus" exactly when
    the count is three, "Quadruple Verification Consensus" exactly when it
    is four and "Full Ecosystem Consensus" exactly when it is five, and the
    notes are "All checks passed." exactly when the count is five. *)
Theorem verification_consensus (consumer enterprise : Promise jsstring) :
  (forall consumerResult enterpriseResult,
     consumer = Fulfilled consumerResult ->
     enterprise = Fulfilled enterpriseResult ->
     verifiedCount (performAutomaticVerification consumer enterprise)
     = 3 + Nat.b2n (auditPassed consumer) + Nat.b2n (auditPassed enterprise))
  /\ (consensusText (performAutomaticVerification consumer enterprise)
      = lit "Quadruple Verification Consensus"
      <-> verifiedCount (performAutomaticVerification consumer enterprise) = 4)
  /\ (consensusText (performAutomaticVerification consumer enterprise)
      = lit "Triple Verification Consensus"
      <-> verifiedCount (performAutomaticVerification consumer enterprise) = 3)
  /\ totalVoters (performAutomaticVerification consumer enterprise) = 5
  /\ 3 <= verifiedCount (performAutomaticVerification consumer enterprise) <= 5
  /\ consensusText (performAutomaticVerification consumer enterprise)
     <> lit "Consensus Pending"
  /\ (verifiedCount (performAutomaticVerification consumer enterprise) = 5
      <-> auditPassed consumer = true /\ auditPassed enterprise = true)
  /\ (consensusText (performAutomaticVerification consumer enterprise)
      = lit "Full Ecosystem Consensus"
      <-> verifiedCount (performAutomaticVerification consumer enterprise) = 5)
  /\ (notes (performAutomaticVerification consumer enterprise)
      = lit "All checks passed."
      <-> verifiedCount (performAutomaticVerification consumer enterprise) = 5)
  /\ (forall e,
        consumer = Rejected e \/ enterprise = Rejected e ->
        verifiedCount (performAutomaticVerification consumer enterprise) = 3
        /\ notes (performAutomaticVerification consumer enterprise)
           = lit "On-device verification encountered an unexpected error.").
Proof.
  unfold performAutomaticVerification, auditPassed.
  destruct consumer as [consumerResult|e1], enterprise as [enterpriseResult|e2];
    cbn [Promise_all2];
    try destruct (startsWith (lit "APK Audit Passed") consumerResult);
    try destruct (startsWith (lit "APK Audit Passed") enterpriseResult);
    cbn [verifiedCount totalVoters consensusText notes Nat.leb Nat.eqb app joinWith];
    (split; [intros a b Ha Hb; first [discriminate Ha | discriminate Hb | reflexivity]|]);
    (split; [split; [intros H;
                     first [reflexivity | vm_compute in H; discriminate H]
                    | intros H; first [discriminate H | reflexivity]]|]);
    (split; [split; [intros H;
                     first [reflexivity | vm_compute in H; discriminate H]
                    | intros H; first [discriminate H | reflexivity]]|]);
    (split; [reflexivity|]); (split; [lia|]);
    (split; [vm_compute; discriminate|]);
    (split; [split; [intros H; first [discriminate H | split; reflexivity]
                    | intros [H1 H2];
                      first [discriminate H1 | discriminate H2 | reflexivity]]|]);
    (split; [split; [intros H;
                     first [reflexivity | vm_compute in H; discriminate H]
                    | intros H; first [discriminate H | reflexivity]]|]);
    (split; [split; [intros H; first [reflexivity | not_all_passed H]
                    | intros H; first [discriminate H | reflexivity]]|]);
    intros e [H|H]; first [discriminate H | split; reflexivity].
Qed.

(** ** Finding and replacing the message *)

Lemma eqb_eq (a b : jsstring) : JS.eqb a b = true <-> a = b.
Proof.
  unfold JS.eqb. destruct (list_eq_dec N.eq_dec a b); split; intros H;
    try reflexivity; try assumption; try discriminate H; contradiction.
Qed.

Lemma findIndex_None (messageId : jsstring) (messages : list ChatMessage) :
  findIndex messageId messages = None
  <-> forall m, In m messages -> id m <> messageId.
Proof.
  induction messages as [|m rest IH]; cbn [findIndex].
  - split; [intros _ m [] | reflexivity].
  - destruct (JS.eqb (id m) messageId) eqn:Heq.
    + apply eqb_eq in Heq. split; [discriminate|].
      intros Hnone. contradiction (Hnone m (or_introl eq_refl)).
    + assert (Hne : id m <> messageId).
      { intros Hid. apply eqb_eq in Hid. rewrite Hid in Heq. discriminate Heq. }
      destruct (findIndex messageId rest) as [k|]; cbn [option_map].
      * split; [discriminate|]. intros Hnone.
        assert (Hrest : None = Some k); [|discriminate Hrest].
        symmetry. apply IH. intros m' Hin. apply Hnone. now right.
      * split; [|reflexivity]. intros _ m' [<-|Hin]; [exact Hne|].
        now apply (proj1 IH eq_refl).
Qed.

(** The index found is that of the first message with the identifier. *)
Lemma findIndex_Some (messageId : jsstring) (messages : list ChatMessage) :
  forall index,
    findIndex messageId messages = Some index ->
    (exists message,
       nth_error messages index = Some message /\ id message = messageId)
    /\ (forall earlier message,
          earlier < index -> nth_error messages earlier = Some message ->
          id message <> messageId).
Proof.
  induction messages as [|m rest IH]; intros index; cbn [findIndex]; [discriminate|].
  destruct (JS.eqb (id m) messageId) eqn:Heq.
  - intros Hfound. injection Hfound as <-. split.
    + exists m. split; [reflexivity | now apply eqb_eq].
    + intros earlier message Hlt. lia.
  - destruct (findIndex messageId rest) as [k|]; cbn [option_map]; [|discriminate].
    intros Hfound. injection Hfound as <-.
    destruct (IH k eq_refl) as [Hat Hbefore]. split; [exact Hat|].
    intros [|earlier] message Hlt Hnth.
    + cbn in Hnth. injection Hnth as <-. intros Hid. apply eqb_eq in Hid.
      rewrite Hid in Heq. discriminate Heq.
    + apply (Hbefore earlier message); [lia | exact Hnth].
Qed.

Lemma assign_length (messages : list ChatMessage) (index : nat) (m : ChatMessage) :
  length (assign messages index m) = length messages.
Proof.
  revert index. induction messages as [|m0 rest IH]; intros [|k]; cbn; try reflexivity.
  now rewrite IH.
Qed.

Lemma assign_nth_error (messages : list ChatMessage) (m : ChatMessage) :
  forall index position,
    index < length messages ->
    nth_error (assign messages index m) position
    = if position =? index then Some m else nth_error messages position.
Proof.
  induction messages as [|m0 rest IH]; intros index position Hlt; [cbn in Hlt; lia|].
  destruct index as [|k], position as [|p]; cbn [assign nth_error Nat.eqb]; try reflexivity.
  apply IH. cbn in Hlt. lia.
Qed.

Section FindAndReplace.

Context {C : Collaborators} {V : Services}.

(** X3. [performSealingProcess] hands back [null] exactly when no message
    carries the identifier; it then calls neither the builder nor Firebase,
    so that it does so whatever they would do. *)
Theorem sealing_unknown_message (messages : list ChatMessage)
  (uploadedFiles : list UploadedFile) (messageId : jsstring) :
  performSealingProcess messages uploadedFiles messageId = Fulfilled None
  <-> forall m, In m messages -> id m <> messageId.
Proof.
  rewrite <- findIndex_None. split.
  - intros Hnull. destruct (findIndex messageId messages) as [index|] eqn:Hfind;
      [|reflexivity].
    destruct (findIndex_Some messageId messages index Hfind) as [(message & Hnth & _) _].
    rewrite (performSealingProcess_found messages uploadedFiles messageId
               index message Hfind Hnth) in Hnull.
    destruct (makeSealedPdf (sealRequest message uploadedFiles));
      cbn [await] in Hnull; discriminate Hnull.
  - intros Hnone. unfold performSealingProcess. now rewrite Hnone.
Qed.

(** X4. The messages given to [setMessages] are the old ones with the
    content of one message replaced: the first message that carries the
    identifier. Their number, their identifiers and every other message
    are as before. *)
Theorem sealing_updates_one_message (messages : list ChatMessage)
  (uploadedFiles : list UploadedFile) (messageId : jsstring)
  (result : SealResult) (updatedMessages : list ChatMessage) :
  performSealingProcess messages uploadedFiles messageId
  = Fulfilled (Some (result, updatedMessages)) ->
  length updatedMessages = length messages
  /\ map id updatedMessages = map id messages
  /\ exists index,
       nth_error updatedMessages index
       = Some {| id := messageId; content := updatedContent result |}
       /\ (forall earlier message,
             earlier < index -> nth_error messages earlier = Some message ->
             id message <> messageId)
       /\ (forall position,
             position <> index ->
             nth_error updatedMessages position = nth_error messages position).
Proof.
  intros Hdone.
  destruct (findIndex messageId messages) as [index|] eqn:Hfind;
    [|unfold performSealingProcess in Hdone; rewrite Hfind in Hdone; discriminate Hdone].
  destruct (findIndex_Some messageId messages index Hfind)
    as [(message & Hnth & Hid) Hfirst].
  rewrite (performSealingProcess_found messages uploadedFiles messageId
             index message Hfind Hnth) in Hdone.
  destruct (makeSealedPdf (sealRequest message uploadedFiles)) as [bytes|e];
    cbn [await] in Hdone; [|discriminate Hdone].
  injection Hdone as <- <-. cbn [updatedContent].
  assert (Hlt : index < length messages).
  { apply nth_error_Some. rewrite Hnth. discriminate. }
  split; [apply assign_length|]. split.
  - apply nth_error_ext. intros position.
    rewrite !nth_error_map, (assign_nth_error _ _ index position Hlt).
    destruct (Nat.eqb_spec position index) as [->|_]; [|reflexivity].
    now rewrite Hnth.
  - exists index. rewrite Hid. split; [|split].
    + rewrite (assign_nth_error _ _ index index Hlt), Nat.eqb_refl. reflexivity.
    + exact Hfirst.
    + intros position Hne. rewrite (assign_nth_error _ _ index position Hlt).
      destruct (Nat.eqb_spec position index); [contradiction | reflexivity].
Qed.

End FindAndReplace.

(** ** Sealing and the cloud *)

Section Cloud.

Context {C : Collaborators} {V : Services}.

(** Once the builder has returned, the sealing process returns too. *)
Lemma performSealingProcess_fulfilled (messages : list ChatMessage)
  (uploadedFiles : list UploadedFile) (messageId : jsstring)
  (index : nat) (message : ChatMessage) (bytes : list byte) :
  findIndex messageId messages = Some index ->
  nth_error messages index = Some message ->
  makeSealedPdf (sealRequest message uploadedFiles) = Fulfilled bytes ->
  exists result updatedMessages,
    performSealingProcess messages uploadedFiles messageId
    = Fulfilled (Some (result, updatedMessages))
    /\ pdfBytes result = bytes
    /\ hash result = stringToHash bytes
    /\ fileName result
       = lit "VO_Sealed_Report_" ++ replaceColonDot now_toISOString ++ lit ".pdf"
    /\ cloudAnchor result
       = tryAnchorToCloud (fileName result) (hash result) bytes uploadedFiles
    /\ updatedContent result
       = replaceAll firestorePlaceholder (orNA (firestoreIdOf (cloudAnchor result)))
           (replaceAll cloudAnchorPlaceholder (orNA (storagePathOf (cloudAnchor result)))
              (replaceAll hashPlaceholder (stringToHash bytes) (content message))).
Proof.
  intros Hfind Hnth Hpdf.
  rewrite (performSealingProcess_found messages uploadedFiles messageId
             index message Hfind Hnth), Hpdf.
  cbn [await]. eexists _, _. split; [reflexivity|].
  cbn [pdfBytes hash fileName cloudAnchor updatedContent]. repeat split.
Qed.

(** What the builder returns is the serialization of the pages. *)
Lemma makeSealedPdf_bytes (input : SealInput) (bytes : list byte) :
  makeSealedPdf input = Fulfilled bytes ->
  bytes = serialize (sealedPages input).
Proof.
  rewrite makeSealedPdf_outcome. unfold settle.
  destruct (firstFailure input); intros Hbytes; [discriminate Hbytes|].
  now injection Hbytes as <-.
Qed.

(** What the builder returns is what [pdf.save()] writes of the document
    it built. *)
Lemma makeSealedPdf_built (input : SealInput) (bytes : list byte) :
  makeSealedPdf input = Fulfilled bytes ->
  exists built,
    buildSealedPdf input = Fulfilled built /\ bytes = serialize (built_pdf built).
Proof.
  unfold makeSealedPdf. destruct (buildSealedPdf input) as [built|e];
    cbn [await]; intros Hbytes; [|discriminate Hbytes].
  exists built. split; [reflexivity|]. unfold save, settle in Hbytes.
  destruct (save_failure _); [discriminate Hbytes|]. now injection Hbytes as <-.
Qed.

(** A result comes with the bytes that the builder returned. *)
Lemma performSealingProcess_returned (messages : list ChatMessage)
  (uploadedFiles : list UploadedFile) (messageId : jsstring)
  (index : nat) (message : ChatMessage)
  (result : SealResult) (updatedMessages : list ChatMessage) :
  findIndex messageId messages = Some index ->
  nth_error messages index = Some message ->
  performSealingProcess messages uploadedFiles messageId
  = Fulfilled (Some (result, updatedMessages)) ->
  makeSealedPdf (sealRequest message uploadedFiles) = Fulfilled (pdfBytes result).
Proof.
  intros Hfind Hnth Hdone.
  rewrite (performSealingProcess_found messages uploadedFiles messageId
             index message Hfind Hnth) in Hdone.
  destruct (makeSealedPdf (sealRequest message uploadedFiles)) as [bytes|e];
    cbn [await] in Hdone; [|discriminate Hdone].
  injection Hdone as <- _. reflexivity.
Qed.

(** X5. A failure of the cloud anchoring does not fail the sealing: when
    the builder has returned its bytes, [performSealingProcess] returns
    them with their hash, whatever Firebase does. When the anchoring fails
    with an error, the anchor records this error and both cloud
    placeholders of the content become "N/A"; without a signed-in user the
    error is the authentication failure, and nothing is uploaded. *)
Theorem sealing_survives_cloud_failure (messages : list ChatMessage)
  (uploadedFiles : list UploadedFile) (messageId : jsstring)
  (index : nat) (message : ChatMessage) (bytes : list byte) :
  findIndex messageId messages = Some index ->
  nth_error messages index = Some message ->
  makeSealedPdf (sealRequest message uploadedFiles) = Fulfilled bytes ->
  exists result updatedMessages,
    performSealingProcess messages uploadedFiles messageId
    = Fulfilled (Some (result, updatedMessages))
    /\ pdfBytes result = bytes
    /\ hash result = stringToHash bytes
    /\ (forall e,
          anchorToCloud (fileName result) (hash result) bytes uploadedFiles
          = Rejected e ->
          cloudAnchor result = AnchorFailed e
          /\ updatedContent result
             = replaceAll firestorePlaceholder (lit "N/A")
                 (replaceAll cloudAnchorPlaceholder (lit "N/A")
                    (replaceAll hashPlaceholder (stringToHash bytes)
                       (content message))))
    /\ (getCurrentUser = Fulfilled None ->
        cloudAnchor result
        = AnchorFailed (lit "Authentication failed. Cannot seal report to the cloud.")).
Proof.
  intros Hfind Hnth Hpdf.
  destruct (performSealingProcess_fulfilled messages uploadedFiles messageId
              index message bytes Hfind Hnth Hpdf)
    as (result & updatedMessages & Hdone & Hbytes & Hhash & _ & Hanchor & Hcontent).
  exists result, updatedMessages.
  split; [exact Hdone|]. split; [exact Hbytes|]. split; [exact Hhash|]. split.
  - intros e Hrejected.
    assert (Hfailed : cloudAnchor result = AnchorFailed e).
    { rewrite Hanchor. unfold tryAnchorToCloud. now rewrite Hrejected. }
    split; [exact Hfailed|]. rewrite Hcontent, Hfailed. reflexivity.
  - intros Hnobody. rewrite Hanchor. unfold tryAnchorToCloud, anchorToCloud.
    rewrite Hnobody. reflexivity.
Qed.

(** X6. The evidence of the request lists the uploaded files that have a
    hash, in their order: read as files, its entries are the list of the
    uploaded files with the files without a hash left out. So it is never
    longer than the list of files and each of its digests is non-empty;
    the footer of the sealed pages is the bare label exactly when no
    uploaded file has a hash. *)
Theorem sealed_evidence_is_hashed_files (message : ChatMessage)
  (uploadedFiles : list UploadedFile) :
  length (evidence (sealRequest message uploadedFiles)) <= length uploadedFiles
  /\ (forall ev,
        In ev (evidence (sealRequest message uploadedFiles)) ->
        sha512 ev <> []
        /\ In {| file_name := name ev; file_sha512 := Some (sha512 ev) |} uploadedFiles)
  /\ (forall f h,
        In f uploadedFiles -> file_sha512 f = Some h -> h <> [] ->
        In {| name := file_name f; sha512 := h |}
           (evidence (sealRequest message uploadedFiles)))
  /\ (footerOf (sealRequest message uploadedFiles) = footerText
      <-> forall f, In f uploadedFiles ->
            file_sha512 f = None \/ file_sha512 f = Some [])
  /\ map (fun ev => {| file_name := name ev; file_sha512 := Some (sha512 ev) |})
       (evidence (sealRequest message uploadedFiles))
     = filter
         (fun f => match file_sha512 f with Some h => truthy h | None => false end)
         uploadedFiles.
Proof.
  assert (Horder :
            map (fun ev => {| file_name := name ev; file_sha512 := Some (sha512 ev) |})
              (evidence (sealRequest message uploadedFiles))
            = filter
                (fun f => match file_sha512 f with Some h => truthy h | None => false end)
                uploadedFiles).
  { cbn [sealRequest evidence].
    induction uploadedFiles as [|f rest IH]; [reflexivity|].
    cbn [flat_map filter]. rewrite map_app, IH.
    destruct f as [fname [h|]]; cbn [file_sha512 file_name]; [|reflexivity].
    destruct (truthy h); reflexivity. }
  cut (length (evidence (sealRequest message uploadedFiles)) <= length uploadedFiles
       /\ (forall ev,
             In ev (evidence (sealRequest message uploadedFiles)) ->
             sha512 ev <> []
             /\ In {| file_name := name ev; file_sha512 := Some (sha512 ev) |}
                  uploadedFiles)
       /\ (forall f h,
             In f uploadedFiles -> file_sha512 f = Some h -> h <> [] ->
             In {| name := file_name f; sha512 := h |}
                (evidence (sealRequest message uploadedFiles)))
       /\ (footerOf (sealRequest message uploadedFiles) = footerText
           <-> forall f, In f uploadedFiles ->
                 file_sha512 f = None \/ file_sha512 f = Some [])).
  { intros (Hlength & Hfrom & Hall & Hfooter).
    split; [exact Hlength|]. split; [exact Hfrom|]. split; [exact Hall|].
    split; [exact Hfooter | exact Horder]. }
  clear Horder.
  cbn [sealRequest evidence].
  set (hashed := fun f : UploadedFile =>
         match file_sha512 f with
         | Some h => if truthy h then [{| name := file_name f; sha512 := h |}] else []
         | None => []
         end).
  assert (Hin : forall ev, In ev (flat_map hashed uploadedFiles) ->
            sha512 ev <> []
            /\ In {| file_name := name ev; file_sha512 := Some (sha512 ev) |} uploadedFiles).
  { intros ev Hev. apply in_flat_map in Hev. destruct Hev as (f & Hf & Hev).
    unfold hashed in Hev. destruct f as [fname [h|]]; cbn in Hev; [|destruct Hev].
    destruct h as [|c h]; cbn in Hev; [destruct Hev|].
    destruct Hev as [<-|[]]. cbn [sha512 name]. split; [discriminate | exact Hf]. }
  assert (Hout : forall f h, In f uploadedFiles -> file_sha512 f = Some h -> h <> [] ->
            In {| name := file_name f; sha512 := h |} (flat_map hashed uploadedFiles)).
  { intros f h Hf Hsome Hne. apply in_flat_map. exists f. split; [exact Hf|].
    unfold hashed. rewrite Hsome. destruct h; [contradiction|]. now left. }
  split; [|split; [exact Hin | split; [exact Hout|]]].
  - clear Hin Hout. induction uploadedFiles as [|f rest IH]; [apply Nat.le_refl|].
    cbn [flat_map length]. rewrite length_app.
    assert (length (hashed f) <= 1).
    { unfold hashed. destruct (file_sha512 f) as [h|]; [destruct (truthy h)|]; cbn; lia. }
    lia.
  - unfold footerOf, partialHashOf, primaryHashOf. cbn [sealRequest evidence].
    fold hashed. split.
    + intros Hbare f Hf.
      destruct (file_sha512 f) as [[|c h]|] eqn:Hsome; [now right | | now left].
      exfalso.
      pose proof (Hout f (c :: h) Hf Hsome ltac:(discriminate)) as Hev.
      destruct (flat_map hashed uploadedFiles) as [|ev evs] eqn:Hlist; [destruct Hev|].
      destruct (Hin ev (or_introl eq_refl)) as [Hne _].
      destruct (sha512 ev) as [|c0 digest]; [contradiction|].
      cbn [truthy hashText substring skipn Nat.sub firstn] in Hbare.
      apply (f_equal (@length N)) in Hbare.
      rewrite !length_app in Hbare. cbn [length] in Hbare. lia.
    + intros Hnone.
      assert (Hempty : flat_map hashed uploadedFiles = []).
      { destruct (flat_map hashed uploadedFiles) as [|ev evs] eqn:Hlist; [reflexivity|].
        destruct (Hin ev (or_introl eq_refl)) as [Hne Hfile].
        destruct (Hnone _ Hfile) as [Habs|Habs]; cbn in Habs;
          [discriminate Habs | injection Habs as Habs; contradiction]. }
      rewrite Hempty. cbn [hashText]. apply app_nil_r.
Qed.

End Cloud.

Lemma plain_makeSealedPdf (input : SealInput) :
  payloadFits (JSON_stringify (encodedPayload input)) = true ->
  @makeSealedPdf plainCollaborators input
  = Fulfilled (textBytes (@sealedPages plainCollaborators input)).
Proof.
  intros Hfits. unfold makeSealedPdf.
  rewrite (@buildSealedPdf_succeeds plainCollaborators input (plain_succeed input Hfits)).
  reflexivity.
Qed.

Lemma sealing_updates_one_message_witness :
  exists result updatedMessages,
    @performSealingProcess plainCollaborators plainServices twoMessages twoFiles
      (lit "m1")
    = Fulfilled (Some (result, updatedMessages))
    /\ length updatedMessages = 2
    /\ map id updatedMessages = [lit "m0"; lit "m1"]
    /\ nth_error updatedMessages 0 = nth_error twoMessages 0.
Proof.
  destruct (@performSealingProcess_fulfilled plainCollaborators plainServices
              twoMessages twoFiles (lit "m1") 1 _ _ eq_refl eq_refl
              (plain_makeSealedPdf _ (plainRequest_fits _)))
    as (result & updatedMessages & Hdone & _).
  exists result, updatedMessages. split; [exact Hdone|].
  destruct (@sealing_updates_one_message plainCollaborators plainServices
              twoMessages twoFiles (lit "m1") result updatedMessages Hdone)
    as (Hlength & Hids & index & Hat & _ & Hothers).
  split; [exact Hlength|]. split; [exact Hids|].
  apply Hothers. intros <-.
  apply (f_equal (option_map id)) in Hat.
  rewrite <- nth_error_map, Hids in Hat. vm_compute in Hat. discriminate Hat.
Defined.

Lemma sealing_survives_cloud_failure_witness :
  exists result updatedMessages,
    @performSealingProcess plainCollaborators signedOutServices twoMessages twoFiles
      (lit "m1")
    = Fulfilled (Some (result, updatedMessages))
    /\ hash result = stringToHash (pdfBytes result)
    /\ cloudAnchor result
       = AnchorFailed (lit "Authentication failed. Cannot seal report to the cloud.")
    /\ updatedContent result
       = lit "Hash: " ++ stringToHash (pdfBytes result) ++ lit ", anchor: N/A".
Proof.
  destruct (@sealing_survives_cloud_failure plainCollaborators signedOutServices
              twoMessages twoFiles (lit "m1") 1 _ _ eq_refl eq_refl
              (plain_makeSealedPdf _ (signedOutRequest_fits _)))
    as (result & updatedMessages & Hdone & Hbytes & Hhash & Hfailed & Hsignedout).
  exists result, updatedMessages. split; [exact Hdone|].
  split; [now rewrite Hbytes|]. split; [exact (Hsignedout eq_refl)|].
  destruct (Hfailed (lit "Authentication failed. Cannot seal report to the cloud.")
              eq_refl) as [_ Hcontent].
  rewrite Hcontent, Hbytes. vm_compute. reflexivity.
Defined.

(** ** Manifests and file names *)

Section Manifest.

Context {C : Collaborators} {V : Services}.

(** X7. A message that does not contain "## Key Findings" is sealed as a
    manifest: whatever the message says, its text is not handed to the
    builder, and the bytes that are handed back are those of a document of
    two pages, the summary page under the title "Sealed Document Manifest"
    and the sealing page. *)
Theorem sealing_a_manifest (messages : list ChatMessage)
  (uploadedFiles : list UploadedFile) (messageId : jsstring)
  (index : nat) (message : ChatMessage)
  (result : SealResult) (updatedMessages : list ChatMessage) :
  findIndex messageId messages = Some index ->
  nth_error messages index = Some message ->
  includes (lit "## Key Findings") (content message) = false ->
  performSealingProcess messages uploadedFiles messageId
  = Fulfilled (Some (result, updatedMessages)) ->
  title (sealRequest message uploadedFiles) = lit "Sealed Document Manifest"
  /\ messagesHtml (sealRequest message uploadedFiles) = Some []
  /\ pdfBytes result
     = serialize [summaryPage (sealRequest message uploadedFiles);
                  sealingPage (sealRequest message uploadedFiles) 2].
Proof.
  intros Hfind Hnth Hmanifest Hdone.
  assert (Htitle : title (sealRequest message uploadedFiles)
                   = lit "Sealed Document Manifest").
  { cbn [sealRequest title]. now rewrite Hmanifest. }
  assert (Hbody : messagesHtml (sealRequest message uploadedFiles) = Some []).
  { cbn [sealRequest messagesHtml]. now rewrite Hmanifest. }
  assert (Hpages : sealedPages (sealRequest message uploadedFiles)
                   = [summaryPage (sealRequest message uploadedFiles);
                      sealingPage (sealRequest message uploadedFiles) 2]).
  { unfold sealedPages.
    now rewrite (bodySheets_absent (sealRequest message uploadedFiles) (or_intror Hbody)). }
  split; [exact Htitle|]. split; [exact Hbody|].
  rewrite <- Hpages. apply makeSealedPdf_bytes.
  exact (performSealingProcess_returned messages uploadedFiles messageId index message
           result updatedMessages Hfind Hnth Hdone).
Qed.

Lemma Forall2_function {A B : Type} (f : A -> B) (l : list A) (l' : list B) :
  Forall2 (fun a b => b = f a) l l' -> l' = map f l.
Proof.
  induction 1 as [|a b l l' Hb _ IH]; [reflexivity|]. cbn [map]. now rewrite Hb, IH.
Qed.

Lemma replaceColonDot_clean (s : jsstring) :
  ~ In 58%N (replaceColonDot s) /\ ~ In 46%N (replaceColonDot s)
  /\ length (replaceColonDot s) = length s.
Proof.
  unfold replaceColonDot. rewrite length_map.
  split; [|split; [|reflexivity]]; intros Hin; apply in_map_iff in Hin;
    destruct Hin as (c & Hc & _);
    destruct ((c =? 58) || (c =? 46))%N eqn:Hturned;
    [discriminate Hc | subst c; discriminate Hturned
    |discriminate Hc | subst c; discriminate Hturned].
Qed.

(** X8. The name of the sealed file is "VO_Sealed_Report_", the time stamp
    with each colon and each dot turned into a hyphen (code unit 45) and
    every other character kept, and ".pdf": it holds no colon and no dot
    but the one of its extension, and is as long as the time stamp and 21
    characters more. *)
Theorem sealed_file_name (messages : list ChatMessage)
  (uploadedFiles : list UploadedFile) (messageId : jsstring)
  (result : SealResult) (updatedMessages : list ChatMessage) :
  performSealingProcess messages uploadedFiles messageId
  = Fulfilled (Some (result, updatedMessages)) ->
  (exists stamp,
     fileName result = lit "VO_Sealed_Report_" ++ stamp ++ lit ".pdf"
     /\ Forall2
          (fun original turned =>
             turned = if ((original =? 58) || (original =? 46))%N then 45%N
                      else original)
          now_toISOString stamp
     /\ length stamp = length now_toISOString
     /\ ~ In 58%N stamp /\ ~ In 46%N stamp)
  /\ ~ In 58%N (fileName result)
  /\ count_occ N.eq_dec (fileName result) 46%N = 1
  /\ length (fileName result) = length now_toISOString + 21.
Proof.
  intros Hdone.
  destruct (findIndex messageId messages) as [index|] eqn:Hfind;
    [|unfold performSealingProcess in Hdone; rewrite Hfind in Hdone; discriminate Hdone].
  destruct (findIndex_Some messageId messages index Hfind) as [(message & Hnth & _) _].
  destruct (makeSealedPdf (sealRequest message uploadedFiles)) as [bytes|e] eqn:Hpdf;
    [|rewrite (performSealingProcess_found messages uploadedFiles messageId
                 index message Hfind Hnth), Hpdf in Hdone; discriminate Hdone].
  destruct (performSealingProcess_fulfilled messages uploadedFiles messageId
              index message bytes Hfind Hnth Hpdf)
    as (result' & updated' & Hdone' & _ & _ & Hname & _).
  assert (Hsame : result' = result) by congruence. subst result'.
  rewrite Hname. clear Hname Hdone Hdone'.
  destruct (replaceColonDot_clean now_toISOString) as (Hcolon & Hdot & Hlength).
  split; [|split; [|split]].
  - exists (replaceColonDot now_toISOString).
    split; [reflexivity|]. split; [|repeat split; assumption].
    unfold replaceColonDot. clear. induction now_toISOString as [|c stamp IH];
      cbn [map]; constructor; [reflexivity | exact IH].
  - intros Hin. apply in_app_or in Hin. destruct Hin as [Hin|Hin].
    + vm_compute in Hin. intuition discriminate.
    + apply in_app_or in Hin. destruct Hin as [Hin|Hin]; [contradiction|].
      vm_compute in Hin. intuition discriminate.
  - rewrite !count_occ_app.
    rewrite (proj1 (count_occ_not_In N.eq_dec _ _) Hdot). reflexivity.
  - rewrite !length_app, Hlength.
    change (length (lit "VO_Sealed_Report_")) with 17.
    change (length (lit ".pdf")) with 4. lia.
Qed.

End Manifest.

Lemma sealing_a_manifest_witness :
  exists result updatedMessages,
    @performSealingProcess plainCollaborators plainServices twoMessages twoFiles
      (lit "m1")
    = Fulfilled (Some (result, updatedMessages))
    /\ pdfBytes result
       = textBytes
           [summaryPage (@sealRequest plainServices
                           (nth 1 twoMessages {| id := []; content := [] |}) twoFiles);
            sealingPage (@sealRequest plainServices
                           (nth 1 twoMessages {| id := []; content := [] |}) twoFiles) 2].
Proof.
  destruct (@performSealingProcess_fulfilled plainCollaborators plainServices
              twoMessages twoFiles (lit "m1") 1 _ _ eq_refl eq_refl
              (plain_makeSealedPdf _ (plainRequest_fits _)))
    as (result & updatedMessages & Hdone & _).
  exists result, updatedMessages. split; [exact Hdone|].
  exact (proj2 (proj2 (@sealing_a_manifest plainCollaborators plainServices
                         twoMessages twoFiles (lit "m1") 1
                         (nth 1 twoMessages {| id := []; content := [] |})
                         result updatedMessages eq_refl eq_refl eq_refl Hdone))).
Defined.

Lemma sealed_file_name_witness :
  exists result updatedMessages,
    @performSealingProcess plainCollaborators plainServices twoMessages twoFiles
      (lit "m1")
    = Fulfilled (Some (result, updatedMessages))
    /\ fileName result = lit "VO_Sealed_Report_2024-01-01T00-00-00-000Z.pdf"
    /\ ~ In 58%N (fileName result)
    /\ count_occ N.eq_dec (fileName result) 46%N = 1
    /\ length (fileName result) = 45.
Proof.
  destruct (@performSealingProcess_fulfilled plainCollaborators plainServices
              twoMessages twoFiles (lit "m1") 1 _ _ eq_refl eq_refl
              (plain_makeSealedPdf _ (plainRequest_fits _)))
    as (result & updatedMessages & Hdone & _).
  exists result, updatedMessages. split; [exact Hdone|].
  destruct (@sealed_file_name plainCollaborators plainServices twoMessages twoFiles
              (lit "m1") result updatedMessages Hdone)
    as ((stamp & Hname & Hturned & _) & Hcolon & Hdot & Hlength).
  split; [|split; [exact Hcolon|]; split; [exact Hdot | exact Hlength]].
  rewrite Hname, (Forall2_function _ _ _ Hturned). vm_compute. reflexivity.
Defined.

(** ** Where the evidence lines are drawn *)

Lemma textHeights_app (size : Z) (p q : PDFPage) :
  textHeights size (p ++ q) = textHeights size p ++ textHeights size q.
Proof. unfold textHeights. apply flat_map_app. Qed.

Lemma evidenceOps_heights (evs : list Evidence) :
  forall y : Z,
    Forall (fun h => pt 100 <= h <= y)%Z (textHeights 10 (evidenceOps y evs))
    /\ Forall (fun h => pt 88 <= h <= y - pt 12)%Z (textHeights 9 (evidenceOps y evs)).
Proof.
  induction evs as [|ev rest IH]; intros y; cbn [evidenceOps].
  - split; constructor.
  - destruct (y <? pt 100)%Z eqn:Hy; [apply IH|].
    apply Z.ltb_ge in Hy. destruct (IH (y - pt 12 - pt 14)%Z) as [Hnames Hdigests].
    rewrite !textHeights_app. split; apply Forall_app; split.
    + cbn [entryOps textHeights flat_map Z.eqb Pos.eqb app].
      constructor; [unfold pt in *; lia | constructor].
    + eapply Forall_impl; [|exact Hnames]. cbn beta. unfold pt in *. lia.
    + cbn [entryOps textHeights flat_map Z.eqb Pos.eqb app].
      constructor; [unfold pt in *; lia | constructor].
    + eapply Forall_impl; [|exact Hdigests]. cbn beta. unfold pt in *. lia.
Qed.

Lemma entriesFrom_heights (size : Z) (evs : list Evidence) :
  size = 10%Z \/ size = 9%Z ->
  forall y : Z, length (textHeights size (entriesFrom y evs)) = length evs.
Proof.
  intros Hsize. induction evs as [|ev rest IH]; intros y; [reflexivity|].
  cbn [entriesFrom]. rewrite textHeights_app, length_app, IH.
  destruct Hsize as [-> | ->]; reflexivity.
Qed.

Section EvidenceLines.

Context {C : Collaborators}.

(** X9. On the summary page the name lines of the evidence entries, in
    size 10, stand between 100 points and the start of the list, and the
    digest lines, in size 9, 12 points lower, down to 88 points at the
    lowest: above the footer at 40 points, though the last digest line
    may lie below the threshold of 100 points that the list is checked
    against. There are as many name lines as digest lines, one for each
    of the first 22 entries. *)
Theorem evidence_lines_clear_of_footer (input : SealInput) (built : Built)
  (page : PDFPage) :
  buildSealedPdf input = Fulfilled built ->
  hd_error (built_pdf built) = Some page ->
  Forall (fun h => pt 100 <= h <= height - pt 185)%Z (textHeights 10 page)
  /\ Forall (fun h => pt 88 <= h <= height - pt 197)%Z (textHeights 9 page)
  /\ length (textHeights 10 page) = Nat.min (length (evidence input)) 22
  /\ length (textHeights 9 page) = Nat.min (length (evidence input)) 22.
Proof.
  intros Hbuilt Hpage. destruct (built_pdf_pages input built Hbuilt) as [Hpdf _].
  rewrite Hpdf in Hpage. cbn [sealedPages hd_error] in Hpage. injection Hpage as <-.
  unfold summaryPage. rewrite !textHeights_app.
  change (textHeights 10 (summaryHead input)) with (@nil Z).
  change (textHeights 9 (summaryHead input)) with (@nil Z). cbn [app].
  destruct (evidenceOps_heights (evidence input) (height - pt 185)%Z)
    as [Hnames Hdigests].
  split; [exact Hnames|]. split.
  - eapply Forall_impl; [|exact Hdigests]. cbn beta. unfold pt. lia.
  - rewrite evidenceOps_firstn, !entriesFrom_heights, length_firstn by auto.
    change (entriesThatFit (height - pt 185)) with 22. lia.
Qed.

End EvidenceLines.

Lemma evidence_lines_clear_of_footer_witness :
  exists built page,
    @buildSealedPdf plainCollaborators thirtyShort = Fulfilled built
    /\ hd_error (built_pdf built) = Some page
    /\ Forall (fun h => pt 88 <= h <= height - pt 197)%Z (textHeights 9 page)
    /\ length (textHeights 9 page) = 22
    /\ In 9889%Z (textHeights 9 page).
Proof.
  eexists _, _. split; [apply buildSealedPdf_succeeds, plain_succeed, thirtyShort_fits|].
  split; [reflexivity|].
  destruct (@evidence_lines_clear_of_footer plainCollaborators thirtyShort _ _
              (@buildSealedPdf_succeeds plainCollaborators thirtyShort
                 (plain_succeed thirtyShort thirtyShort_fits)) eq_refl)
    as (_ & Hdigests & _ & Hcount).
  split; [exact Hdigests|]. split; [exact Hcount|].
  vm_compute. tauto.
Defined.

(** ** Spacing of the body lines *)

Lemma StronglySorted_snoc {A : Type} (R : A -> A -> Prop) (l : list A) (x : A) :
  StronglySorted R l -> Forall (fun a => R a x) l -> StronglySorted R (l ++ [x]).
Proof.
  induction 1 as [|a l Hsorted IH Hall]; intros Hx; cbn [app].
  - constructor; constructor.
  - inversion Hx as [|? ? Hax Hlx]; subst. constructor; [now apply IH|].
    apply Forall_app. split; [exact Hall | constructor; [exact Hax | constructor]].
Qed.

(** Heights that are spaced by a line height between two bounds are few. *)
Lemma spacedDown_length (heights : list Z) (low high : Z) :
  (low <= high)%Z ->
  spacedDown heights ->
  Forall (fun h => low <= h <= high)%Z heights ->
  (lineHeight * Z.of_nat (length heights) <= high - low + lineHeight)%Z.
Proof.
  unfold spacedDown, lineHeight, pt.
  intros Hlow Hsorted Hbounds.
  assert (Hhead : forall h rest, heights = h :: rest ->
            (low + 1400 * Z.of_nat (length rest) <= h)%Z).
  { induction Hsorted as [|a l Hsorted IH Hall]; intros h rest Heq; [discriminate|].
    injection Heq as -> ->. inversion Hbounds as [|? ? Ha Hl]; subst.
    destruct rest as [|b rest']; [cbn; lia|].
    specialize (IH Hl b rest' eq_refl).
    inversion Hall as [|? ? Hab _]; subst.
    cbn [length] in *. lia. }
  destruct heights as [|h rest]; [cbn; lia|].
  specialize (Hhead h rest eq_refl). inversion Hbounds as [|? ? Hh _]; subst.
  cbn [length]. lia.
Qed.

Lemma bodyHeightsOf_app (p q : PDFPage) :
  bodyHeightsOf (p ++ q) = bodyHeightsOf p ++ bodyHeightsOf q.
Proof. apply textHeights_app. Qed.

Lemma bodyLinesOf_heights (page : PDFPage) :
  length (bodyLinesOf page) = length (bodyHeightsOf page).
Proof.
  unfold bodyLinesOf, bodyHeightsOf, textHeights.
  induction page as [|op page IH]; [reflexivity|]. cbn [flat_map].
  rewrite !length_app, IH. destruct op as [text x0 y0 size color|]; [|reflexivity].
  destruct (size =? fontSize)%Z; reflexivity.
Qed.

Lemma place_linesInPlace (partialHash : option jsstring) (items : list Item) :
  forall s : Sheets,
    Forall linesInPlace (finished s) ->
    linesInPlace (open s) ->
    Forall (fun h => cursor s + lineHeight <= h)%Z (bodyHeightsOf (open s)) ->
    (cursor s <= height - topMargin)%Z ->
    Forall linesInPlace (finished (fold_left (place partialHash) items s))
    /\ linesInPlace (open (fold_left (place partialHash) items s)).
Proof.
  assert (Hfresh : linesInPlace [furnitureOp partialHash]).
  { split; [constructor | constructor]. }
  assert (Hwrite : forall s line,
            linesInPlace (open s) ->
            Forall (fun h => cursor s + lineHeight <= h)%Z (bodyHeightsOf (open s)) ->
            (bottomMargin <= cursor s <= height - topMargin)%Z ->
            linesInPlace (open (writeLine line s))
            /\ Forall (fun h => cursor (writeLine line s) + lineHeight <= h)%Z
                 (bodyHeightsOf (open (writeLine line s)))).
  { intros s line [Hspaced Hbounds] Habove Hcursor.
    unfold writeLine, linesInPlace. cbn [open cursor]. rewrite bodyHeightsOf_app.
    change (bodyHeightsOf [lineOp line (cursor s)]) with [cursor s].
    split; [split|].
    - apply StronglySorted_snoc; assumption.
    - apply Forall_app. split; [exact Hbounds | constructor; [exact Hcursor | constructor]].
    - apply Forall_app. split.
      + eapply Forall_impl; [|exact Habove]. cbn beta. unfold lineHeight, pt. lia.
      + constructor; [lia | constructor]. }
  induction items as [|item items IH]; intros s Hfin Hopen Habove Hcursor;
    cbn [fold_left]; [split; assumption|].
  destruct item as [|line]; cbn [place].
  - cbn [cursor]. destruct (cursor s - lineHeight <? bottomMargin)%Z.
    + apply IH; unfold turnPage; cbn [finished open cursor].
      * apply Forall_app. split; [exact Hfin | constructor; [exact Hopen | constructor]].
      * exact Hfresh.
      * constructor.
      * lia.
    + apply IH; cbn [finished open cursor]; try assumption.
      * eapply Forall_impl; [|exact Habove]. cbn beta. unfold lineHeight, pt. lia.
      * unfold lineHeight, pt. lia.
  - destruct (cursor s <? bottomMargin)%Z eqn:Hbelow.
    + destruct (Hwrite (turnPage partialHash s) line) as [Hplace Hnext];
        unfold turnPage; cbn [open cursor].
      * exact Hfresh.
      * constructor.
      * unfold height, topMargin, bottomMargin, pt, PageSizes_A4. cbn. lia.
      * apply IH; unfold writeLine, turnPage in *; cbn [finished open cursor] in *.
        -- apply Forall_app. split; [exact Hfin | constructor; [exact Hopen | constructor]].
        -- exact Hplace.
        -- exact Hnext.
        -- unfold lineHeight, pt. lia.
    + apply Z.ltb_ge in Hbelow.
      destruct (Hwrite s line Hopen Habove (conj Hbelow Hcursor)) as [Hplace Hnext].
      apply IH; unfold writeLine in *; cbn [finished open cursor] in *.
      * exact Hfin.
      * exact Hplace.
      * exact Hnext.
      * unfold lineHeight, pt. lia.
Qed.

Section Spacing.

Context {C : Collaborators}.

(** X10. On every body page the body lines are drawn one below the other,
    each at least a line height of 14 points below the one before, between
    the bottom margin of 80 points and the top margin of 80 points from
    the upper edge: no line is printed over another, and a page holds at
    most 49 of them. *)
Theorem body_lines_spaced (input : SealInput) (body : jsstring) (built : Built) :
  messagesHtml input = Some body ->
  truthy body = true ->
  buildSealedPdf input = Fulfilled built ->
  forall page,
    In page (bodyPagesOf (built_pdf built)) ->
    spacedDown (bodyHeightsOf page)
    /\ Forall (fun h => bottomMargin <= h <= height - topMargin)%Z (bodyHeightsOf page)
    /\ length (bodyLinesOf page) <= 49.
Proof.
  intros Hbody Htruthy Hbuilt. destruct (built_pdf_pages input built Hbuilt) as [Hpdf _].
  rewrite Hpdf, bodyPagesOf_sealedPages. unfold bodySheets. rewrite Hbody, Htruthy.
  set (s0 := {| finished := []; open := _; cursor := (height - pt 100)%Z |}).
  destruct (place_linesInPlace (partialHashOf input) (bodyItems body) s0)
    as [Hfin Hopen].
  - constructor.
  - split; [constructor | constructor].
  - constructor.
  - cbn [cursor s0]. unfold topMargin, pt. lia.
  - intros page Hin.
    assert (Hplace : linesInPlace page).
    { apply in_app_or in Hin. destruct Hin as [Hin|[<-|[]]]; [|exact Hopen].
      exact (proj1 (Forall_forall _ _) Hfin page Hin). }
    destruct Hplace as [Hspaced Hbounds]. split; [exact Hspaced|]. split; [exact Hbounds|].
    assert (Hroom : (bottomMargin <= height - topMargin)%Z)
      by (unfold bottomMargin, topMargin, height, pt, PageSizes_A4; cbn [snd]; lia).
    pose proof (spacedDown_length _ _ _ Hroom Hspaced Hbounds) as Hfew.
    rewrite bodyLinesOf_heights.
    unfold lineHeight, bottomMargin, topMargin, height, pt, PageSizes_A4 in Hfew.
    cbn [snd] in Hfew. lia.
Qed.

End Spacing.

Lemma body_lines_spaced_witness :
  exists built,
    @buildSealedPdf plainCollaborators (bodyInput (linesOfA 98)) = Fulfilled built
    /\ map (fun page => length (bodyLinesOf page)) (bodyPagesOf (built_pdf built))
       = [48; 49; 1]
    /\ forall page,
         In page (bodyPagesOf (built_pdf built)) ->
         spacedDown (bodyHeightsOf page) /\ length (bodyLinesOf page) <= 49.
Proof.
  eexists. split; [apply buildSealedPdf_succeeds, plain_succeed, bodyInput_fits|].
  split; [vm_compute; reflexivity|].
  intros page Hin.
  destruct (@body_lines_spaced plainCollaborators (bodyInput (linesOfA 98))
              (linesOfA 98) _ eq_refl eq_refl
              (@buildSealedPdf_succeeds plainCollaborators _ (plain_succeed _ (bodyInput_fits _)))
              page Hin)
    as (Hspaced & _ & Hfew).
  split; [exact Hspaced | exact Hfew].
Defined.

(** ** Words of the body *)

Lemma split_cons (sep : N) (s : jsstring) :
  exists piece more, split sep s = piece :: more.
Proof.
  induction s as [|c r (piece & more & IH)]; cbn [split]; [now eexists _, _|].
  destruct (c =? sep)%N; [now eexists _, _|]. rewrite IH. now eexists _, _.
Qed.

Lemma split_app_sep (sep : N) (a b : jsstring) :
  split sep (a ++ sep :: b) = split sep a ++ split sep b.
Proof.
  induction a as [|c a IH]; cbn [app split].
  - now rewrite N.eqb_refl.
  - destruct (c =? sep)%N; rewrite IH; [reflexivity|].
    destruct (split_cons sep a) as (piece & more & ->). reflexivity.
Qed.

Lemma split_no_sep (sep : N) (word : jsstring) :
  ~ In sep word -> split sep word = [word].
Proof.
  induction word as [|c word IH]; intros Hnot; cbn [split]; [reflexivity|].
  destruct (c =? sep)%N eqn:Hc.
  - apply N.eqb_eq in Hc. exfalso. apply Hnot. now left.
  - rewrite IH; [reflexivity|]. intros Hin. apply Hnot. now right.
Qed.

Lemma split_pieces (sep : N) (s : jsstring) :
  Forall (fun piece => ~ In sep piece) (split sep s).
Proof.
  induction s as [|c r IH]; cbn [split].
  - constructor; [intros [] | constructor].
  - destruct (c =? sep)%N eqn:Hc.
    + constructor; [intros [] | exact IH].
    + destruct (split sep r) as [|piece more].
      * constructor; [|constructor]. intros [->|[]]. now rewrite N.eqb_refl in Hc.
      * inversion IH as [|? ? Hpiece Hmore]; subst. constructor; [|exact Hmore].
        intros [->|Hin]; [now rewrite N.eqb_refl in Hc | now apply Hpiece].
Qed.

Lemma nonEmptyWords_word (word : jsstring) :
  ~ In 32%N word -> nonEmptyWords word = filter truthy [word].
Proof. intros Hnot. unfold nonEmptyWords. now rewrite split_no_sep. Qed.

Section Words.

Context {C : Collaborators}.

Lemma flat_map_paragraphItems (paragraphs : list jsstring) :
  itemLines (flat_map paragraphItems paragraphs)
  = flat_map paragraphLines
      (filter (fun paragraph => negb (JS.eqb (trim paragraph) [])) paragraphs).
Proof.
  induction paragraphs as [|p ps IH]; [reflexivity|].
  cbn [flat_map filter]. unfold itemLines in *. rewrite flat_map_app, IH.
  unfold paragraphItems. destruct (JS.eqb (trim p) []); cbn [negb flat_map app].
  - reflexivity.
  - f_equal. apply itemLines_TextLine.
Qed.

Lemma wrapWords_words (words : list jsstring) :
  Forall (fun word => ~ In 32%N word) words ->
  forall line,
    flat_map nonEmptyWords (fst (wrapWords words line))
      ++ nonEmptyWords (snd (wrapWords words line))
    = nonEmptyWords line ++ filter truthy words.
Proof.
  induction 1 as [|word rest Hword Hrest IH]; intros line; cbn [wrapWords].
  - cbn [fst snd flat_map filter app]. now rewrite app_nil_r.
  - assert (Htest : nonEmptyWords
                      (if (length line =? 0)%nat then word else line ++ [32%N] ++ word)
                    = nonEmptyWords line ++ filter truthy [word]).
    { destruct line as [|c line]; cbn [length Nat.eqb].
      - now apply nonEmptyWords_word.
      - unfold nonEmptyWords at 1 2. cbn [app].
        change (c :: line ++ 32%N :: word) with ((c :: line) ++ 32%N :: word).
        rewrite split_app_sep, filter_app. f_equal.
        now apply nonEmptyWords_word. }
    destruct (_ >? maxWidth)%Z.
    + specialize (IH word). destruct (wrapWords rest word) as [emitted pending].
      cbn [fst snd flat_map] in *. rewrite <- app_assoc, IH.
      rewrite (nonEmptyWords_word word Hword). cbn [filter].
      destruct (truthy word); reflexivity.
    + rewrite IH, Htest, <- app_assoc. f_equal. cbn [filter].
      destruct (truthy word); reflexivity.
Qed.

(** The lines of a paragraph hold its words, in their order. *)
Lemma paragraphLines_words (paragraph : jsstring) :
  flat_map nonEmptyWords (paragraphLines paragraph) = nonEmptyWords paragraph.
Proof.
  unfold paragraphLines.
  pose proof (wrapWords_words (split 32 paragraph) (split_pieces 32 paragraph) [])
    as Hwords.
  destruct (wrapWords (split 32 paragraph) []) as [emitted pending].
  cbn [fst snd] in Hwords. rewrite flat_map_app.
  change (nonEmptyWords [] ++ filter truthy (split 32 paragraph))
    with (nonEmptyWords paragraph) in Hwords.
  rewrite <- Hwords. f_equal.
  destruct pending as [|c pending]; cbn [length Nat.ltb Nat.leb flat_map];
    [reflexivity | now rewrite app_nil_r].
Qed.

Lemma bodySheets_words (input : SealInput) (body : jsstring) :
  messagesHtml input = Some body ->
  truthy body = true ->
  flat_map nonEmptyWords (flat_map bodyLinesOf (bodySheets input))
  = flat_map nonEmptyWords (writtenParagraphs body).
Proof.
  intros Hbody Htruthy. rewrite (bodySheets_lines input body Hbody Htruthy).
  unfold bodyItems, writtenParagraphs. rewrite flat_map_paragraphItems.
  induction (filter _ (split 10 body)) as [|p ps IH]; [reflexivity|].
  cbn [flat_map]. rewrite flat_map_app, IH, paragraphLines_words. reflexivity.
Qed.

(** X11. Word wrapping loses no word and adds none: read page after page
    and line after line, the words of the body lines of the document are
    the words of the paragraphs that are not blank, in their order. Only
    the spaces between the words, and the blank paragraphs, are not kept. *)
Theorem wrapping_keeps_the_words (input : SealInput) (body : jsstring) (built : Built) :
  messagesHtml input = Some body ->
  truthy body = true ->
  buildSealedPdf input = Fulfilled built ->
  flat_map nonEmptyWords (flat_map bodyLinesOf (bodyPagesOf (built_pdf built)))
  = flat_map nonEmptyWords (writtenParagraphs body).
Proof.
  intros Hbody Htruthy Hbuilt. destruct (built_pdf_pages input built Hbuilt) as [-> _].
  rewrite bodyPagesOf_sealedPages. now apply bodySheets_words.
Qed.

End Words.

Lemma wrapping_keeps_the_words_witness :
  exists built,
    @buildSealedPdf plainCollaborators (bodyInput spacedBody) = Fulfilled built
    /\ flat_map nonEmptyWords (flat_map bodyLinesOf (bodyPagesOf (built_pdf built)))
       = flat_map nonEmptyWords (writtenParagraphs spacedBody)
    /\ flat_map nonEmptyWords (writtenParagraphs spacedBody)
       = [lit "one"; lit "two"; lit "three"].
Proof.
  eexists. split; [apply buildSealedPdf_succeeds, plain_succeed, bodyInput_fits|].
  split; [|vm_compute; reflexivity].
  exact (@wrapping_keeps_the_words plainCollaborators (bodyInput spacedBody)
           spacedBody _ eq_refl eq_refl
           (@buildSealedPdf_succeeds plainCollaborators _ (plain_succeed _ (bodyInput_fits _)))).
Defined.

(** ** Number of pages of a body without blank paragraphs *)

Lemma linesLeft_below (y : Z) :
  (y <? bottomMargin)%Z = true -> linesLeft y = 0.
Proof. intros Hy. unfold linesLeft. now rewrite Hy. Qed.

Lemma linesLeft_written (y : Z) :
  (y <? bottomMargin)%Z = false -> linesLeft y = S (linesLeft (y - lineHeight)).
Proof.
  intros Hy. unfold linesLeft. rewrite Hy. apply Z.ltb_ge in Hy.
  unfold bottomMargin, lineHeight, pt in *.
  destruct (y - 100 * 14 <? 100 * 80)%Z eqn:Hnext.
  - apply Z.ltb_lt in Hnext.
    replace ((y - 100 * 80) / (100 * 14))%Z with 0%Z; [reflexivity|].
    symmetry. apply Z.div_small. lia.
  - apply Z.ltb_ge in Hnext.
    replace (y - 100 * 80)%Z with ((y - 100 * 14 - 100 * 80) + 1 * (100 * 14))%Z by lia.
    rewrite Z.div_add by lia.
    assert (0 <= (y - 100 * 14 - 100 * 80) / (100 * 14))%Z
      by (apply Z.div_pos; lia).
    lia.
Qed.

Lemma pageBreaks_lines (lines : list jsstring) :
  forall y,
    pageBreaks (map TextLine lines) y
    = if length lines <=? linesLeft y then 0
      else 1 + (length lines - linesLeft y - 1) / 49.
Proof.
  induction lines as [|line lines IH]; intros y; cbn [map pageBreaks length].
  - reflexivity.
  - destruct (y <? bottomMargin)%Z eqn:Hy.
    + rewrite IH, (linesLeft_below y Hy).
      change (linesLeft (height - topMargin - lineHeight)) with 48.
      cbn [Nat.leb]. destruct (length lines <=? 48) eqn:Hfew.
      * apply Nat.leb_le in Hfew. rewrite Nat.div_small by lia. reflexivity.
      * apply Nat.leb_gt in Hfew. f_equal.
        replace (S (length lines) - 0 - 1) with ((length lines - 48 - 1) + 1 * 49) by lia.
        rewrite Nat.div_add by lia. lia.
    + rewrite IH, (linesLeft_written y Hy). cbn [Nat.leb].
      destruct (length lines <=? linesLeft (y - lineHeight)); [reflexivity|].
      replace (S (length lines) - S (linesLeft (y - lineHeight)) - 1)
        with (length lines - linesLeft (y - lineHeight) - 1) by lia.
      reflexivity.
Qed.

Section PageCount.

Context {C : Collaborators}.

Lemma bodyItems_lines (body : jsstring) :
  noBlankParagraph body = true ->
  bodyItems body = map TextLine (flat_map paragraphLines (split 10 body)).
Proof.
  unfold noBlankParagraph, bodyItems.
  induction (split 10 body) as [|p ps IH]; cbn [forallb flat_map]; [reflexivity|].
  intros Hall. apply andb_prop in Hall. destruct Hall as [Hp Hps].
  rewrite map_app, (IH Hps). f_equal. unfold paragraphItems.
  destruct (JS.eqb (trim p) []); [discriminate Hp | reflexivity].
Qed.

(** X12. A body none of whose paragraphs is blank fills its pages to the
    bottom margin: the first body page takes 48 lines below its heading,
    every further one 49, so that a body wrapped into [n] lines gives a
    document of three pages when [n <= 48] and of [4 + (n - 49) / 49]
    pages otherwise. *)
Theorem pages_of_unbroken_body (input : SealInput) (body : jsstring) (built : Built) :
  messagesHtml input = Some body ->
  truthy body = true ->
  noBlankParagraph body = true ->
  buildSealedPdf input = Fulfilled built ->
  getPageCount (built_pdf built)
  = 3 + breaksForLines (length (flat_map paragraphLines (split 10 body)))
  /\ length (flat_map bodyLinesOf (bodyPagesOf (built_pdf built)))
     = length (flat_map paragraphLines (split 10 body)).
Proof.
  intros Hbody Htruthy Hall Hbuilt.
  destruct (built_pdf_pages input built Hbuilt) as [-> _].
  rewrite sealedPages_count, (bodySheets_count input body Hbody Htruthy).
  rewrite bodyPagesOf_sealedPages, (bodySheets_lines input body Hbody Htruthy).
  unfold bodyPageBreaks. rewrite (bodyItems_lines body Hall), itemLines_TextLine.
  split; [|reflexivity].
  rewrite pageBreaks_lines. change (linesLeft (height - pt 100)) with 48.
  unfold breaksForLines.
  destruct (length (flat_map paragraphLines (split 10 body)) <=? 48); [reflexivity|].
  rewrite <- Nat.sub_add_distr. reflexivity.
Qed.

End PageCount.

Lemma pages_of_unbroken_body_witness :
  exists built,
    @buildSealedPdf plainCollaborators (bodyInput (linesOfA 98)) = Fulfilled built
    /\ getPageCount (built_pdf built) = 5
    /\ length (flat_map bodyLinesOf (bodyPagesOf (built_pdf built))) = 98.
Proof.
  eexists. split; [apply buildSealedPdf_succeeds, plain_succeed, bodyInput_fits|].
  destruct (@pages_of_unbroken_body plainCollaborators (bodyInput (linesOfA 98))
              (linesOfA 98) _ eq_refl eq_refl eq_refl
              (@buildSealedPdf_succeeds plainCollaborators _ (plain_succeed _ (bodyInput_fits _))))
    as [Hpages Hlines].
  split.
  - rewrite Hpages. vm_compute. reflexivity.
  - rewrite Hlines. vm_compute. reflexivity.
Defined.

(** ** The image of the document *)

Lemma imagesOf_app (p q : PDFPage) : imagesOf (p ++ q) = imagesOf p ++ imagesOf q.
Proof. apply filter_app. Qed.

Lemma imagesOf_evidenceOps (evs : list Evidence) :
  forall y, imagesOf (evidenceOps y evs) = [].
Proof.
  induction evs as [|ev evs IH]; intros y; cbn [evidenceOps]; [reflexivity|].
  destruct (y <? pt 100)%Z; [apply IH|]. rewrite imagesOf_app, IH. reflexivity.
Qed.

Section Image.

Context {C : Collaborators}.

(** X13. The document holds one image, the code of the payload, drawn once
    on the last page in a square of 120 points whose left lower corner is
    50 points from the right and lower edges; no page before the last one
    holds an image. *)
Theorem one_image_on_the_last_page (input : SealInput) (built : Built) :
  buildSealedPdf input = Fulfilled built ->
  Forall (fun page => imagesOf page = []) (removelast (built_pdf built))
  /\ imagesOf (last (built_pdf built) [])
     = [DrawImage (qrImageOf input) (width - pt 170) (pt 50) (pt 120) (pt 120)].
Proof.
  intros Hbuilt. destruct (built_pdf_pages input built Hbuilt) as [-> _].
  unfold sealedPages. rewrite app_comm_cons, removelast_last, last_last.
  split; [|reflexivity].
  constructor.
  - unfold summaryPage. rewrite imagesOf_app, imagesOf_evidenceOps. reflexivity.
  - apply (bodySheets_invariant input (fun page => imagesOf page = []) (fun _ => True)).
    + reflexivity.
    + reflexivity.
    + intros p line y Hp _ _. rewrite imagesOf_app, Hp. reflexivity.
    + intros body _. apply Forall_forall. intros line _. exact I.
Qed.

End Image.

Lemma one_image_on_the_last_page_witness :
  exists built,
    @buildSealedPdf plainCollaborators (bodyInput (linesOfA 98)) = Fulfilled built
    /\ length (removelast (built_pdf built)) = 4
    /\ Forall (fun page => imagesOf page = []) (removelast (built_pdf built))
    /\ length (imagesOf (last (built_pdf built) [])) = 1.
Proof.
  eexists. split; [apply buildSealedPdf_succeeds, plain_succeed, bodyInput_fits|].
  destruct (@one_image_on_the_last_page plainCollaborators (bodyInput (linesOfA 98)) _
              (@buildSealedPdf_succeeds plainCollaborators _ (plain_succeed _ (bodyInput_fits _))))
    as [Hfront Hlast].
  split; [vm_compute; reflexivity|]. split; [exact Hfront|].
  rewrite Hlast. reflexivity.
Defined.

(** ** Placeholders *)

Lemma includes_cons (pat : jsstring) (c : N) (s : jsstring) :
  includes pat (c :: s) = startsWith pat (c :: s) || includes pat s.
Proof. reflexivity. Qed.

Lemma includes_nil (pat : jsstring) : includes pat [] = startsWith pat [].
Proof. cbn [includes]. apply orb_false_r. Qed.

(** Without an occurrence of the pattern, the text is left as it is. *)
Lemma replaceScan_absent (pat repl : jsstring) (s : jsstring) :
  forall before,
    includes pat s = false -> replaceScan pat repl before 0 s = s.
Proof.
  induction s as [|c s IH]; intros before Habsent; [reflexivity|].
  rewrite includes_cons in Habsent. apply orb_false_elim in Habsent.
  destruct Habsent as [Hstart Hrest].
  cbn [replaceScan]. rewrite Hstart. f_equal. now apply IH.
Qed.

Lemma startsWith_In (pat s : jsstring) :
  startsWith pat s = true -> forall c, In c pat -> In c s.
Proof.
  revert s. induction pat as [|p pat IH]; intros [|c s]; cbn [startsWith];
    intros Hstart z Hin; try discriminate; try contradiction.
  apply andb_prop in Hstart. destruct Hstart as [Hp Hrest]. apply N.eqb_eq in Hp. subst c.
  destruct Hin as [<-|Hin]; [now left | right; now apply (IH s Hrest)].
Qed.

Lemma includes_In (pat s : jsstring) :
  includes pat s = true -> forall c, In c pat -> In c s.
Proof.
  induction s as [|c s IH]; intros Hinc z Hin.
  - rewrite includes_nil in Hinc. exact (startsWith_In pat [] Hinc z Hin).
  - rewrite includes_cons in Hinc. apply orb_prop in Hinc. destruct Hinc as [Hstart|Hrest].
    + exact (startsWith_In pat (c :: s) Hstart z Hin).
    + right. exact (IH Hrest z Hin).
Qed.

Lemma startsWith_app_left (a b s : jsstring) :
  startsWith (a ++ b) s = true -> startsWith a s = true.
Proof.
  revert s. induction a as [|x a IH]; intros s Hstart; [reflexivity|].
  destruct s as [|c s]; cbn [app startsWith] in *; [discriminate|].
  apply andb_prop in Hstart. destruct Hstart as [Hx Hrest].
  rewrite Hx. cbn [andb]. now apply IH.
Qed.

Lemma includes_app_left (a b s : jsstring) :
  includes a s = false -> includes (a ++ b) s = false.
Proof.
  induction s as [|c s IH]; intros Habsent.
  - rewrite includes_nil in *. destruct (startsWith (a ++ b) []) eqn:Hstart; [|reflexivity].
    apply startsWith_app_left in Hstart. congruence.
  - rewrite includes_cons in *. apply orb_false_elim in Habsent.
    destruct Habsent as [Hstart Hrest]. rewrite (IH Hrest), orb_false_r.
    destruct (startsWith (a ++ b) (c :: s)) eqn:Hab; [|reflexivity].
    apply startsWith_app_left in Hab. congruence.
Qed.

(** A pattern does not start where a foreign replacement text does. *)
Lemma startsWith_replaced (pat : jsstring) :
  forall repl rest,
    pat <> [] -> ~ In (last pat 0%N) repl -> startsWith repl pat = false ->
    startsWith pat (repl ++ rest) = false.
Proof.
  induction pat as [|q pat IH]; intros repl rest Hpat Hlast Hwithin; [contradiction|].
  destruct repl as [|c repl]; [discriminate Hwithin|].
  cbn [app startsWith] in *. destruct (N.eqb_spec c q) as [->|Hne].
  - rewrite N.eqb_refl. cbn [andb] in *.
    destruct pat as [|q' pat]; [exfalso; apply Hlast; now left|].
    apply IH; [discriminate | | exact Hwithin].
    intros Hin. apply Hlast. right. exact Hin.
  - destruct (N.eqb_spec q c) as [->|_]; [contradiction | reflexivity].
Qed.

(** A mismatch of a pattern is not repaired by the replacements that
    follow it. *)
Lemma scan_keeps_mismatch (pat repl : jsstring) (s : jsstring) :
  ~ In 36%N repl ->
  forall suffix before,
    suffix <> [] -> ~ In (last suffix 0%N) repl -> includes repl suffix = false ->
    startsWith suffix s = false ->
    startsWith suffix (replaceScan pat repl before 0 s) = false.
Proof.
  intros Hplain. induction s as [|c s IH]; intros suffix before Hsuffix Hlast Hwithin Hmis.
  - exact Hmis.
  - cbn [replaceScan]. destruct (startsWith pat (c :: s)).
    + rewrite (getSubstitution_plain repl _ _ _ Hplain).
      apply startsWith_replaced; [exact Hsuffix | exact Hlast |].
      destruct suffix as [|q suffix]; [contradiction|].
      rewrite includes_cons in Hwithin. now apply orb_false_elim in Hwithin.
    + destruct suffix as [|q suffix]; [contradiction|].
      cbn [startsWith] in *. destruct (q =? c)%N; [|reflexivity]. cbn [andb] in *.
      destruct suffix as [|q' suffix]; [destruct s; discriminate Hmis|].
      apply IH; [discriminate | | | exact Hmis].
      * exact Hlast.
      * rewrite includes_cons in Hwithin. now apply orb_false_elim in Hwithin.
Qed.

Lemma mismatch_after_scan (pat other repl before : jsstring) (c : N) (s : jsstring) :
  foreign pat repl ->
  startsWith pat (c :: s) = false ->
  startsWith pat (c :: replaceScan other repl before 0 s) = false.
Proof.
  intros (Hplain & _ & Hlast & Hwithin) Hmis.
  destruct pat as [|p pat]; [discriminate Hmis|].
  cbn [startsWith] in *. destruct (p =? c)%N; [|reflexivity]. cbn [andb] in *.
  destruct pat as [|p' pat]; [destruct s; discriminate Hmis|].
  apply scan_keeps_mismatch; [exact Hplain | discriminate | exact Hlast | | exact Hmis].
  rewrite includes_cons in Hwithin. now apply orb_false_elim in Hwithin.
Qed.

Lemma includes_after_foreign (pat repl rest : jsstring) :
  pat <> [] -> ~ In (hd 0%N pat) repl ->
  includes pat rest = false -> includes pat (repl ++ rest) = false.
Proof.
  intros Hpat Hfirst Hrest. induction repl as [|c repl IH]; [exact Hrest|].
  cbn [app]. rewrite includes_cons, IH, orb_false_r.
  - destruct pat as [|p pat]; [contradiction|]. cbn [startsWith hd] in *.
    destruct (N.eqb_spec p c) as [->|_]; [exfalso; apply Hfirst; now left | reflexivity].
  - intros Hin. apply Hfirst. now right.
Qed.

(** Replacing every occurrence of a pattern by a foreign text leaves no
    occurrence of the pattern. *)
Lemma replaceScan_clears (pat repl : jsstring) (s : jsstring) :
  pat <> [] -> foreign pat repl ->
  forall skip before, includes pat (replaceScan pat repl before skip s) = false.
Proof.
  intros Hpat Hforeign. pose proof Hforeign as (Hplain & Hfirst & _).
  induction s as [|c s IH]; intros skip before; cbn [replaceScan].
  - rewrite includes_nil. destruct pat; [contradiction | reflexivity].
  - destruct skip as [|k]; [|apply IH].
    destruct (startsWith pat (c :: s)) eqn:Hstart.
    + rewrite (getSubstitution_plain repl _ _ _ Hplain).
      apply includes_after_foreign; [exact Hpat | exact Hfirst | apply IH].
    + rewrite includes_cons, IH, orb_false_r.
      now apply mismatch_after_scan.
Qed.

(** Replacing the occurrences of one pattern by a text foreign to another
    pattern brings about no occurrence of that other pattern. *)
Lemma replaceScan_keeps_absent (pat other repl : jsstring) (s : jsstring) :
  pat <> [] -> foreign pat repl ->
  forall skip before,
    includes pat s = false ->
    includes pat (replaceScan other repl before skip s) = false.
Proof.
  intros Hpat Hforeign. pose proof Hforeign as (Hplain & Hfirst & _).
  induction s as [|c s IH]; intros skip before Habsent; cbn [replaceScan].
  - exact Habsent.
  - rewrite includes_cons in Habsent. apply orb_false_elim in Habsent.
    destruct Habsent as [Hstart Hrest].
    destruct skip as [|k]; [|now apply IH].
    destruct (startsWith other (c :: s)).
    + rewrite (getSubstitution_plain repl _ _ _ Hplain).
      apply includes_after_foreign; [exact Hpat | exact Hfirst | now apply IH].
    + rewrite includes_cons, (IH 0 _ Hrest), orb_false_r.
      now apply mismatch_after_scan.
Qed.

Lemma plainUnits_In (s : jsstring) :
  plainUnits s = true -> ~ In 36%N s /\ ~ In 91%N s /\ ~ In 93%N s.
Proof.
  intros Hplain. repeat split; intros Hin;
    apply (proj1 (forallb_forall _ _) Hplain) in Hin; discriminate Hin.
Qed.

Lemma plainUnits_app (a b : jsstring) :
  plainUnits (a ++ b) = plainUnits a && plainUnits b.
Proof. apply forallb_app. Qed.

Lemma plainUnits_hex (s : jsstring) :
  forallb isLowerHex s = true -> plainUnits s = true.
Proof.
  intros Hhex. apply forallb_forall. intros c Hin.
  apply (proj1 (forallb_forall _ _) Hhex) in Hin.
  unfold isLowerHex in Hin. unfold isPlainUnit.
  destruct (N.eqb_spec c 36) as [->|_]; [discriminate Hin|].
  destruct (N.eqb_spec c 91) as [->|_]; [discriminate Hin|].
  destruct (N.eqb_spec c 93) as [->|_]; [discriminate Hin | reflexivity].
Qed.

Lemma plainUnits_digits (fuel : nat) (radix : N) :
  forall n acc,
    plainUnits acc = true -> plainUnits (digitsOf fuel radix n acc) = true.
Proof.
  assert (Hdigit : forall d, isPlainUnit (digitChar d) = true).
  { intros d. unfold isPlainUnit, digitChar.
    destruct (N.ltb_spec d 10);
      repeat match goal with
             | |- context [(?a =? ?b)%N] => destruct (N.eqb_spec a b); [lia|]
             end; reflexivity. }
  unfold plainUnits.
  induction fuel as [|fuel IH]; intros n acc Hacc; cbn [digitsOf]; [exact Hacc|].
  destruct (n <? radix)%N.
  - cbn [forallb]. rewrite Hdigit. exact Hacc.
  - apply IH. cbn [forallb]. rewrite Hdigit. exact Hacc.
Qed.

Lemma plainUnits_replaceColonDot (s : jsstring) :
  plainUnits s = true -> plainUnits (replaceColonDot s) = true.
Proof.
  unfold replaceColonDot, plainUnits. induction s as [|c s IH]; [reflexivity|].
  cbn [forallb map]. intros Hs. apply andb_prop in Hs. destruct Hs as [Hc Hs].
  rewrite (IH Hs), andb_true_r.
  destruct ((c =? 58) || (c =? 46))%N; [reflexivity | exact Hc].
Qed.

(** A plain text that a placeholder cannot hold is foreign to it. *)
Lemma plain_foreign (pat repl : jsstring) :
  hd 0%N pat = 91%N -> last pat 0%N = 93%N ->
  plainUnits repl = true -> includes repl pat = false ->
  foreign pat repl.
Proof.
  intros Hfirst Hlast Hplain Hwithin. unfold foreign. rewrite Hfirst, Hlast.
  destruct (plainUnits_In repl Hplain) as (Hdollar & Hopen & Hclose).
  repeat split; assumption.
Qed.

Section Placeholders.

Context {C : Collaborators} {V : Services}.

(** The anchor either records a failure, or the path and the record of the
    signed-in user. *)
Lemma tryAnchorToCloud_cases (fileName pdfHash : jsstring) (pdfBytes : list byte)
  (uploadedFiles : list UploadedFile) :
  (exists e, tryAnchorToCloud fileName pdfHash pdfBytes uploadedFiles = AnchorFailed e)
  \/ (exists uid,
        getCurrentUser = Fulfilled (Some uid)
        /\ tryAnchorToCloud fileName pdfHash pdfBytes uploadedFiles
           = AnchorConfirmed (lit "users/" ++ uid ++ lit "/reports/" ++ fileName)
               (lit "report-" ++ toString 10 Date_now)).
Proof.
  unfold tryAnchorToCloud, anchorToCloud.
  destruct getCurrentUser as [[uid|]|e]; cbn [await];
    [|left; eexists; reflexivity | left; eexists; reflexivity].
  destruct (uploadBytes _ _) as [[]|e]; cbn [await]; [|left; eexists; reflexivity].
  destruct (setDoc _ _) as [[]|e]; cbn [await]; [|left; eexists; reflexivity].
  right. exists uid. split; reflexivity.
Qed.

(** The three texts put in the place of the placeholders are foreign to
    each of them. *)
Lemma replacements_foreign (pat : jsstring) (fileName pdfHash : jsstring)
  (bytes : list byte) (uploadedFiles : list UploadedFile) :
  pat = hashPlaceholder \/ pat = cloudAnchorPlaceholder \/ pat = firestorePlaceholder ->
  plainUnits fileName = true ->
  (forall uid, getCurrentUser = Fulfilled (Some uid) -> plainUnits uid = true) ->
  foreign pat (stringToHash bytes)
  /\ foreign pat
       (orNA (storagePathOf (tryAnchorToCloud fileName pdfHash bytes uploadedFiles)))
  /\ foreign pat
       (orNA (firestoreIdOf (tryAnchorToCloud fileName pdfHash bytes uploadedFiles))).
Proof.
  intros Hpat Hname Huser.
  assert (Hshape : hd 0%N pat = 91%N /\ last pat 0%N = 93%N /\ length pat <= 45
                   /\ ~ In 47%N pat /\ includes (lit "report-") pat = false
                   /\ includes (lit "N/A") pat = false).
  { destruct Hpat as [-> | [-> | ->]]; vm_compute; repeat split; try lia;
      intros Hin; repeat (destruct Hin as [Hin|Hin]; [discriminate Hin|]); exact Hin. }
  destruct Hshape as (Hfirst & Hlast & Hshort & Hslash & Hreport & Hna).
  assert (Hfailed : foreign pat (lit "N/A")).
  { apply plain_foreign; [exact Hfirst | exact Hlast | reflexivity | exact Hna]. }
  split; [|split].
  - apply plain_foreign; [exact Hfirst | exact Hlast | |].
    + apply plainUnits_hex, stringToHash_hex.
    + destruct (includes (stringToHash bytes) pat) eqn:Hwithin; [|reflexivity].
      apply includes_length in Hwithin.
      pose proof (proj1 (hex_of_bytes (SHA512.digest bytes))) as Hlength.
      rewrite digest_length in Hlength.
      change (join (map hexOfByte (SHA512.digest bytes))) with (stringToHash bytes)
        in Hlength.
      lia.
  - destruct (tryAnchorToCloud_cases fileName pdfHash bytes uploadedFiles)
      as [[e ->]|(uid & Hsigned & ->)]; [exact Hfailed|].
    cbn [storagePathOf orNA].
    change (orElse (lit "users/" ++ uid ++ lit "/reports/" ++ fileName) (lit "N/A"))
      with (lit "users/" ++ uid ++ lit "/reports/" ++ fileName).
    apply plain_foreign; [exact Hfirst | exact Hlast | |].
    + rewrite !plainUnits_app, (Huser uid Hsigned), Hname. reflexivity.
    + destruct (includes (lit "users/" ++ uid ++ lit "/reports/" ++ fileName) pat)
        eqn:Hwithin; [|reflexivity].
      exfalso. apply Hslash. apply (includes_In _ _ Hwithin).
      apply in_or_app. left. vm_compute. tauto.
  - destruct (tryAnchorToCloud_cases fileName pdfHash bytes uploadedFiles)
      as [[e ->]|(uid & Hsigned & ->)]; [exact Hfailed|].
    cbn [firestoreIdOf orNA].
    change (orElse (lit "report-" ++ toString 10 Date_now) (lit "N/A"))
      with (lit "report-" ++ toString 10 Date_now).
    apply plain_foreign; [exact Hfirst | exact Hlast | |].
    + rewrite plainUnits_app. unfold toString.
      rewrite (plainUnits_digits _ 10 Date_now [] eq_refl). reflexivity.
    + now apply includes_app_left.
Qed.

(** X14. A message that holds none of the three placeholders keeps its
    content when it is sealed: nothing is replaced, whatever the hash and
    the anchor are. *)
Theorem sealing_without_placeholders (messages : list ChatMessage)
  (uploadedFiles : list UploadedFile) (messageId : jsstring)
  (index : nat) (message : ChatMessage)
  (result : SealResult) (updatedMessages : list ChatMessage) :
  findIndex messageId messages = Some index ->
  nth_error messages index = Some message ->
  performSealingProcess messages uploadedFiles messageId
  = Fulfilled (Some (result, updatedMessages)) ->
  includes hashPlaceholder (content message) = false ->
  includes cloudAnchorPlaceholder (content message) = false ->
  includes firestorePlaceholder (content message) = false ->
  updatedContent result = content message
  /\ option_map content (nth_error updatedMessages index) = Some (content message).
Proof.
  intros Hfind Hnth Hdone Hhash Hcloud Hfire.
  destruct (makeSealedPdf (sealRequest message uploadedFiles)) as [bytes|e] eqn:Hpdf;
    [|rewrite (performSealingProcess_found messages uploadedFiles messageId
                 index message Hfind Hnth), Hpdf in Hdone; discriminate Hdone].
  destruct (performSealingProcess_fulfilled messages uploadedFiles messageId
              index message bytes Hfind Hnth Hpdf)
    as (result' & updated' & Hdone' & _ & _ & _ & _ & Hcontent).
  assert (Hsame : result' = result) by congruence. subst result'.
  assert (Hkept : updatedContent result = content message).
  { rewrite Hcontent. unfold replaceAll.
    rewrite (replaceScan_absent hashPlaceholder _ _ [] Hhash).
    rewrite (replaceScan_absent cloudAnchorPlaceholder _ _ [] Hcloud).
    apply (replaceScan_absent firestorePlaceholder _ _ [] Hfire). }
  split; [exact Hkept|].
  rewrite (performSealingProcess_found messages uploadedFiles messageId
             index message Hfind Hnth), Hpdf in Hdone.
  cbn [await] in Hdone. injection Hdone as Hresult <-.
  assert (Hlt : index < length messages).
  { apply nth_error_Some. rewrite Hnth. discriminate. }
  rewrite (assign_nth_error _ _ index index Hlt), Nat.eqb_refl.
  rewrite <- Hresult in Hkept. cbn [updatedContent] in Hkept.
  cbn [option_map content]. now rewrite Hkept.
Qed.

(** X15. After sealing, the content of the message holds none of the three
    placeholders any more, wherever and however often they stood in it,
    provided that the time stamp and the identifier of the signed-in user
    hold neither a dollar sign nor a square bracket. *)
Theorem sealed_content_has_no_placeholder (messages : list ChatMessage)
  (uploadedFiles : list UploadedFile) (messageId : jsstring)
  (result : SealResult) (updatedMessages : list ChatMessage) :
  performSealingProcess messages uploadedFiles messageId
  = Fulfilled (Some (result, updatedMessages)) ->
  plainUnits now_toISOString = true ->
  (forall uid, getCurrentUser = Fulfilled (Some uid) -> plainUnits uid = true) ->
  includes hashPlaceholder (updatedContent result) = false
  /\ includes cloudAnchorPlaceholder (updatedContent result) = false
  /\ includes firestorePlaceholder (updatedContent result) = false.
Proof.
  intros Hdone Hstamp Huser.
  destruct (findIndex messageId messages) as [index|] eqn:Hfind;
    [|unfold performSealingProcess in Hdone; rewrite Hfind in Hdone; discriminate Hdone].
  destruct (findIndex_Some messageId messages index Hfind) as [(message & Hnth & _) _].
  destruct (makeSealedPdf (sealRequest message uploadedFiles)) as [bytes|e] eqn:Hpdf;
    [|rewrite (performSealingProcess_found messages uploadedFiles messageId
                 index message Hfind Hnth), Hpdf in Hdone; discriminate Hdone].
  destruct (performSealingProcess_fulfilled messages uploadedFiles messageId
              index message bytes Hfind Hnth Hpdf)
    as (result' & updated' & Hdone' & _ & _ & Hname & Hanchor & Hcontent).
  assert (Hsame : result' = result) by congruence. subst result'.
  assert (Hplain : plainUnits (fileName result) = true).
  { rewrite Hname, !plainUnits_app, (plainUnits_replaceColonDot _ Hstamp). reflexivity. }
  rewrite Hcontent, Hanchor. clear Hcontent Hanchor Hdone Hdone'.
  set (anchor := tryAnchorToCloud (fileName result) (hash result) bytes uploadedFiles).
  pose proof (replacements_foreign hashPlaceholder (fileName result) (hash result)
                bytes uploadedFiles (or_introl eq_refl) Hplain Huser)
    as (Hhash1 & Hhash2 & Hhash3).
  pose proof (replacements_foreign cloudAnchorPlaceholder (fileName result) (hash result)
                bytes uploadedFiles (or_intror (or_introl eq_refl)) Hplain Huser)
    as (_ & Hcloud2 & Hcloud3).
  pose proof (replacements_foreign firestorePlaceholder (fileName result) (hash result)
                bytes uploadedFiles (or_intror (or_intror eq_refl)) Hplain Huser)
    as (_ & _ & Hfire3).
  fold anchor in Hhash2, Hhash3, Hcloud2, Hcloud3, Hfire3.
  unfold replaceAll. split; [|split].
  - apply replaceScan_keeps_absent; [discriminate | exact Hhash3 |].
    apply replaceScan_keeps_absent; [discriminate | exact Hhash2 |].
    apply replaceScan_clears; [discriminate | exact Hhash1].
  - apply replaceScan_keeps_absent; [discriminate | exact Hcloud3 |].
    apply replaceScan_clears; [discriminate | exact Hcloud2].
  - apply replaceScan_clears; [discriminate | exact Hfire3].
Qed.

End Placeholders.

Lemma sealing_without_placeholders_witness :
  exists result updatedMessages,
    @performSealingProcess plainCollaborators plainServices reportMessages twoFiles
      (lit "r1")
    = Fulfilled (Some (result, updatedMessages))
    /\ updatedContent result = lit "## Key Findings" ++ [10%N] ++ lit "none".
Proof.
  destruct (@performSealingProcess_fulfilled plainCollaborators plainServices
              reportMessages twoFiles (lit "r1") 0 _ _ eq_refl eq_refl
              (plain_makeSealedPdf _ (plainRequest_fits _)))
    as (result & updatedMessages & Hdone & _).
  exists result, updatedMessages. split; [exact Hdone|].
  exact (proj1 (@sealing_without_placeholders plainCollaborators plainServices
                  reportMessages twoFiles (lit "r1") 0 _ result updatedMessages
                  eq_refl eq_refl Hdone eq_refl eq_refl eq_refl)).
Defined.

Lemma sealed_content_has_no_placeholder_witness :
  exists result updatedMessages,
    @performSealingProcess plainCollaborators plainServices twoMessages twoFiles
      (lit "m1")
    = Fulfilled (Some (result, updatedMessages))
    /\ includes hashPlaceholder (updatedContent result) = false
    /\ includes cloudAnchorPlaceholder (updatedContent result) = false
    /\ includes firestorePlaceholder (updatedContent result) = false.
Proof.
  destruct (@performSealingProcess_fulfilled plainCollaborators plainServices
              twoMessages twoFiles (lit "m1") 1 _ _ eq_refl eq_refl
              (plain_makeSealedPdf _ (plainRequest_fits _)))
    as (result & updatedMessages & Hdone & _).
  exists result, updatedMessages. split; [exact Hdone|].
  apply (@sealed_content_has_no_placeholder plainCollaborators plainServices
           twoMessages twoFiles (lit "m1") result updatedMessages Hdone eq_refl).
  intros uid Hsigned. injection Hsigned as <-. reflexivity.
Defined.

(** ** Sealing a report *)

(** The flattening on the constructs it knows. *)
Lemma markdownToPlainText_examples :
  markdownToPlainText (lit "**Bold** and *it*") = lit "Bold and it"
  /\ markdownToPlainText (lit "a_b_c") = lit "abc"
  /\ markdownToPlainText (lit "# Title") = lit "Title"
  /\ markdownToPlainText (lit "[text](url) and `code`") = lit "text and code"
  /\ markdownToPlainText (lit "- a" ++ [10%N] ++ lit "- b")
     = [10; 8226; 32]%N ++ lit "a" ++ [10; 8226; 32]%N ++ lit "b"
  /\ markdownToPlainText (lit "> quoted") = [10%N] ++ lit "quoted"
  /\ markdownToPlainText (lit "plain text") = lit "plain text".
Proof. vm_compute. repeat split; reflexivity. Qed.

Section Report.

Context {C : Collaborators} {V : Services}.

(** X16. A message that contains "## Key Findings" is sealed as a report:
    under the title "Sealed Forensic Report", the bytes that are handed
    back are those of a document of three pages or more whose body lines
    hold, in their order, the words of the plain text of the message, the
    blank paragraphs apart, provided the plain text is not empty. *)
Theorem sealing_a_report (messages : list ChatMessage)
  (uploadedFiles : list UploadedFile) (messageId : jsstring)
  (index : nat) (message : ChatMessage)
  (result : SealResult) (updatedMessages : list ChatMessage) :
  findIndex messageId messages = Some index ->
  nth_error messages index = Some message ->
  includes (lit "## Key Findings") (content message) = true ->
  truthy (markdownToPlainText (content message)) = true ->
  performSealingProcess messages uploadedFiles messageId
  = Fulfilled (Some (result, updatedMessages)) ->
  title (sealRequest message uploadedFiles) = lit "Sealed Forensic Report"
  /\ exists built,
       buildSealedPdf (sealRequest message uploadedFiles) = Fulfilled built
       /\ pdfBytes result = serialize (built_pdf built)
       /\ 3 <= getPageCount (built_pdf built)
       /\ flat_map nonEmptyWords
            (flat_map bodyLinesOf (bodyPagesOf (built_pdf built)))
          = flat_map nonEmptyWords
              (writtenParagraphs (markdownToPlainText (content message))).
Proof.
  intros Hfind Hnth Hreport Htruthy Hdone.
  assert (Htitle : title (sealRequest message uploadedFiles)
                   = lit "Sealed Forensic Report").
  { cbn [sealRequest title]. now rewrite Hreport. }
  assert (Hbody : messagesHtml (sealRequest message uploadedFiles)
                  = Some (markdownToPlainText (content message))).
  { cbn [sealRequest messagesHtml]. now rewrite Hreport. }
  split; [exact Htitle|].
  destruct (makeSealedPdf_built _ _
              (performSealingProcess_returned messages uploadedFiles messageId index
                 message result updatedMessages Hfind Hnth Hdone))
    as (built & Hbuilt & Hbytes).
  destruct (built_pdf_pages _ built Hbuilt) as [Hpdf _].
  exists built. split; [exact Hbuilt|]. split; [exact Hbytes|]. rewrite Hpdf. split.
  - rewrite sealedPages_count, (bodySheets_count _ _ Hbody Htruthy). lia.
  - rewrite bodyPagesOf_sealedPages. now apply bodySheets_words.
Qed.

End Report.

Lemma sealing_a_report_witness :
  exists result updatedMessages built,
    @performSealingProcess plainCollaborators plainServices reportMessages twoFiles
      (lit "r1")
    = Fulfilled (Some (result, updatedMessages))
    /\ markdownToPlainText (lit "## Key Findings" ++ [10%N] ++ lit "none")
       = lit "Key Findings" ++ [10%N] ++ lit "none"
    /\ pdfBytes result = textBytes (built_pdf built)
    /\ 3 <= getPageCount (built_pdf built)
    /\ flat_map nonEmptyWords (flat_map bodyLinesOf (bodyPagesOf (built_pdf built)))
       = [lit "Key"; lit "Findings"; lit "none"].
Proof.
  destruct (@performSealingProcess_fulfilled plainCollaborators plainServices
              reportMessages twoFiles (lit "r1") 0 _ _ eq_refl eq_refl
              (plain_makeSealedPdf _ (plainRequest_fits _)))
    as (result & updatedMessages & Hdone & _).
  destruct (@sealing_a_report plainCollaborators plainServices reportMessages twoFiles
              (lit "r1") 0 (nth 0 reportMessages {| id := []; content := [] |})
              result updatedMessages eq_refl eq_refl eq_refl eq_refl Hdone)
    as (_ & built & _ & Hbytes & Hcount & Hwords).
  exists result, updatedMessages, built.
  split; [exact Hdone|]. split; [vm_compute; reflexivity|].
  split; [exact Hbytes|]. split; [exact Hcount|].
  rewrite Hwords. vm_compute. reflexivity.
Defined.
